(** * goqu: the INSERT, UPDATE, DELETE and TRUNCATE dataset builders

    A shallow embedding of the four statement builders of package [goqu]
    (insert_dataset.go, update_dataset.go, delete_dataset.go and
    truncate_dataset.go).  Builders are Go pointers, so every method runs in
    a small state-and-panic monad over a heap of builder objects: [copy]
    allocates, [SetError] and [FromQuery] write through a pointer.
    [Executor] is left out: it hands the builder to the query factory, an
    external collaborator. *)

From stdpp Require Import base option list gmap strings.
From Stdlib Require Import NArith ZArith.

Local Open Scope string_scope.
Local Open Scope list_scope.
Local Set Warnings "-register-all".

(** ** Pointers and dynamic values *)

(** The address of a heap object. *)
Definition loc := positive.

(** A pointer to a statement builder; Go pointers are typed, so the kind of
    the pointee is part of the pointer. *)
Inductive StmtRef :=
| SelectRef (p : loc)
| InsertRef (p : loc)
| UpdateRef (p : loc)
| DeleteRef (p : loc)
| TruncateRef (p : loc).

#[global] Instance StmtRef_eq_dec : EqDecision StmtRef.
Proof. solve_decision. Defined.

(** Go's [error] values that the builders create or receive.  The three
    package-level sentinels are distinct objects even where their texts
    coincide; [ErrIncompatibleDialects] is the value built by [fmt.Errorf] in
    [FromQuery]; [NilDereference] is the run-time panic of a method called
    through a pointer that refers to no object. *)
Inductive error :=
| ErrUnsupportedIntoType
| ErrUnsupportedUpdateTableType
| ErrBadFromArgument
| ErrIncompatibleDialects (insertDialect selectDialect : string)
| NilDereference
| ErrorString (msg : string).

#[global] Instance error_eq_dec : EqDecision error.
Proof. solve_decision. Defined.

(** Go's [SQLDialect] is an interface whose implementations are pointers:
    [==] and [!=] on two dialects compare the objects' identities. *)
Inductive SQLDialect := DialectAt (addr : N).

#[global] Instance SQLDialect_eq_dec : EqDecision SQLDialect.
Proof. solve_decision. Defined.

(** [exec.QueryFactory], an interface value that the builders only carry
    along; [None] is Go's [nil]. *)
Definition QueryFactory := option N.

(** ** Package [exp]: expressions and clause records *)

Module exp.

(** Modelled from the spec: package [exp] is not among the sources.  An
    identifier is "possibly schema-qualified". *)
Record IdentifierExpression := {
  schema : string;
  table : string;
  col : string;
}.

#[global] Instance IdentifierExpression_eq_dec : EqDecision IdentifierExpression.
Proof. solve_decision. Defined.

(** Modelled from the spec: package [exp] is not among the sources.  The
    "closed, tagged set of variants" of expression nodes: identifiers,
    literal passthrough text, statement builders used as sub-statements (held
    by pointer), and one constructor for every other node kind (aliased and
    ordered expressions, column lists, conflict descriptors, predicates) with
    its sub-expressions. *)
Inductive Expression :=
| Identifier (i : IdentifierExpression)
| Literal (sql : string)
| Subquery (r : StmtRef)
| Compound (kind : string) (parts : list Expression).

(** Go's [interface{}] as the builders receive it. *)
Inductive Value :=
| VNil
| VBool (b : bool)
| VInt (z : Z)
| VUint (n : N)
| VString (s : string)
| VExpr (e : Expression)
| VOther (tag : N).

(** Modelled from the spec: "column lists (ordered sequence ...)". *)
Definition ColumnListExpression := list Expression.

(** Modelled from the spec: "common-table-expression descriptors (name,
    optional column-name list, recursive flag, source sub-statement)"; the
    column-name list stays inside [name], as the caller wrote it. *)
Record CommonTableExpression := {
  recursive : bool;
  name : string;
  subquery : Expression;
}.

Definition NewCommonTableExpression (recursive : bool) (name : string)
    (subquery : Expression) : CommonTableExpression :=
  {| recursive := recursive; name := name; subquery := subquery |}.

(** *** Statement pointers held by expressions

    The [_refs] functions of this module list the statement builders that
    an expression, a value or a clause record holds by pointer. *)

Fixpoint Expression_refs (e : Expression) : list StmtRef :=
  match e with
  | Identifier _ => []
  | Literal _ => []
  | Subquery r => [r]
  | Compound _ parts => concat (map Expression_refs parts)
  end.

Definition Value_refs (v : Value) : list StmtRef :=
  match v with
  | VExpr e => Expression_refs e
  | _ => []
  end.

Definition opt_refs {A} (f : A → list StmtRef) (o : option A) : list StmtRef :=
  match o with Some a => f a | None => [] end.

Definition list_refs {A} (f : A → list StmtRef) (l : list A) : list StmtRef :=
  concat (map f l).

(** *** TRUNCATE clauses *)

(** Modelled from the spec: "CASCADE flag, RESTRICT flag, IDENTITY/RESTART
    option (string, dialect-interpreted)"; the field names are the ones the
    builder assigns. *)
Record TruncateOptions := {
  Cascade : bool;
  Restrict : bool;
  Identity : string;
}.

(** Modelled from the spec: the clause record of a TRUNCATE, "target table
    list" and options; an absent field is [None]. *)
Record TruncateClauses := {
  tc_tables : option ColumnListExpression;
  tc_options : TruncateOptions;
}.

(** Modelled from the spec: a clause record is "created empty". *)
Definition NewTruncateClauses : TruncateClauses :=
  {| tc_tables := None;
     tc_options := {| Cascade := false; Restrict := false; Identity := "" |} |}.

(** Modelled from the spec: the accessor of the field. *)
Definition TruncateClauses_Options (c : TruncateClauses) : TruncateOptions :=
  tc_options c.

(** Modelled from the spec: a setter "returns a new record" in which the
    field is replaced as a whole. *)
Definition TruncateClauses_SetTable (c : TruncateClauses)
    (tables : ColumnListExpression) : TruncateClauses :=
  {| tc_tables := Some tables; tc_options := tc_options c |}.

(** Modelled from the spec: a setter "returns a new record" in which the
    field is replaced as a whole. *)
Definition TruncateClauses_SetOptions (c : TruncateClauses)
    (opts : TruncateOptions) : TruncateClauses :=
  {| tc_tables := tc_tables c; tc_options := opts |}.

Definition TruncateClauses_refs (c : TruncateClauses) : list StmtRef :=
  opt_refs (list_refs Expression_refs) (tc_tables c).

(** *** INSERT clauses *)

(** Modelled from the spec: the clause record of an INSERT:
    common-table-expressions, target, column list, literal value rows, row
    source, rows, RETURNING list, conflict descriptor and alias.  A field
    that holds a Go slice is a list, [nil] being the empty list; every other
    optional field is an [option]. *)
Record InsertClauses := {
  ic_commonTables : list CommonTableExpression;
  ic_into : option Expression;
  ic_cols : option ColumnListExpression;
  ic_from : option Expression;
  ic_vals : list (list Value);
  ic_rows : list Value;
  ic_returning : option ColumnListExpression;
  ic_onConflict : option Expression;
  ic_alias : option IdentifierExpression;
}.

(** Modelled from the spec: a clause record is "created empty". *)
Definition NewInsertClauses : InsertClauses :=
  {| ic_commonTables := []; ic_into := None; ic_cols := None; ic_from := None;
     ic_vals := []; ic_rows := []; ic_returning := None;
     ic_onConflict := None; ic_alias := None |}.

(** Modelled from the spec: an append setter "adds to the existing ordered
    sequence (or initializes it if absent)", in call order. *)
Definition InsertClauses_CommonTablesAppend (c : InsertClauses)
    (cte : CommonTableExpression) : InsertClauses :=
  {| ic_commonTables := ic_commonTables c ++ [cte]; ic_into := ic_into c;
     ic_cols := ic_cols c; ic_from := ic_from c; ic_vals := ic_vals c;
     ic_rows := ic_rows c; ic_returning := ic_returning c;
     ic_onConflict := ic_onConflict c; ic_alias := ic_alias c |}.

(** Modelled from the spec: a setter "returns a new record" in which the
    field is replaced as a whole. *)
Definition InsertClauses_SetInto (c : InsertClauses) (into : Expression)
    : InsertClauses :=
  {| ic_commonTables := ic_commonTables c; ic_into := Some into;
     ic_cols := ic_cols c; ic_from := ic_from c; ic_vals := ic_vals c;
     ic_rows := ic_rows c; ic_returning := ic_returning c;
     ic_onConflict := ic_onConflict c; ic_alias := ic_alias c |}.

(** Modelled from the spec: a setter "returns a new record" in which the
    field is replaced as a whole. *)
Definition InsertClauses_SetCols (c : InsertClauses)
    (cols : option ColumnListExpression) : InsertClauses :=
  {| ic_commonTables := ic_commonTables c; ic_into := ic_into c;
     ic_cols := cols; ic_from := ic_from c; ic_vals := ic_vals c;
     ic_rows := ic_rows c; ic_returning := ic_returning c;
     ic_onConflict := ic_onConflict c; ic_alias := ic_alias c |}.

(** Modelled from the spec: an append setter "adds to the existing ordered
    sequence (or initializes it if absent)", in call order. *)
Definition InsertClauses_ColsAppend (c : InsertClauses)
    (cols : ColumnListExpression) : InsertClauses :=
  {| ic_commonTables := ic_commonTables c; ic_into := ic_into c;
     ic_cols := Some (default [] (ic_cols c) ++ cols); ic_from := ic_from c;
     ic_vals := ic_vals c; ic_rows := ic_rows c;
     ic_returning := ic_returning c; ic_onConflict := ic_onConflict c;
     ic_alias := ic_alias c |}.

(** Modelled from the spec: a setter "returns a new record" in which the
    field is replaced as a whole. *)
Definition InsertClauses_SetFrom (c : InsertClauses) (from : Expression)
    : InsertClauses :=
  {| ic_commonTables := ic_commonTables c; ic_into := ic_into c;
     ic_cols := ic_cols c; ic_from := Some from; ic_vals := ic_vals c;
     ic_rows := ic_rows c; ic_returning := ic_returning c;
     ic_onConflict := ic_onConflict c; ic_alias := ic_alias c |}.

(** Modelled from the spec: a setter "returns a new record" in which the
    field is replaced as a whole. *)
Definition InsertClauses_SetVals (c : InsertClauses)
    (vals : list (list Value)) : InsertClauses :=
  {| ic_commonTables := ic_commonTables c; ic_into := ic_into c;
     ic_cols := ic_cols c; ic_from := ic_from c; ic_vals := vals;
     ic_rows := ic_rows c; ic_returning := ic_returning c;
     ic_onConflict := ic_onConflict c; ic_alias := ic_alias c |}.

(** Modelled from the spec: an append setter "adds to the existing ordered
    sequence (or initializes it if absent)", in call order. *)
Definition InsertClauses_ValsAppend (c : InsertClauses)
    (vals : list (list Value)) : InsertClauses :=
  InsertClauses_SetVals c (ic_vals c ++ vals).

(** Modelled from the spec: a setter "returns a new record" in which the
    field is replaced as a whole. *)
Definition InsertClauses_SetRows (c : InsertClauses)
    (rows : list Value) : InsertClauses :=
  {| ic_commonTables := ic_commonTables c; ic_into := ic_into c;
     ic_cols := ic_cols c; ic_from := ic_from c; ic_vals := ic_vals c;
     ic_rows := rows; ic_returning := ic_returning c;
     ic_onConflict := ic_onConflict c; ic_alias := ic_alias c |}.

(** Modelled from the spec: a setter "returns a new record" in which the
    field is replaced as a whole. *)
Definition InsertClauses_SetReturning (c : InsertClauses)
    (returning : ColumnListExpression) : InsertClauses :=
  {| ic_commonTables := ic_commonTables c; ic_into := ic_into c;
     ic_cols := ic_cols c; ic_from := ic_from c; ic_vals := ic_vals c;
     ic_rows := ic_rows c; ic_returning := Some returning;
     ic_onConflict := ic_onConflict c; ic_alias := ic_alias c |}.

(** Modelled from the spec: a setter "returns a new record" in which the
    field is replaced as a whole. *)
Definition InsertClauses_SetOnConflict (c : InsertClauses)
    (conflict : option Expression) : InsertClauses :=
  {| ic_commonTables := ic_commonTables c; ic_into := ic_into c;
     ic_cols := ic_cols c; ic_from := ic_from c; ic_vals := ic_vals c;
     ic_rows := ic_rows c; ic_returning := ic_returning c;
     ic_onConflict := conflict; ic_alias := ic_alias c |}.

(** Modelled from the spec: a setter "returns a new record" in which the
    field is replaced as a whole. *)
Definition InsertClauses_SetAlias (c : InsertClauses)
    (alias : IdentifierExpression) : InsertClauses :=
  {| ic_commonTables := ic_commonTables c; ic_into := ic_into c;
     ic_cols := ic_cols c; ic_from := ic_from c; ic_vals := ic_vals c;
     ic_rows := ic_rows c; ic_returning := ic_returning c;
     ic_onConflict := ic_onConflict c; ic_alias := Some alias |}.

(** Modelled from the spec: the accessor of the field. *)
Definition InsertClauses_Alias (c : InsertClauses) : option IdentifierExpression :=
  ic_alias c.

(** Modelled from the spec: "has a RETURNING list been set?", a "pure
    predicate over the record". *)
Definition InsertClauses_HasReturning (c : InsertClauses) : bool :=
  bool_decide (is_Some (ic_returning c)).

Definition InsertClauses_refs (c : InsertClauses) : list StmtRef :=
  list_refs (λ cte, Expression_refs (subquery cte)) (ic_commonTables c)
  ++ opt_refs Expression_refs (ic_into c)
  ++ opt_refs (list_refs Expression_refs) (ic_cols c)
  ++ opt_refs Expression_refs (ic_from c)
  ++ list_refs (list_refs Value_refs) (ic_vals c)
  ++ list_refs Value_refs (ic_rows c)
  ++ opt_refs (list_refs Expression_refs) (ic_returning c)
  ++ opt_refs Expression_refs (ic_onConflict c).

(** *** UPDATE clauses *)

(** Modelled from the spec: the clause record of an UPDATE:
    common-table-expressions, target table, SET source ("stored opaquely"),
    auxiliary FROM tables, filter predicate, ordering, row limit ("numeric,
    or an ALL sentinel") and RETURNING list. *)
Record UpdateClauses := {
  uc_commonTables : list CommonTableExpression;
  uc_table : option Expression;
  uc_setValues : option Value;
  uc_from : option ColumnListExpression;
  uc_where : option (list Expression);
  uc_order : option (list Expression);
  uc_limit : option Value;
  uc_returning : option ColumnListExpression;
}.

(** Modelled from the spec: a clause record is "created empty". *)
Definition NewUpdateClauses : UpdateClauses :=
  {| uc_commonTables := []; uc_table := None; uc_setValues := None;
     uc_from := None; uc_where := None; uc_order := None; uc_limit := None;
     uc_returning := None |}.

(** Modelled from the spec: an append setter "adds to the existing ordered
    sequence (or initializes it if absent)", in call order. *)
Definition UpdateClauses_CommonTablesAppend (c : UpdateClauses)
    (cte : CommonTableExpression) : UpdateClauses :=
  {| uc_commonTables := uc_commonTables c ++ [cte]; uc_table := uc_table c;
     uc_setValues := uc_setValues c; uc_from := uc_from c;
     uc_where := uc_where c; uc_order := uc_order c; uc_limit := uc_limit c;
     uc_returning := uc_returning c |}.

(** Modelled from the spec: a setter "returns a new record" in which the
    field is replaced as a whole. *)
Definition UpdateClauses_SetTable (c : UpdateClauses) (table : Expression)
    : UpdateClauses :=
  {| uc_commonTables := uc_commonTables c; uc_table := Some table;
     uc_setValues := uc_setValues c; uc_from := uc_from c;
     uc_where := uc_where c; uc_order := uc_order c; uc_limit := uc_limit c;
     uc_returning := uc_returning c |}.

(** Modelled from the spec: a setter "returns a new record" in which the
    field is replaced as a whole. *)
Definition UpdateClauses_SetSetValues (c : UpdateClauses) (values : Value)
    : UpdateClauses :=
  {| uc_commonTables := uc_commonTables c; uc_table := uc_table c;
     uc_setValues := Some values; uc_from := uc_from c;
     uc_where := uc_where c; uc_order := uc_order c; uc_limit := uc_limit c;
     uc_returning := uc_returning c |}.

(** Modelled from the spec: a setter "returns a new record" in which the
    field is replaced as a whole. *)
Definition UpdateClauses_SetFrom (c : UpdateClauses)
    (tables : ColumnListExpression) : UpdateClauses :=
  {| uc_commonTables := uc_commonTables c; uc_table := uc_table c;
     uc_setValues := uc_setValues c; uc_from := Some tables;
     uc_where := uc_where c; uc_order := uc_order c; uc_limit := uc_limit c;
     uc_returning := uc_returning c |}.

(** Modelled from the spec: a setter "returns a new record" in which the
    field is replaced as a whole. *)
Definition UpdateClauses_withWhere (c : UpdateClauses)
    (w : option (list Expression)) : UpdateClauses :=
  {| uc_commonTables := uc_commonTables c; uc_table := uc_table c;
     uc_setValues := uc_setValues c; uc_from := uc_from c;
     uc_where := w; uc_order := uc_order c; uc_limit := uc_limit c;
     uc_returning := uc_returning c |}.

(** Modelled from the spec: an append setter "adds to the existing ordered
    sequence (or initializes it if absent)", in call order. *)
Definition UpdateClauses_WhereAppend (c : UpdateClauses)
    (expressions : list Expression) : UpdateClauses :=
  UpdateClauses_withWhere c (Some (default [] (uc_where c) ++ expressions)).

(** Modelled from the spec: a clear setter "resets a field to absent". *)
Definition UpdateClauses_ClearWhere (c : UpdateClauses) : UpdateClauses :=
  UpdateClauses_withWhere c None.

(** Modelled from the spec: a setter "returns a new record" in which the
    field is replaced as a whole. *)
Definition UpdateClauses_withOrder (c : UpdateClauses)
    (o : option (list Expression)) : UpdateClauses :=
  {| uc_commonTables := uc_commonTables c; uc_table := uc_table c;
     uc_setValues := uc_setValues c; uc_from := uc_from c;
     uc_where := uc_where c; uc_order := o; uc_limit := uc_limit c;
     uc_returning := uc_returning c |}.

(** Modelled from the spec: a setter "returns a new record" in which the
    field is replaced as a whole. *)
Definition UpdateClauses_SetOrder (c : UpdateClauses)
    (order : list Expression) : UpdateClauses :=
  UpdateClauses_withOrder c (Some order).

(** Modelled from the spec: an append setter "adds to the existing ordered
    sequence (or initializes it if absent)", in call order. *)
Definition UpdateClauses_OrderAppend (c : UpdateClauses)
    (order : list Expression) : UpdateClauses :=
  UpdateClauses_withOrder c (Some (default [] (uc_order c) ++ order)).

(** Modelled from the spec: an append setter "adds to the existing ordered
    sequence (or initializes it if absent)", in call order. *)
Definition UpdateClauses_OrderPrepend (c : UpdateClauses)
    (order : list Expression) : UpdateClauses :=
  UpdateClauses_withOrder c (Some (order ++ default [] (uc_order c))).

(** Modelled from the spec: a clear setter "resets a field to absent". *)
Definition UpdateClauses_ClearOrder (c : UpdateClauses) : UpdateClauses :=
  UpdateClauses_withOrder c None.

(** Modelled from the spec: a setter "returns a new record" in which the
    field is replaced as a whole. *)
Definition UpdateClauses_withLimit (c : UpdateClauses) (l : option Value)
    : UpdateClauses :=
  {| uc_commonTables := uc_commonTables c; uc_table := uc_table c;
     uc_setValues := uc_setValues c; uc_from := uc_from c;
     uc_where := uc_where c; uc_order := uc_order c; uc_limit := l;
     uc_returning := uc_returning c |}.

(** Modelled from the spec: a setter "returns a new record" in which the
    field is replaced as a whole. *)
Definition UpdateClauses_SetLimit (c : UpdateClauses) (limit : Value)
    : UpdateClauses :=
  UpdateClauses_withLimit c (Some limit).

(** Modelled from the spec: a clear setter "resets a field to absent". *)
Definition UpdateClauses_ClearLimit (c : UpdateClauses) : UpdateClauses :=
  UpdateClauses_withLimit c None.

(** Modelled from the spec: a setter "returns a new record" in which the
    field is replaced as a whole. *)
Definition UpdateClauses_SetReturning (c : UpdateClauses)
    (returning : ColumnListExpression) : UpdateClauses :=
  {| uc_commonTables := uc_commonTables c; uc_table := uc_table c;
     uc_setValues := uc_setValues c; uc_from := uc_from c;
     uc_where := uc_where c; uc_order := uc_order c; uc_limit := uc_limit c;
     uc_returning := Some returning |}.

(** Modelled from the spec: "has a RETURNING list been set?", a "pure
    predicate over the record". *)
Definition UpdateClauses_HasReturning (c : UpdateClauses) : bool :=
  bool_decide (is_Some (uc_returning c)).

Definition UpdateClauses_refs (c : UpdateClauses) : list StmtRef :=
  list_refs (λ cte, Expression_refs (subquery cte)) (uc_commonTables c)
  ++ opt_refs Expression_refs (uc_table c)
  ++ opt_refs Value_refs (uc_setValues c)
  ++ opt_refs (list_refs Expression_refs) (uc_from c)
  ++ opt_refs (list_refs Expression_refs) (uc_where c)
  ++ opt_refs (list_refs Expression_refs) (uc_order c)
  ++ opt_refs Value_refs (uc_limit c)
  ++ opt_refs (list_refs Expression_refs) (uc_returning c).

(** *** DELETE clauses *)

(** Modelled from the spec: the clause record of a DELETE:
    common-table-expressions, FROM target ("name or identifier only"),
    filter predicate, ordering, row limit and RETURNING list. *)
Record DeleteClauses := {
  dc_commonTables : list CommonTableExpression;
  dc_from : option IdentifierExpression;
  dc_where : option (list Expression);
  dc_order : option (list Expression);
  dc_limit : option Value;
  dc_returning : option ColumnListExpression;
}.

(** Modelled from the spec: a clause record is "created empty". *)
Definition NewDeleteClauses : DeleteClauses :=
  {| dc_commonTables := []; dc_from := None; dc_where := None;
     dc_order := None; dc_limit := None; dc_returning := None |}.

(** Modelled from the spec: an append setter "adds to the existing ordered
    sequence (or initializes it if absent)", in call order. *)
Definition DeleteClauses_CommonTablesAppend (c : DeleteClauses)
    (cte : CommonTableExpression) : DeleteClauses :=
  {| dc_commonTables := dc_commonTables c ++ [cte]; dc_from := dc_from c;
     dc_where := dc_where c; dc_order := dc_order c; dc_limit := dc_limit c;
     dc_returning := dc_returning c |}.

(** Modelled from the spec: a setter "returns a new record" in which the
    field is replaced as a whole. *)
Definition DeleteClauses_SetFrom (c : DeleteClauses)
    (table : IdentifierExpression) : DeleteClauses :=
  {| dc_commonTables := dc_commonTables c; dc_from := Some table;
     dc_where := dc_where c; dc_order := dc_order c; dc_limit := dc_limit c;
     dc_returning := dc_returning c |}.

(** Modelled from the spec: a setter "returns a new record" in which the
    field is replaced as a whole. *)
Definition DeleteClauses_withWhere (c : DeleteClauses)
    (w : option (list Expression)) : DeleteClauses :=
  {| dc_commonTables := dc_commonTables c; dc_from := dc_from c;
     dc_where := w; dc_order := dc_order c; dc_limit := dc_limit c;
     dc_returning := dc_returning c |}.

(** Modelled from the spec: an append setter "adds to the existing ordered
    sequence (or initializes it if absent)", in call order. *)
Definition DeleteClauses_WhereAppend (c : DeleteClauses)
    (expressions : list Expression) : DeleteClauses :=
  DeleteClauses_withWhere c (Some (default [] (dc_where c) ++ expressions)).

(** Modelled from the spec: a clear setter "resets a field to absent". *)
Definition DeleteClauses_ClearWhere (c : DeleteClauses) : DeleteClauses :=
  DeleteClauses_withWhere c None.

(** Modelled from the spec: a setter "returns a new record" in which the
    field is replaced as a whole. *)
Definition DeleteClauses_withOrder (c : DeleteClauses)
    (o : option (list Expression)) : DeleteClauses :=
  {| dc_commonTables := dc_commonTables c; dc_from := dc_from c;
     dc_where := dc_where c; dc_order := o; dc_limit := dc_limit c;
     dc_returning := dc_returning c |}.

(** Modelled from the spec: a setter "returns a new record" in which the
    field is replaced as a whole. *)
Definition DeleteClauses_SetOrder (c : DeleteClauses)
    (order : list Expression) : DeleteClauses :=
  DeleteClauses_withOrder c (Some order).

(** Modelled from the spec: an append setter "adds to the existing ordered
    sequence (or initializes it if absent)", in call order. *)
Definition DeleteClauses_OrderAppend (c : DeleteClauses)
    (order : list Expression) : DeleteClauses :=
  DeleteClauses_withOrder c (Some (default [] (dc_order c) ++ order)).

(** Modelled from the spec: an append setter "adds to the existing ordered
    sequence (or initializes it if absent)", in call order. *)
Definition DeleteClauses_OrderPrepend (c : DeleteClauses)
    (order : list Expression) : DeleteClauses :=
  DeleteClauses_withOrder c (Some (order ++ default [] (dc_order c))).

(** Modelled from the spec: a clear setter "resets a field to absent". *)
Definition DeleteClauses_ClearOrder (c : DeleteClauses) : DeleteClauses :=
  DeleteClauses_withOrder c None.

(** Modelled from the spec: a setter "returns a new record" in which the
    field is replaced as a whole. *)
Definition DeleteClauses_withLimit (c : DeleteClauses) (l : option Value)
    : DeleteClauses :=
  {| dc_commonTables := dc_commonTables c; dc_from := dc_from c;
     dc_where := dc_where c; dc_order := dc_order c; dc_limit := l;
     dc_returning := dc_returning c |}.

(** Modelled from the spec: a setter "returns a new record" in which the
    field is replaced as a whole. *)
Definition DeleteClauses_SetLimit (c : DeleteClauses) (limit : Value)
    : DeleteClauses :=
  DeleteClauses_withLimit c (Some limit).

(** Modelled from the spec: a clear setter "resets a field to absent". *)
Definition DeleteClauses_ClearLimit (c : DeleteClauses) : DeleteClauses :=
  DeleteClauses_withLimit c None.

(** Modelled from the spec: a setter "returns a new record" in which the
    field is replaced as a whole. *)
Definition DeleteClauses_SetReturning (c : DeleteClauses)
    (returning : ColumnListExpression) : DeleteClauses :=
  {| dc_commonTables := dc_commonTables c; dc_from := dc_from c;
     dc_where := dc_where c; dc_order := dc_order c; dc_limit := dc_limit c;
     dc_returning := Some returning |}.

(** Modelled from the spec: "has a RETURNING list been set?", a "pure
    predicate over the record". *)
Definition DeleteClauses_HasReturning (c : DeleteClauses) : bool :=
  bool_decide (is_Some (dc_returning c)).

Definition DeleteClauses_refs (c : DeleteClauses) : list StmtRef :=
  list_refs (λ cte, Expression_refs (subquery cte)) (dc_commonTables c)
  ++ opt_refs (list_refs Expression_refs) (dc_where c)
  ++ opt_refs (list_refs Expression_refs) (dc_order c)
  ++ opt_refs Value_refs (dc_limit c)
  ++ opt_refs (list_refs Expression_refs) (dc_returning c).

(** *** SELECT clauses *)

(** Modelled from the spec: the SELECT builder is an external collaborator
    ("structurally analogous, larger surface"); of its clause record only the
    statement pointers it holds matter here. *)
Record SelectClauses := {
  sc_from : ColumnListExpression;
  sc_where : list Expression;
}.

Definition SelectClauses_refs (c : SelectClauses) : list StmtRef :=
  list_refs Expression_refs (sc_from c)
  ++ list_refs Expression_refs (sc_where c).

End exp.

(** ** Package [sb]: the sticky-error accumulator *)

Module sb.

(** Modelled from the spec: package [internal/sb] is not among the sources.
    "An append-only text buffer plus an ordered parameter sequence plus an
    optional sticky error plus a monotonically increasing placeholder
    counter."  A builder is created per terminal operation and consumed
    once, so it is threaded as a value. *)
Record SQLBuilder := {
  buf : string;
  args : list exp.Value;
  err : option error;
  isPrepared : bool;
  currentArgPosition : N;
}.

(** Modelled from the spec: a builder is "created fresh per terminal
    operation", empty, with the prepared mode of the statement. *)
Definition NewSQLBuilder (isPrepared : bool) : SQLBuilder :=
  {| buf := ""; args := []; err := None; isPrepared := isPrepared;
     currentArgPosition := 1%N |}.

(** Modelled from the spec: "set-error(err) records the first error only". *)
Definition SetError (b : SQLBuilder) (e : option error) : SQLBuilder :=
  match err b with
  | None => {| buf := buf b; args := args b; err := e;
               isPrepared := isPrepared b;
               currentArgPosition := currentArgPosition b |}
  | Some _ => b
  end.

(** Modelled from the spec: "write(text) appends raw SQL fragment"; "once an
    error is recorded, all subsequent write attempts are no-ops". *)
Definition Write (b : SQLBuilder) (text : string) : SQLBuilder :=
  match err b with
  | None => {| buf := (buf b ++ text)%string; args := args b; err := None;
               isPrepared := isPrepared b;
               currentArgPosition := currentArgPosition b |}
  | Some _ => b
  end.

(** Modelled from the spec: "to-result() returns (text, parameters, error);
    if an error was ever recorded, text and parameters are discarded". *)
Definition ToSQL (b : SQLBuilder) : string * list exp.Value * option error :=
  match err b with
  | Some e => ("", [], Some e)
  | None => (buf b, args b, None)
  end.

End sb.

(** ** Package [goqu]: the builders' data *)

(** Modelled from the spec: the declaration of [prepared] is not among the
    sources.  The flag is "three-valued: use dialect default, force prepared,
    force literal"; [preparedNoPreference] is the value [newDeleteDataset]
    names, and the one a struct literal that leaves the field out gets. *)
Inductive prepared :=
| preparedNoPreference
| preparedEnabled
| preparedDisabled.

#[global] Instance prepared_eq_dec : EqDecision prepared.
Proof. solve_decision. Defined.

(** [TruncateDataset], [InsertDataset], [UpdateDataset] and [DeleteDataset]
    declare the same five fields and differ in the type of [clauses] only.
    Modelled from the spec: [SelectDataset] is declared in a file that is
    not among the sources; the SELECT builder is "structurally analogous",
    and [FromQuery] reads and assigns its [dialect] field. *)
Record Dataset (C : Type) := {
  dialect : SQLDialect;
  clauses : C;
  isPrepared : prepared;
  queryFactory : QueryFactory;
  err : option error;
}.
Arguments dialect {C} _.
Arguments clauses {C} _.
Arguments isPrepared {C} _.
Arguments queryFactory {C} _.
Arguments err {C} _.

(** The objects that builder pointers refer to, one store per struct type. *)
Record Heap := {
  selects : gmap loc (Dataset exp.SelectClauses);
  inserts : gmap loc (Dataset exp.InsertClauses);
  updates : gmap loc (Dataset exp.UpdateClauses);
  deletes : gmap loc (Dataset exp.DeleteClauses);
  truncates : gmap loc (Dataset exp.TruncateClauses);
}.

Definition emptyHeap : Heap :=
  {| selects := ∅; inserts := ∅; updates := ∅; deletes := ∅; truncates := ∅ |}.

Definition with_selects (h : Heap) m : Heap :=
  {| selects := m; inserts := inserts h; updates := updates h;
     deletes := deletes h; truncates := truncates h |}.
Definition with_inserts (h : Heap) m : Heap :=
  {| selects := selects h; inserts := m; updates := updates h;
     deletes := deletes h; truncates := truncates h |}.
Definition with_updates (h : Heap) m : Heap :=
  {| selects := selects h; inserts := inserts h; updates := m;
     deletes := deletes h; truncates := truncates h |}.
Definition with_deletes (h : Heap) m : Heap :=
  {| selects := selects h; inserts := inserts h; updates := updates h;
     deletes := m; truncates := truncates h |}.
Definition with_truncates (h : Heap) m : Heap :=
  {| selects := selects h; inserts := inserts h; updates := updates h;
     deletes := deletes h; truncates := m |}.

(** ** The monad of builder methods *)

(** A method call either returns a value or panics; both leave a heap. *)
Inductive Result (A : Type) :=
| Ok (a : A) (h : Heap)
| Panic (cause : error) (h : Heap).
Arguments Ok {A} _ _.
Arguments Panic {A} _ _.

Definition M (A : Type) : Type := Heap → Result A.

#[global] Instance M_ret : MRet M := λ A a h, Ok a h.
#[global] Instance M_bind : MBind M := λ A B f m h,
  match m h with
  | Ok a h' => f a h'
  | Panic e h' => Panic e h'
  end.

Definition panic {A} (e : error) : M A := λ h, Panic e h.
Definition getHeap : M Heap := λ h, Ok h h.

(** Reading through a pointer; a pointer to nothing is Go's nil. *)
Definition deref {C} (store : Heap → gmap loc (Dataset C)) (p : loc)
    : M (Dataset C) :=
  λ h, match store h !! p with
       | Some d => Ok d h
       | None => Panic NilDereference h
       end.

(** [&T{...}]: a new object at an address that no live object has. *)
Definition newLoc {C} (m : gmap loc (Dataset C)) : loc := fresh (dom m).

(** ** What the builders take from the rest of the package *)

(** The parts of the repository that the four files call and that are not
    among the sources: the dialect registry and the dialects' rendering
    entry points (which read the heap to render sub-statements held by
    pointer), the conversions of the [prepared] flag, and two constructors
    of package [exp].  [NewColumnListExpression] validates its arguments and
    may panic. *)
Class Env := {
  GetDialect : string → SQLDialect;
  SQLDialect_Dialect : SQLDialect → string;
  ToSelectSQL : SQLDialect → Heap → sb.SQLBuilder → exp.SelectClauses → sb.SQLBuilder;
  ToInsertSQL : SQLDialect → Heap → sb.SQLBuilder → exp.InsertClauses → sb.SQLBuilder;
  ToUpdateSQL : SQLDialect → Heap → sb.SQLBuilder → exp.UpdateClauses → sb.SQLBuilder;
  ToDeleteSQL : SQLDialect → Heap → sb.SQLBuilder → exp.DeleteClauses → sb.SQLBuilder;
  ToTruncateSQL : SQLDialect → Heap → sb.SQLBuilder → exp.TruncateClauses → sb.SQLBuilder;
  preparedFromBool : bool → prepared;
  prepared_Bool : prepared → bool;
  ParseIdentifier : string → exp.IdentifierExpression;
  NewColumnListExpression : list exp.Value → error + exp.ColumnListExpression;
}.

(** A call into package [exp] that may panic. *)
Definition liftPanic {A} (r : error + A) : M A :=
  match r with
  | inr a => mret a
  | inl e => panic e
  end.

(** Modelled from the spec: [L] and [T] of package [goqu] are not among the
    sources; [L] builds "literal passthrough text" and [T] a table
    identifier. *)
Definition L (sql : string) : exp.Expression := exp.Literal sql.
Definition T (table : string) : exp.IdentifierExpression :=
  {| exp.schema := ""; exp.table := table; exp.col := "" |}.

(** Assignments to one field of a builder object. *)
Definition set_dialect {C} (d : Dataset C) (v : SQLDialect) : Dataset C :=
  {| dialect := v; clauses := clauses d; isPrepared := isPrepared d;
     queryFactory := queryFactory d; err := err d |}.
Definition set_isPrepared {C} (d : Dataset C) (v : prepared) : Dataset C :=
  {| dialect := dialect d; clauses := clauses d; isPrepared := v;
     queryFactory := queryFactory d; err := err d |}.
Definition set_err {C} (d : Dataset C) (v : option error) : Dataset C :=
  {| dialect := dialect d; clauses := clauses d; isPrepared := isPrepared d;
     queryFactory := queryFactory d; err := v |}.

(** ** The SELECT builder, as far as [FromQuery] meets it *)

Module SelectDataset.
Section methods.
Context {env : Env}.

Definition load : loc → M (Dataset exp.SelectClauses) := deref selects.

Definition store (p : loc) (d : Dataset exp.SelectClauses) : M unit :=
  λ h, Ok tt (with_selects h (<[p := d]> (selects h))).

(** Modelled from the spec: select_dataset.go is not among the sources.  The
    SELECT builder is "structurally analogous" to the four builders, so it
    appends itself to an outer statement as [InsertDataset.AppendSQL] does:
    under its own dialect, or as its sticky error. *)
Definition AppendSQL (sd : loc) (b : sb.SQLBuilder) : M sb.SQLBuilder :=
  d ← load sd;
  match err d with
  | Some e => mret (sb.SetError b (Some e))
  | None => h ← getHeap; mret (ToSelectSQL (dialect d) h b (clauses d))
  end.

End methods.
End SelectDataset.

(** ** truncate_dataset.go *)

Module TruncateDataset.
Section methods.
Context {env : Env}.

(** A field read [td.f] starts with [load td]; [store] is an assignment
    [td.f = v]; [alloc] is [&TruncateDataset{...}]. *)
Definition load : loc → M (Dataset exp.TruncateClauses) := deref truncates.

Definition store (p : loc) (d : Dataset exp.TruncateClauses) : M unit :=
  λ h, Ok tt (with_truncates h (<[p := d]> (truncates h))).

Definition alloc (d : Dataset exp.TruncateClauses) : M loc :=
  λ h, let p := newLoc (truncates h) in
       Ok p (with_truncates h (<[p := d]> (truncates h))).

Definition newTruncateDataset (d : string) (queryFactory : QueryFactory) : M loc :=
  alloc {| clauses := exp.NewTruncateClauses; dialect := GetDialect d;
           isPrepared := preparedNoPreference; queryFactory := queryFactory;
           err := None |}.

Definition GetClauses (td : loc) : M exp.TruncateClauses :=
  d ← load td; mret (clauses d).

(** A new object with the receiver's dialect, prepared flag, query factory
    and error, and the given clause record. *)
Definition copy (td : loc) (clauses : exp.TruncateClauses) : M loc :=
  d ← load td;
  alloc {| dialect := dialect d; clauses := clauses;
           isPrepared := isPrepared d; queryFactory := queryFactory d;
           err := err d |}.

Definition WithDialect (td : loc) (dl : string) : M loc :=
  c ← GetClauses td;
  ds ← copy td c;
  d ← load ds;
  store ds (set_dialect d (GetDialect dl));;
  mret ds.

Definition Prepared (td : loc) (prepared : bool) : M loc :=
  c ← GetClauses td;
  ret ← copy td c;
  d ← load ret;
  store ret (set_isPrepared d (preparedFromBool prepared));;
  mret ret.

Definition IsPrepared (td : loc) : M bool :=
  d ← load td; mret (prepared_Bool (isPrepared d)).

Definition Dialect (td : loc) : M SQLDialect :=
  d ← load td; mret (dialect d).

Definition SetDialect (td : loc) (dialect : SQLDialect) : M loc :=
  c ← GetClauses td;
  cd ← copy td c;
  d ← load cd;
  store cd (set_dialect d dialect);;
  mret cd.

Definition Expression (td : loc) : M exp.Expression :=
  mret (exp.Subquery (TruncateRef td)).

Definition Clone (td : loc) : M exp.Expression :=
  c ← GetClauses td;
  p ← copy td c;
  mret (exp.Subquery (TruncateRef p)).

Definition Table (td : loc) (table : list exp.Value) : M loc :=
  c ← GetClauses td;
  cols ← liftPanic (NewColumnListExpression table);
  copy td (exp.TruncateClauses_SetTable c cols).

Definition Truncate (table : list exp.Value) : M loc :=
  td ← newTruncateDataset "default" None;
  Table td table.

Definition Cascade (td : loc) : M loc :=
  c ← GetClauses td;
  let opts := exp.TruncateClauses_Options c in
  let opts := {| exp.Cascade := true; exp.Restrict := exp.Restrict opts;
                 exp.Identity := exp.Identity opts |} in
  copy td (exp.TruncateClauses_SetOptions c opts).

Definition NoCascade (td : loc) : M loc :=
  c ← GetClauses td;
  let opts := exp.TruncateClauses_Options c in
  let opts := {| exp.Cascade := false; exp.Restrict := exp.Restrict opts;
                 exp.Identity := exp.Identity opts |} in
  copy td (exp.TruncateClauses_SetOptions c opts).

Definition Restrict (td : loc) : M loc :=
  c ← GetClauses td;
  let opts := exp.TruncateClauses_Options c in
  let opts := {| exp.Cascade := exp.Cascade opts; exp.Restrict := true;
                 exp.Identity := exp.Identity opts |} in
  copy td (exp.TruncateClauses_SetOptions c opts).

Definition NoRestrict (td : loc) : M loc :=
  c ← GetClauses td;
  let opts := exp.TruncateClauses_Options c in
  let opts := {| exp.Cascade := exp.Cascade opts; exp.Restrict := false;
                 exp.Identity := exp.Identity opts |} in
  copy td (exp.TruncateClauses_SetOptions c opts).

Definition Identity (td : loc) (identity : string) : M loc :=
  c ← GetClauses td;
  let opts := exp.TruncateClauses_Options c in
  let opts := {| exp.Cascade := exp.Cascade opts;
                 exp.Restrict := exp.Restrict opts;
                 exp.Identity := identity |} in
  copy td (exp.TruncateClauses_SetOptions c opts).

Definition Error (td : loc) : M (option error) :=
  d ← load td; mret (err d).

(** Assigns to the receiver's own [err] field when it is nil, and returns
    the receiver: no copy is made. *)
Definition SetError (td : loc) (e : option error) : M loc :=
  d ← load td;
  (if decide (err d = None) then store td (set_err d e) else mret tt);;
  mret td.

Definition truncateSQLBuilder (td : loc) : M sb.SQLBuilder :=
  d ← load td;
  let buf := sb.NewSQLBuilder (prepared_Bool (isPrepared d)) in
  match err d with
  | Some e => mret (sb.SetError buf (Some e))
  | None => h ← getHeap; mret (ToTruncateSQL (dialect d) h buf (clauses d))
  end.

Definition ToSQL (td : loc) : M (string * list exp.Value * option error) :=
  b ← truncateSQLBuilder td; mret (sb.ToSQL b).

(** [panic(err)] when the builder's [ToSQL] gives an error. *)
Definition MustToSQL (td : loc) : M (string * list exp.Value) :=
  b ← truncateSQLBuilder td;
  match sb.ToSQL b with
  | (_, _, Some e) => panic e
  | (sql, params, None) => mret (sql, params)
  end.

(** The mutators of the exposed surface, as first-order calls. *)
Inductive call :=
| CallWithDialect (dl : string)
| CallPrepared (prepared : bool)
| CallSetDialect (dialect : SQLDialect)
| CallTable (table : list exp.Value)
| CallCascade
| CallNoCascade
| CallRestrict
| CallNoRestrict
| CallIdentity (identity : string)
| CallSetError (e : option error).

Definition invoke (td : loc) (c : call) : M loc :=
  match c with
  | CallWithDialect dl => WithDialect td dl
  | CallPrepared p => Prepared td p
  | CallSetDialect d => SetDialect td d
  | CallTable t => Table td t
  | CallCascade => Cascade td
  | CallNoCascade => NoCascade td
  | CallRestrict => Restrict td
  | CallNoRestrict => NoRestrict td
  | CallIdentity i => Identity td i
  | CallSetError e => SetError td e
  end.

End methods.
End TruncateDataset.

(** ** insert_dataset.go *)

Module InsertDataset.
Section methods.
Context {env : Env}.

(** Reads, assignments and allocations of [InsertDataset] objects. *)
Definition load : loc → M (Dataset exp.InsertClauses) := deref inserts.

Definition store (p : loc) (d : Dataset exp.InsertClauses) : M unit :=
  λ h, Ok tt (with_inserts h (<[p := d]> (inserts h))).

Definition alloc (d : Dataset exp.InsertClauses) : M loc :=
  λ h, let p := newLoc (inserts h) in
       Ok p (with_inserts h (<[p := d]> (inserts h))).

Definition newInsertDataset (d : string) (queryFactory : QueryFactory) : M loc :=
  alloc {| clauses := exp.NewInsertClauses; dialect := GetDialect d;
           isPrepared := preparedNoPreference; queryFactory := queryFactory;
           err := None |}.

Definition GetClauses (id : loc) : M exp.InsertClauses :=
  d ← load id; mret (clauses d).

(** A new object with the receiver's dialect, prepared flag, query factory
    and error, and the given clause record. *)
Definition copy (id : loc) (clauses : exp.InsertClauses) : M loc :=
  d ← load id;
  alloc {| dialect := dialect d; clauses := clauses;
           isPrepared := isPrepared d; queryFactory := queryFactory d;
           err := err d |}.

Definition Prepared (id : loc) (prepared : bool) : M loc :=
  c ← GetClauses id;
  ret ← copy id c;
  d ← load ret;
  store ret (set_isPrepared d (preparedFromBool prepared));;
  mret ret.

Definition IsPrepared (id : loc) : M bool :=
  d ← load id; mret (prepared_Bool (isPrepared d)).

Definition WithDialect (id : loc) (dl : string) : M loc :=
  c ← GetClauses id;
  ds ← copy id c;
  d ← load ds;
  store ds (set_dialect d (GetDialect dl));;
  mret ds.

Definition Dialect (id : loc) : M SQLDialect :=
  d ← load id; mret (dialect d).

Definition SetDialect (id : loc) (dialect : SQLDialect) : M loc :=
  c ← GetClauses id;
  cd ← copy id c;
  d ← load cd;
  store cd (set_dialect d dialect);;
  mret cd.

Definition Expression (id : loc) : M exp.Expression :=
  mret (exp.Subquery (InsertRef id)).

Definition Clone (id : loc) : M exp.Expression :=
  c ← GetClauses id;
  p ← copy id c;
  mret (exp.Subquery (InsertRef p)).

Definition With (id : loc) (name : string) (subquery : exp.Expression) : M loc :=
  c ← GetClauses id;
  copy id (exp.InsertClauses_CommonTablesAppend c
              (exp.NewCommonTableExpression false name subquery)).

Definition WithRecursive (id : loc) (name : string) (subquery : exp.Expression)
    : M loc :=
  c ← GetClauses id;
  copy id (exp.InsertClauses_CommonTablesAppend c
              (exp.NewCommonTableExpression true name subquery)).

Definition Error (id : loc) : M (option error) :=
  d ← load id; mret (err d).

(** Assigns to the receiver's own [err] field when it is nil, and returns
    the receiver: no copy is made. *)
Definition SetError (id : loc) (e : option error) : M loc :=
  d ← load id;
  (if decide (err d = None) then store id (set_err d e) else mret tt);;
  mret id.

Definition insertSQLBuilder (id : loc) : M sb.SQLBuilder :=
  d ← load id;
  let buf := sb.NewSQLBuilder (prepared_Bool (isPrepared d)) in
  match err d with
  | Some e => mret (sb.SetError buf (Some e))
  | None => h ← getHeap; mret (ToInsertSQL (dialect d) h buf (clauses d))
  end.

Definition ToSQL (id : loc) : M (string * list exp.Value * option error) :=
  b ← insertSQLBuilder id; mret (sb.ToSQL b).

(** [panic(err)] when the builder's [ToSQL] gives an error. *)
Definition MustToSQL (id : loc) : M (string * list exp.Value) :=
  b ← insertSQLBuilder id;
  match sb.ToSQL b with
  | (_, _, Some e) => panic e
  | (sql, params, None) => mret (sql, params)
  end.

Definition AppendSQL (id : loc) (b : sb.SQLBuilder) : M sb.SQLBuilder :=
  d ← load id;
  match err d with
  | Some e => mret (sb.SetError b (Some e))
  | None => h ← getHeap; mret (ToInsertSQL (dialect d) h b (clauses d))
  end.

Definition ReturnsColumns (id : loc) : M bool :=
  c ← GetClauses id; mret (exp.InsertClauses_HasReturning c).

(** The type switch: an [exp.Expression], a [string], or anything else. *)
Definition Into (id : loc) (into : exp.Value) : M loc :=
  match into with
  | exp.VExpr t =>
      c ← GetClauses id; copy id (exp.InsertClauses_SetInto c t)
  | exp.VString t =>
      c ← GetClauses id;
      copy id (exp.InsertClauses_SetInto c (exp.Identifier (ParseIdentifier t)))
  | _ => panic ErrUnsupportedIntoType
  end.

Definition Insert (table : exp.Value) : M loc :=
  id ← newInsertDataset "default" None;
  Into id table.

Definition Cols (id : loc) (cols : list exp.Value) : M loc :=
  c ← GetClauses id;
  cl ← liftPanic (NewColumnListExpression cols);
  copy id (exp.InsertClauses_SetCols c (Some cl)).

Definition ClearCols (id : loc) : M loc :=
  c ← GetClauses id;
  copy id (exp.InsertClauses_SetCols c None).

Definition ColsAppend (id : loc) (cols : list exp.Value) : M loc :=
  c ← GetClauses id;
  cl ← liftPanic (NewColumnListExpression cols);
  copy id (exp.InsertClauses_ColsAppend c cl).

(** The type assertion of [from] to a pointer to [SelectDataset] succeeds
    on a pointer to a SELECT builder.  The dialects are compared as
    interface values; the assignment [sds.dialect = id.dialect] goes through
    the caller's pointer.  Go's parameter type admits appendable expressions
    only, the model any expression. *)
Definition FromQuery (id : loc) (from : exp.Expression) : M loc :=
  match from with
  | exp.Subquery (SelectRef sds) =>
      s ← SelectDataset.load sds;
      (if decide (dialect s ≠ GetDialect "default") then
         idDialect ← Dialect id;
         if decide (idDialect ≠ dialect s) then
           d ← load id;
           panic (ErrIncompatibleDialects (SQLDialect_Dialect (dialect d))
                                          (SQLDialect_Dialect (dialect s)))
         else mret tt
       else mret tt);;
      d ← load id;
      SelectDataset.store sds (set_dialect s (dialect d))
  | _ => mret tt
  end;;
  c ← GetClauses id;
  copy id (exp.InsertClauses_SetFrom c from).

Definition Vals (id : loc) (vals : list (list exp.Value)) : M loc :=
  c ← GetClauses id;
  copy id (exp.InsertClauses_ValsAppend c vals).

Definition ClearVals (id : loc) : M loc :=
  c ← GetClauses id;
  copy id (exp.InsertClauses_SetVals c []).

Definition Rows (id : loc) (rows : list exp.Value) : M loc :=
  c ← GetClauses id;
  copy id (exp.InsertClauses_SetRows c rows).

Definition ClearRows (id : loc) : M loc :=
  c ← GetClauses id;
  copy id (exp.InsertClauses_SetRows c []).

Definition Returning (id : loc) (returning : list exp.Value) : M loc :=
  c ← GetClauses id;
  cl ← liftPanic (NewColumnListExpression returning);
  copy id (exp.InsertClauses_SetReturning c cl).

Definition OnConflict (id : loc) (conflict : option exp.Expression) : M loc :=
  c ← GetClauses id;
  copy id (exp.InsertClauses_SetOnConflict c conflict).

Definition ClearOnConflict (id : loc) : M loc :=
  OnConflict id None.

Definition GetAs (id : loc) : M (option exp.IdentifierExpression) :=
  c ← GetClauses id; mret (exp.InsertClauses_Alias c).

Definition As (id : loc) (alias : string) : M loc :=
  c ← GetClauses id;
  copy id (exp.InsertClauses_SetAlias c (T alias)).

(** The mutators of the exposed surface, as first-order calls. *)
Inductive call :=
| CallPrepared (prepared : bool)
| CallWithDialect (dl : string)
| CallSetDialect (dialect : SQLDialect)
| CallWith (name : string) (subquery : exp.Expression)
| CallWithRecursive (name : string) (subquery : exp.Expression)
| CallInto (into : exp.Value)
| CallCols (cols : list exp.Value)
| CallClearCols
| CallColsAppend (cols : list exp.Value)
| CallFromQuery (from : exp.Expression)
| CallVals (vals : list (list exp.Value))
| CallClearVals
| CallRows (rows : list exp.Value)
| CallClearRows
| CallReturning (returning : list exp.Value)
| CallOnConflict (conflict : option exp.Expression)
| CallClearOnConflict
| CallAs (alias : string)
| CallSetError (e : option error).

Definition invoke (id : loc) (c : call) : M loc :=
  match c with
  | CallPrepared p => Prepared id p
  | CallWithDialect dl => WithDialect id dl
  | CallSetDialect d => SetDialect id d
  | CallWith n s => With id n s
  | CallWithRecursive n s => WithRecursive id n s
  | CallInto t => Into id t
  | CallCols cs => Cols id cs
  | CallClearCols => ClearCols id
  | CallColsAppend cs => ColsAppend id cs
  | CallFromQuery f => FromQuery id f
  | CallVals vs => Vals id vs
  | CallClearVals => ClearVals id
  | CallRows rs => Rows id rs
  | CallClearRows => ClearRows id
  | CallReturning r => Returning id r
  | CallOnConflict c => OnConflict id c
  | CallClearOnConflict => ClearOnConflict id
  | CallAs a => As id a
  | CallSetError e => SetError id e
  end.

End methods.
End InsertDataset.

(** ** update_dataset.go *)

Module UpdateDataset.
Section methods.
Context {env : Env}.

(** Reads, assignments and allocations of [UpdateDataset] objects. *)
Definition load : loc → M (Dataset exp.UpdateClauses) := deref updates.

Definition store (p : loc) (d : Dataset exp.UpdateClauses) : M unit :=
  λ h, Ok tt (with_updates h (<[p := d]> (updates h))).

Definition alloc (d : Dataset exp.UpdateClauses) : M loc :=
  λ h, let p := newLoc (updates h) in
       Ok p (with_updates h (<[p := d]> (updates h))).

Definition newUpdateDataset (d : string) (queryFactory : QueryFactory) : M loc :=
  alloc {| clauses := exp.NewUpdateClauses; dialect := GetDialect d;
           isPrepared := preparedNoPreference; queryFactory := queryFactory;
           err := None |}.

Definition GetClauses (ud : loc) : M exp.UpdateClauses :=
  d ← load ud; mret (clauses d).

(** A new object with the receiver's dialect, prepared flag, query factory
    and error, and the given clause record. *)
Definition copy (ud : loc) (clauses : exp.UpdateClauses) : M loc :=
  d ← load ud;
  alloc {| dialect := dialect d; clauses := clauses;
           isPrepared := isPrepared d; queryFactory := queryFactory d;
           err := err d |}.

Definition Prepared (ud : loc) (prepared : bool) : M loc :=
  c ← GetClauses ud;
  ret ← copy ud c;
  d ← load ret;
  store ret (set_isPrepared d (preparedFromBool prepared));;
  mret ret.

Definition IsPrepared (ud : loc) : M bool :=
  d ← load ud; mret (prepared_Bool (isPrepared d)).

Definition WithDialect (ud : loc) (dl : string) : M loc :=
  c ← GetClauses ud;
  ds ← copy ud c;
  d ← load ds;
  store ds (set_dialect d (GetDialect dl));;
  mret ds.

Definition Dialect (ud : loc) : M SQLDialect :=
  d ← load ud; mret (dialect d).

Definition SetDialect (ud : loc) (dialect : SQLDialect) : M loc :=
  c ← GetClauses ud;
  cd ← copy ud c;
  d ← load cd;
  store cd (set_dialect d dialect);;
  mret cd.

Definition Expression (ud : loc) : M exp.Expression :=
  mret (exp.Subquery (UpdateRef ud)).

Definition Clone (ud : loc) : M exp.Expression :=
  c ← GetClauses ud;
  p ← copy ud c;
  mret (exp.Subquery (UpdateRef p)).

Definition With (ud : loc) (name : string) (subquery : exp.Expression) : M loc :=
  c ← GetClauses ud;
  copy ud (exp.UpdateClauses_CommonTablesAppend c
              (exp.NewCommonTableExpression false name subquery)).

Definition WithRecursive (ud : loc) (name : string) (subquery : exp.Expression)
    : M loc :=
  c ← GetClauses ud;
  copy ud (exp.UpdateClauses_CommonTablesAppend c
              (exp.NewCommonTableExpression true name subquery)).

Definition Error (ud : loc) : M (option error) :=
  d ← load ud; mret (err d).

(** Assigns to the receiver's own [err] field when it is nil, and returns
    the receiver: no copy is made. *)
Definition SetError (ud : loc) (e : option error) : M loc :=
  d ← load ud;
  (if decide (err d = None) then store ud (set_err d e) else mret tt);;
  mret ud.

Definition updateSQLBuilder (ud : loc) : M sb.SQLBuilder :=
  d ← load ud;
  let buf := sb.NewSQLBuilder (prepared_Bool (isPrepared d)) in
  match err d with
  | Some e => mret (sb.SetError buf (Some e))
  | None => h ← getHeap; mret (ToUpdateSQL (dialect d) h buf (clauses d))
  end.

Definition ToSQL (ud : loc) : M (string * list exp.Value * option error) :=
  b ← updateSQLBuilder ud; mret (sb.ToSQL b).

(** [panic(err)] when the builder's [ToSQL] gives an error. *)
Definition MustToSQL (ud : loc) : M (string * list exp.Value) :=
  b ← updateSQLBuilder ud;
  match sb.ToSQL b with
  | (_, _, Some e) => panic e
  | (sql, params, None) => mret (sql, params)
  end.

Definition AppendSQL (ud : loc) (b : sb.SQLBuilder) : M sb.SQLBuilder :=
  d ← load ud;
  match err d with
  | Some e => mret (sb.SetError b (Some e))
  | None => h ← getHeap; mret (ToUpdateSQL (dialect d) h b (clauses d))
  end.

Definition ReturnsColumns (ud : loc) : M bool :=
  c ← GetClauses ud; mret (exp.UpdateClauses_HasReturning c).

(** The type switch: an [exp.Expression], a [string], or anything else. *)
Definition Table (ud : loc) (table : exp.Value) : M loc :=
  match table with
  | exp.VExpr t =>
      c ← GetClauses ud; copy ud (exp.UpdateClauses_SetTable c t)
  | exp.VString t =>
      c ← GetClauses ud;
      copy ud (exp.UpdateClauses_SetTable c (exp.Identifier (ParseIdentifier t)))
  | _ => panic ErrUnsupportedUpdateTableType
  end.

Definition Update (table : exp.Value) : M loc :=
  ud ← newUpdateDataset "default" None;
  Table ud table.

(** [Set]; the name is a keyword here. *)
Definition Set_ (ud : loc) (values : exp.Value) : M loc :=
  c ← GetClauses ud;
  copy ud (exp.UpdateClauses_SetSetValues c values).

Definition From (ud : loc) (tables : list exp.Value) : M loc :=
  c ← GetClauses ud;
  cl ← liftPanic (NewColumnListExpression tables);
  copy ud (exp.UpdateClauses_SetFrom c cl).

Definition Where (ud : loc) (expressions : list exp.Expression) : M loc :=
  c ← GetClauses ud;
  copy ud (exp.UpdateClauses_WhereAppend c expressions).

Definition ClearWhere (ud : loc) : M loc :=
  c ← GetClauses ud;
  copy ud (exp.UpdateClauses_ClearWhere c).

Definition Order (ud : loc) (order : list exp.Expression) : M loc :=
  c ← GetClauses ud;
  copy ud (exp.UpdateClauses_SetOrder c order).

Definition OrderAppend (ud : loc) (order : list exp.Expression) : M loc :=
  c ← GetClauses ud;
  copy ud (exp.UpdateClauses_OrderAppend c order).

Definition OrderPrepend (ud : loc) (order : list exp.Expression) : M loc :=
  c ← GetClauses ud;
  copy ud (exp.UpdateClauses_OrderPrepend c order).

Definition ClearOrder (ud : loc) : M loc :=
  c ← GetClauses ud;
  copy ud (exp.UpdateClauses_ClearOrder c).

(** [limit] is a [uint]; only its comparison with 0 matters. *)
Definition Limit (ud : loc) (limit : N) : M loc :=
  if decide (0 < limit)%N then
    c ← GetClauses ud;
    copy ud (exp.UpdateClauses_SetLimit c (exp.VUint limit))
  else
    c ← GetClauses ud;
    copy ud (exp.UpdateClauses_ClearLimit c).

Definition LimitAll (ud : loc) : M loc :=
  c ← GetClauses ud;
  copy ud (exp.UpdateClauses_SetLimit c (exp.VExpr (L "ALL"))).

Definition ClearLimit (ud : loc) : M loc :=
  c ← GetClauses ud;
  copy ud (exp.UpdateClauses_ClearLimit c).

Definition Returning (ud : loc) (returning : list exp.Value) : M loc :=
  c ← GetClauses ud;
  cl ← liftPanic (NewColumnListExpression returning);
  copy ud (exp.UpdateClauses_SetReturning c cl).

Definition GetAs (ud : loc) : M (option exp.IdentifierExpression) :=
  mret None.

(** The mutators of the exposed surface, as first-order calls. *)
Inductive call :=
| CallPrepared (prepared : bool)
| CallWithDialect (dl : string)
| CallSetDialect (dialect : SQLDialect)
| CallWith (name : string) (subquery : exp.Expression)
| CallWithRecursive (name : string) (subquery : exp.Expression)
| CallTable (table : exp.Value)
| CallSet (values : exp.Value)
| CallFrom (tables : list exp.Value)
| CallWhere (expressions : list exp.Expression)
| CallClearWhere
| CallOrder (order : list exp.Expression)
| CallOrderAppend (order : list exp.Expression)
| CallOrderPrepend (order : list exp.Expression)
| CallClearOrder
| CallLimit (limit : N)
| CallLimitAll
| CallClearLimit
| CallReturning (returning : list exp.Value)
| CallSetError (e : option error).

Definition invoke (ud : loc) (c : call) : M loc :=
  match c with
  | CallPrepared p => Prepared ud p
  | CallWithDialect dl => WithDialect ud dl
  | CallSetDialect d => SetDialect ud d
  | CallWith n s => With ud n s
  | CallWithRecursive n s => WithRecursive ud n s
  | CallTable t => Table ud t
  | CallSet v => Set_ ud v
  | CallFrom ts => From ud ts
  | CallWhere es => Where ud es
  | CallClearWhere => ClearWhere ud
  | CallOrder o => Order ud o
  | CallOrderAppend o => OrderAppend ud o
  | CallOrderPrepend o => OrderPrepend ud o
  | CallClearOrder => ClearOrder ud
  | CallLimit n => Limit ud n
  | CallLimitAll => LimitAll ud
  | CallClearLimit => ClearLimit ud
  | CallReturning r => Returning ud r
  | CallSetError e => SetError ud e
  end.

End methods.
End UpdateDataset.

(** ** delete_dataset.go *)

Module DeleteDataset.
Section methods.
Context {env : Env}.

(** Reads, assignments and allocations of [DeleteDataset] objects. *)
Definition load : loc → M (Dataset exp.DeleteClauses) := deref deletes.

Definition store (p : loc) (d : Dataset exp.DeleteClauses) : M unit :=
  λ h, Ok tt (with_deletes h (<[p := d]> (deletes h))).

Definition alloc (d : Dataset exp.DeleteClauses) : M loc :=
  λ h, let p := newLoc (deletes h) in
       Ok p (with_deletes h (<[p := d]> (deletes h))).

Definition newDeleteDataset (d : string) (queryFactory : QueryFactory) : M loc :=
  alloc {| clauses := exp.NewDeleteClauses; dialect := GetDialect d;
           isPrepared := preparedNoPreference; queryFactory := queryFactory;
           err := None |}.

Definition GetClauses (dd : loc) : M exp.DeleteClauses :=
  d ← load dd; mret (clauses d).

(** A new object with the receiver's dialect, prepared flag, query factory
    and error, and the given clause record. *)
Definition copy (dd : loc) (clauses : exp.DeleteClauses) : M loc :=
  d ← load dd;
  alloc {| dialect := dialect d; clauses := clauses;
           isPrepared := isPrepared d; queryFactory := queryFactory d;
           err := err d |}.

Definition Prepared (dd : loc) (prepared : bool) : M loc :=
  c ← GetClauses dd;
  ret ← copy dd c;
  d ← load ret;
  store ret (set_isPrepared d (preparedFromBool prepared));;
  mret ret.

Definition IsPrepared (dd : loc) : M bool :=
  d ← load dd; mret (prepared_Bool (isPrepared d)).

Definition WithDialect (dd : loc) (dl : string) : M loc :=
  c ← GetClauses dd;
  ds ← copy dd c;
  d ← load ds;
  store ds (set_dialect d (GetDialect dl));;
  mret ds.

Definition Dialect (dd : loc) : M SQLDialect :=
  d ← load dd; mret (dialect d).

Definition SetDialect (dd : loc) (dialect : SQLDialect) : M loc :=
  c ← GetClauses dd;
  cd ← copy dd c;
  d ← load cd;
  store cd (set_dialect d dialect);;
  mret cd.

Definition Expression (dd : loc) : M exp.Expression :=
  mret (exp.Subquery (DeleteRef dd)).

Definition Clone (dd : loc) : M exp.Expression :=
  c ← GetClauses dd;
  p ← copy dd c;
  mret (exp.Subquery (DeleteRef p)).

Definition With (dd : loc) (name : string) (subquery : exp.Expression) : M loc :=
  c ← GetClauses dd;
  copy dd (exp.DeleteClauses_CommonTablesAppend c
              (exp.NewCommonTableExpression false name subquery)).

Definition WithRecursive (dd : loc) (name : string) (subquery : exp.Expression)
    : M loc :=
  c ← GetClauses dd;
  copy dd (exp.DeleteClauses_CommonTablesAppend c
              (exp.NewCommonTableExpression true name subquery)).

Definition Error (dd : loc) : M (option error) :=
  d ← load dd; mret (err d).

(** Assigns to the receiver's own [err] field when it is nil, and returns
    the receiver: no copy is made. *)
Definition SetError (dd : loc) (e : option error) : M loc :=
  d ← load dd;
  (if decide (err d = None) then store dd (set_err d e) else mret tt);;
  mret dd.

Definition deleteSQLBuilder (dd : loc) : M sb.SQLBuilder :=
  d ← load dd;
  let buf := sb.NewSQLBuilder (prepared_Bool (isPrepared d)) in
  match err d with
  | Some e => mret (sb.SetError buf (Some e))
  | None => h ← getHeap; mret (ToDeleteSQL (dialect d) h buf (clauses d))
  end.

Definition ToSQL (dd : loc) : M (string * list exp.Value * option error) :=
  b ← deleteSQLBuilder dd; mret (sb.ToSQL b).

(** [panic(err)] when the builder's [ToSQL] gives an error. *)
Definition MustToSQL (dd : loc) : M (string * list exp.Value) :=
  b ← deleteSQLBuilder dd;
  match sb.ToSQL b with
  | (_, _, Some e) => panic e
  | (sql, params, None) => mret (sql, params)
  end.

Definition AppendSQL (dd : loc) (b : sb.SQLBuilder) : M sb.SQLBuilder :=
  d ← load dd;
  match err d with
  | Some e => mret (sb.SetError b (Some e))
  | None => h ← getHeap; mret (ToDeleteSQL (dialect d) h b (clauses d))
  end.

Definition ReturnsColumns (dd : loc) : M bool :=
  c ← GetClauses dd; mret (exp.DeleteClauses_HasReturning c).

(** The type switch: an [exp.IdentifierExpression], a [string], or anything
    else; an expression of another kind falls to [default]. *)
Definition From (dd : loc) (table : exp.Value) : M loc :=
  match table with
  | exp.VExpr (exp.Identifier t) =>
      c ← GetClauses dd; copy dd (exp.DeleteClauses_SetFrom c t)
  | exp.VString t =>
      c ← GetClauses dd;
      copy dd (exp.DeleteClauses_SetFrom c (ParseIdentifier t))
  | _ => panic ErrBadFromArgument
  end.

Definition Delete (table : exp.Value) : M loc :=
  dd ← newDeleteDataset "default" None;
  From dd table.

Definition Where (dd : loc) (expressions : list exp.Expression) : M loc :=
  c ← GetClauses dd;
  copy dd (exp.DeleteClauses_WhereAppend c expressions).

Definition ClearWhere (dd : loc) : M loc :=
  c ← GetClauses dd;
  copy dd (exp.DeleteClauses_ClearWhere c).

Definition Order (dd : loc) (order : list exp.Expression) : M loc :=
  c ← GetClauses dd;
  copy dd (exp.DeleteClauses_SetOrder c order).

Definition OrderAppend (dd : loc) (order : list exp.Expression) : M loc :=
  c ← GetClauses dd;
  copy dd (exp.DeleteClauses_OrderAppend c order).

Definition OrderPrepend (dd : loc) (order : list exp.Expression) : M loc :=
  c ← GetClauses dd;
  copy dd (exp.DeleteClauses_OrderPrepend c order).

Definition ClearOrder (dd : loc) : M loc :=
  c ← GetClauses dd;
  copy dd (exp.DeleteClauses_ClearOrder c).

(** [limit] is a [uint]; only its comparison with 0 matters. *)
Definition Limit (dd : loc) (limit : N) : M loc :=
  if decide (0 < limit)%N then
    c ← GetClauses dd;
    copy dd (exp.DeleteClauses_SetLimit c (exp.VUint limit))
  else
    c ← GetClauses dd;
    copy dd (exp.DeleteClauses_ClearLimit c).

Definition LimitAll (dd : loc) : M loc :=
  c ← GetClauses dd;
  copy dd (exp.DeleteClauses_SetLimit c (exp.VExpr (L "ALL"))).

Definition ClearLimit (dd : loc) : M loc :=
  c ← GetClauses dd;
  copy dd (exp.DeleteClauses_ClearLimit c).

Definition Returning (dd : loc) (returning : list exp.Value) : M loc :=
  c ← GetClauses dd;
  cl ← liftPanic (NewColumnListExpression returning);
  copy dd (exp.DeleteClauses_SetReturning c cl).

Definition GetAs (dd : loc) : M (option exp.IdentifierExpression) :=
  mret None.

(** The mutators of the exposed surface, as first-order calls. *)
Inductive call :=
| CallPrepared (prepared : bool)
| CallWithDialect (dl : string)
| CallSetDialect (dialect : SQLDialect)
| CallWith (name : string) (subquery : exp.Expression)
| CallWithRecursive (name : string) (subquery : exp.Expression)
| CallFrom (table : exp.Value)
| CallWhere (expressions : list exp.Expression)
| CallClearWhere
| CallOrder (order : list exp.Expression)
| CallOrderAppend (order : list exp.Expression)
| CallOrderPrepend (order : list exp.Expression)
| CallClearOrder
| CallLimit (limit : N)
| CallLimitAll
| CallClearLimit
| CallReturning (returning : list exp.Value)
| CallSetError (e : option error).

Definition invoke (dd : loc) (c : call) : M loc :=
  match c with
  | CallPrepared p => Prepared dd p
  | CallWithDialect dl => WithDialect dd dl
  | CallSetDialect d => SetDialect dd d
  | CallWith n s => With dd n s
  | CallWithRecursive n s => WithRecursive dd n s
  | CallFrom t => From dd t
  | CallWhere es => Where dd es
  | CallClearWhere => ClearWhere dd
  | CallOrder o => Order dd o
  | CallOrderAppend o => OrderAppend dd o
  | CallOrderPrepend o => OrderPrepend dd o
  | CallClearOrder => ClearOrder dd
  | CallLimit n => Limit dd n
  | CallLimitAll => LimitAll dd
  | CallClearLimit => ClearLimit dd
  | CallReturning r => Returning dd r
  | CallSetError e => SetError dd e
  end.

End methods.
End DeleteDataset.

(** ** Statements held by pointer: reachability and purity of dialects *)

(** A builder object of any kind. *)
Inductive Object :=
| SelectObj (d : Dataset exp.SelectClauses)
| InsertObj (d : Dataset exp.InsertClauses)
| UpdateObj (d : Dataset exp.UpdateClauses)
| DeleteObj (d : Dataset exp.DeleteClauses)
| TruncateObj (d : Dataset exp.TruncateClauses).

Definition lookupRef (h : Heap) (r : StmtRef) : option Object :=
  match r with
  | SelectRef p => SelectObj <$> selects h !! p
  | InsertRef p => InsertObj <$> inserts h !! p
  | UpdateRef p => UpdateObj <$> updates h !! p
  | DeleteRef p => DeleteObj <$> deletes h !! p
  | TruncateRef p => TruncateObj <$> truncates h !! p
  end.

(** The statement pointers an object holds in its clause record. *)
Definition Object_refs (o : Object) : list StmtRef :=
  match o with
  | SelectObj d => exp.SelectClauses_refs (clauses d)
  | InsertObj d => exp.InsertClauses_refs (clauses d)
  | UpdateObj d => exp.UpdateClauses_refs (clauses d)
  | DeleteObj d => exp.DeleteClauses_refs (clauses d)
  | TruncateObj d => exp.TruncateClauses_refs (clauses d)
  end.

(** The objects a renderer can come to read when it starts from [roots]. *)
Inductive reachable (h : Heap) (roots : list StmtRef) : StmtRef → Prop :=
| reachable_root r : r ∈ roots → reachable h roots r
| reachable_step r o r' :
    reachable h roots r → lookupRef h r = Some o → r' ∈ Object_refs o →
    reachable h roots r'.

Definition agree_on (h h' : Heap) (roots : list StmtRef) : Prop :=
  ∀ r, reachable h roots r → lookupRef h' r = lookupRef h r.

Definition allocated (h : Heap) (r : StmtRef) : Prop := is_Some (lookupRef h r).

(** Go has no dangling pointers: every statement pointer held by a live
    object refers to a live object. *)
Definition heap_closed (h : Heap) : Prop :=
  map_Forall (λ _ d, Forall (allocated h) (Object_refs (SelectObj d))) (selects h)
  ∧ map_Forall (λ _ d, Forall (allocated h) (Object_refs (InsertObj d))) (inserts h)
  ∧ map_Forall (λ _ d, Forall (allocated h) (Object_refs (UpdateObj d))) (updates h)
  ∧ map_Forall (λ _ d, Forall (allocated h) (Object_refs (DeleteObj d))) (deletes h)
  ∧ map_Forall (λ _ d, Forall (allocated h) (Object_refs (TruncateObj d))) (truncates h).

(** Modelled from the spec: "dialects are pure with respect to input (no
    shared mutable state between renders)".  What a rendering entry point
    writes is determined by the builder, the clause record and the objects
    reachable from the clause record. *)
Class PureDialects (env : Env) : Prop := {
  ToSelectSQL_pure d h h' b c :
    agree_on h h' (exp.SelectClauses_refs c) → ToSelectSQL d h' b c = ToSelectSQL d h b c;
  ToInsertSQL_pure d h h' b c :
    agree_on h h' (exp.InsertClauses_refs c) → ToInsertSQL d h' b c = ToInsertSQL d h b c;
  ToUpdateSQL_pure d h h' b c :
    agree_on h h' (exp.UpdateClauses_refs c) → ToUpdateSQL d h' b c = ToUpdateSQL d h b c;
  ToDeleteSQL_pure d h h' b c :
    agree_on h h' (exp.DeleteClauses_refs c) → ToDeleteSQL d h' b c = ToDeleteSQL d h b c;
  ToTruncateSQL_pure d h h' b c :
    agree_on h h' (exp.TruncateClauses_refs c) → ToTruncateSQL d h' b c = ToTruncateSQL d h b c;
}.

(** ** A rendering of TRUNCATE and a test dialect *)

(** Modelled from the spec: the dialect options are not among the sources
    (dialect/postgres sets some of them).  The text fragments a dialect is
    configured with for TRUNCATE. *)
Record TruncateFragments := {
  TruncateClause : string;
  CascadeFragment : string;
  RestrictFragment : string;
  IdentityFragment : string → string;
}.

(** Modelled from the spec: the statement "contains the table name"; an
    identifier is written as its table name and literal text as it is. *)
Definition renderSource (e : exp.Expression) : string :=
  match e with
  | exp.Identifier i => exp.table i
  | exp.Literal sql => sql
  | _ => ""
  end.

Fixpoint renderSources (l : list exp.Expression) : string :=
  match l with
  | [] => ""
  | [e] => renderSource e
  | e :: l' => (renderSource e ++ ", " ++ renderSources l')%string
  end.

(** Modelled from the spec: the TRUNCATE rendering entry point of the
    dialects (package [sqlgen]) is not among the sources.  The statement
    "contains the table name, a CASCADE fragment, and the configured identity
    fragment, in that fixed order"; the RESTRICT flag is rendered next to
    the CASCADE flag. *)
Definition ToTruncateSQL_spec (f : TruncateFragments) (b : sb.SQLBuilder)
    (c : exp.TruncateClauses) : sb.SQLBuilder :=
  let opts := exp.TruncateClauses_Options c in
  let b := sb.Write b (TruncateClause f) in
  let b := sb.Write b (renderSources (default [] (exp.tc_tables c))) in
  let b := if exp.Cascade opts then sb.Write b (CascadeFragment f) else b in
  let b := if exp.Restrict opts then sb.Write b (RestrictFragment f) else b in
  if decide (exp.Identity opts = "") then b
  else sb.Write b (IdentityFragment f (exp.Identity opts)).

(** A test dialect registry in the manner of the package's mock dialects:
    the default dialect and the one that dialect/postgres registers under
    the name postgres.  Its INSERT renderer appends a row source held by
    pointer the way [AppendSQL] does, under the row source's own dialect. *)
Module Mock.

Definition defaultDialect : SQLDialect := DialectAt 0.
Definition postgresDialect : SQLDialect := DialectAt 1.

Definition GetDialect (name : string) : SQLDialect :=
  if decide (name = "postgres") then postgresDialect else defaultDialect.

Definition Dialect (d : SQLDialect) : string :=
  if decide (d = postgresDialect) then "postgres" else "default".

Definition preparedFromBool (p : bool) : prepared :=
  if p then preparedEnabled else preparedNoPreference.

Definition prepared_Bool (p : prepared) : bool :=
  bool_decide (p = preparedEnabled).

Definition ParseIdentifier (s : string) : exp.IdentifierExpression :=
  {| exp.schema := ""; exp.table := s; exp.col := "" |}.

Fixpoint NewColumnListExpression (vals : list exp.Value)
    : error + exp.ColumnListExpression :=
  match vals with
  | [] => inr []
  | v :: vals' =>
      match v, NewColumnListExpression vals' with
      | exp.VString s, inr l => inr (exp.Identifier (ParseIdentifier s) :: l)
      | exp.VExpr e, inr l => inr (e :: l)
      | (exp.VString _ | exp.VExpr _), inl e => inl e
      | _, _ => inl (ErrorString "cannot create expression")
      end
  end.

Definition placeholder (d : SQLDialect) : string :=
  if decide (d = postgresDialect) then "$1" else "?".

Definition ToSelectSQL (d : SQLDialect) (h : Heap) (b : sb.SQLBuilder)
    (c : exp.SelectClauses) : sb.SQLBuilder :=
  sb.Write b ("SELECT * FROM " ++ renderSources (exp.sc_from c)
              ++ " LIMIT " ++ placeholder d)%string.

Definition ToInsertSQL (d : SQLDialect) (h : Heap) (b : sb.SQLBuilder)
    (c : exp.InsertClauses) : sb.SQLBuilder :=
  let b := sb.Write b ("INSERT INTO "
                       ++ default "" (renderSource <$> exp.ic_into c))%string in
  match exp.ic_from c with
  | Some (exp.Subquery (SelectRef p)) =>
      match selects h !! p with
      | Some sd =>
          match err sd with
          | Some e => sb.SetError b (Some e)
          | None => ToSelectSQL (dialect sd) h (sb.Write b " ") (clauses sd)
          end
      | None => sb.SetError b (Some NilDereference)
      end
  | _ => sb.Write b " DEFAULT VALUES"
  end.

Definition ToUpdateSQL (d : SQLDialect) (h : Heap) (b : sb.SQLBuilder)
    (c : exp.UpdateClauses) : sb.SQLBuilder :=
  sb.Write b ("UPDATE " ++ default "" (renderSource <$> exp.uc_table c))%string.

Definition ToDeleteSQL (d : SQLDialect) (h : Heap) (b : sb.SQLBuilder)
    (c : exp.DeleteClauses) : sb.SQLBuilder :=
  sb.Write b ("DELETE FROM " ++ default "" (exp.table <$> exp.dc_from c))%string.

Definition fragments : TruncateFragments :=
  {| TruncateClause := "TRUNCATE ";
     CascadeFragment := " CASCADE";
     RestrictFragment := " RESTRICT";
     IdentityFragment := λ s, (" " ++ s ++ " IDENTITY")%string |}.

End Mock.

Definition mockEnv (f : TruncateFragments) : Env :=
  {| GetDialect := Mock.GetDialect;
     SQLDialect_Dialect := Mock.Dialect;
     ToSelectSQL := Mock.ToSelectSQL;
     ToInsertSQL := Mock.ToInsertSQL;
     ToUpdateSQL := Mock.ToUpdateSQL;
     ToDeleteSQL := Mock.ToDeleteSQL;
     ToTruncateSQL := λ _ _, ToTruncateSQL_spec f;
     preparedFromBool := Mock.preparedFromBool;
     prepared_Bool := Mock.prepared_Bool;
     ParseIdentifier := Mock.ParseIdentifier;
     NewColumnListExpression := Mock.NewColumnListExpression |}.

(** ** The surface the four builders share *)

(** The operations every statement kind exposes, so that a property of all
    four builders is stated once. *)
Record Builder := {
  Clauses : Type;
  call : Type;
  objects : Heap → gmap loc (Dataset Clauses);
  with_objects : Heap → gmap loc (Dataset Clauses) → Heap;
  ref : loc → StmtRef;
  toObject : Dataset Clauses → Object;
  refs : Clauses → list StmtRef;
  render : Env → SQLDialect → Heap → sb.SQLBuilder → Clauses → sb.SQLBuilder;
  invoke : Env → loc → call → M loc;
  isSetError : call → bool;
  written : call → list StmtRef;
  SetError : loc → option error → M loc;
  Clone : loc → M exp.Expression;
  GetClauses : loc → M Clauses;
  Dialect : loc → M SQLDialect;
  IsPrepared : Env → loc → M bool;
  Error : loc → M (option error);
  sqlBuilder : Env → loc → M sb.SQLBuilder;
  ToSQL : Env → loc → M (string * list exp.Value * option error);
  MustToSQL : Env → loc → M (string * list exp.Value);
}.

Definition truncateBuilder : Builder :=
  {| Clauses := exp.TruncateClauses;
     call := TruncateDataset.call;
     objects := truncates;
     with_objects := with_truncates;
     ref := TruncateRef;
     toObject := TruncateObj;
     refs := exp.TruncateClauses_refs;
     render := @ToTruncateSQL;
     invoke := @TruncateDataset.invoke;
     isSetError c :=
       match c with TruncateDataset.CallSetError _ => true | _ => false end;
     written _ := [];
     SetError := TruncateDataset.SetError;
     Clone := TruncateDataset.Clone;
     GetClauses := TruncateDataset.GetClauses;
     Dialect := TruncateDataset.Dialect;
     IsPrepared := @TruncateDataset.IsPrepared;
     Error := TruncateDataset.Error;
     sqlBuilder := @TruncateDataset.truncateSQLBuilder;
     ToSQL := @TruncateDataset.ToSQL;
     MustToSQL := @TruncateDataset.MustToSQL |}.

Definition insertBuilder : Builder :=
  {| Clauses := exp.InsertClauses;
     call := InsertDataset.call;
     objects := inserts;
     with_objects := with_inserts;
     ref := InsertRef;
     toObject := InsertObj;
     refs := exp.InsertClauses_refs;
     render := @ToInsertSQL;
     invoke := @InsertDataset.invoke;
     isSetError c :=
       match c with InsertDataset.CallSetError _ => true | _ => false end;
     written c :=
       match c with
       | InsertDataset.CallFromQuery (exp.Subquery (SelectRef sds)) => [SelectRef sds]
       | _ => []
       end;
     SetError := InsertDataset.SetError;
     Clone := InsertDataset.Clone;
     GetClauses := InsertDataset.GetClauses;
     Dialect := InsertDataset.Dialect;
     IsPrepared := @InsertDataset.IsPrepared;
     Error := InsertDataset.Error;
     sqlBuilder := @InsertDataset.insertSQLBuilder;
     ToSQL := @InsertDataset.ToSQL;
     MustToSQL := @InsertDataset.MustToSQL |}.

Definition updateBuilder : Builder :=
  {| Clauses := exp.UpdateClauses;
     call := UpdateDataset.call;
     objects := updates;
     with_objects := with_updates;
     ref := UpdateRef;
     toObject := UpdateObj;
     refs := exp.UpdateClauses_refs;
     render := @ToUpdateSQL;
     invoke := @UpdateDataset.invoke;
     isSetError c :=
       match c with UpdateDataset.CallSetError _ => true | _ => false end;
     written _ := [];
     SetError := UpdateDataset.SetError;
     Clone := UpdateDataset.Clone;
     GetClauses := UpdateDataset.GetClauses;
     Dialect := UpdateDataset.Dialect;
     IsPrepared := @UpdateDataset.IsPrepared;
     Error := UpdateDataset.Error;
     sqlBuilder := @UpdateDataset.updateSQLBuilder;
     ToSQL := @UpdateDataset.ToSQL;
     MustToSQL := @UpdateDataset.MustToSQL |}.

Definition deleteBuilder : Builder :=
  {| Clauses := exp.DeleteClauses;
     call := DeleteDataset.call;
     objects := deletes;
     with_objects := with_deletes;
     ref := DeleteRef;
     toObject := DeleteObj;
     refs := exp.DeleteClauses_refs;
     render := @ToDeleteSQL;
     invoke := @DeleteDataset.invoke;
     isSetError c :=
       match c with DeleteDataset.CallSetError _ => true | _ => false end;
     written _ := [];
     SetError := DeleteDataset.SetError;
     Clone := DeleteDataset.Clone;
     GetClauses := DeleteDataset.GetClauses;
     Dialect := DeleteDataset.Dialect;
     IsPrepared := @DeleteDataset.IsPrepared;
     Error := DeleteDataset.Error;
     sqlBuilder := @DeleteDataset.deleteSQLBuilder;
     ToSQL := @DeleteDataset.ToSQL;
     MustToSQL := @DeleteDataset.MustToSQL |}.

(** [P] holds of the INSERT, UPDATE, DELETE and TRUNCATE builders. *)
Definition every_builder (P : Builder → Prop) : Prop :=
  P insertBuilder ∧ P updateBuilder ∧ P deleteBuilder ∧ P truncateBuilder.

(** ** Properties of a builder, stated once for the four kinds *)

Section statements.
Context (env : Env) (B : Builder).

(** A mutator other than [SetError] either panics and writes nothing, or
    returns a pointer to a new object and writes to no object but that one
    and, for [FromQuery], its SELECT argument; the receiver is as it was.  So
    is what [ToSQL] returns for the receiver, when the heap has no dangling
    pointer and the rewritten argument is not part of the receiver's
    statement. *)
Definition receiver_unchanged : Prop :=
  ∀ h b d c,
    objects B h !! b = Some d →
    isSetError B c = false →
    match invoke B env b c h with
    | Panic _ h' => h' = h
    | Ok b' h' =>
        objects B h !! b' = None
        ∧ objects B h' !! b = Some d
        ∧ (∀ r, r ≠ ref B b' → r ∉ written B c → lookupRef h' r = lookupRef h r)
        ∧ (heap_closed h →
           (∀ r, r ∈ written B c → ¬ reachable h (refs B (clauses d)) r) →
           ∃ res, ToSQL B env b h = Ok res h ∧ ToSQL B env b h' = Ok res h')
    end.

(** [SetError] returns its receiver and writes the error into it when it
    has none. *)
Definition SetError_in_place : Prop :=
  ∀ h b d e,
    objects B h !! b = Some d →
    ∃ h', SetError B b e h = Ok b h'
      ∧ objects B h' !! b = Some (if decide (err d = None) then set_err d e else d)
      ∧ ∀ r, r ≠ ref B b → lookupRef h' r = lookupRef h r.

(** A mutator called on a builder that carries an error either panics and
    writes nothing, or returns a builder that carries the same error;
    rendering the returned builder yields that error and nothing else,
    whatever the rendering entry points of the environment are. *)
Definition sticky_propagation : Prop :=
  ∀ h b d e c,
    objects B h !! b = Some d →
    err d = Some e →
    match invoke B env b c h with
    | Panic _ h' => h' = h
    | Ok b' h' =>
        Error B b' h' = Ok (Some e) h'
        ∧ ∀ env', ToSQL B env' b' h' = Ok ("", [], Some e) h'
    end.

(** After two calls of [SetError] the builder's error is the one it had, or
    the first of the two when it had none. *)
Definition first_error_wins : Prop :=
  ∀ h b d e1 e2,
    objects B h !! b = Some d →
    ∃ h', (b1 ← SetError B b (Some e1);
           b2 ← SetError B b1 (Some e2);
           Error B b2) h
          = Ok (Some (default e1 (err d))) h'.

(** [MustToSQL] panics with the error [ToSQL] returns, and returns the text
    and parameters of [ToSQL] when there is none. *)
Definition MustToSQL_agrees : Prop :=
  ∀ h b d,
    objects B h !! b = Some d →
    ∃ sql params e,
      ToSQL B env b h = Ok (sql, params, e) h
      ∧ MustToSQL B env b h =
          match e with
          | Some cause => Panic cause h
          | None => Ok (sql, params) h
          end.

(** [Clone] returns a new builder whose accessors and rendering give what
    the receiver's give. *)
Definition Clone_identical : Prop :=
  ∀ h b d,
    objects B h !! b = Some d →
    ∃ p h' res,
      Clone B b h = Ok (exp.Subquery (ref B p)) h'
      ∧ objects B h !! p = None
      ∧ objects B h' !! b = Some d
      ∧ (GetClauses B p h' = Ok (clauses d) h' ∧ GetClauses B b h' = Ok (clauses d) h')
      ∧ (Dialect B p h' = Ok (dialect d) h' ∧ Dialect B b h' = Ok (dialect d) h')
      ∧ (IsPrepared B env p h' = Ok (prepared_Bool (isPrepared d)) h'
         ∧ IsPrepared B env b h' = Ok (prepared_Bool (isPrepared d)) h')
      ∧ (Error B p h' = Ok (err d) h' ∧ Error B b h' = Ok (err d) h')
      ∧ (ToSQL B env p h' = Ok res h' ∧ ToSQL B env b h' = Ok res h').

End statements.

(** What [copy] returns for a receiver [d] in heap [h]: a pointer to a new
    object that differs from [d] in its clause record only. *)
Definition copied (B : Builder) (h : Heap) (d : Dataset (Clauses B))
    (c : Clauses B) : Result loc :=
  Ok (newLoc (objects B h))
     (with_objects B h
        (<[newLoc (objects B h) :=
             {| dialect := dialect d; clauses := c; isPrepared := isPrepared d;
                queryFactory := queryFactory d; err := err d |}]>
           (objects B h))).

(** ** Builders to run the methods on *)

Module Examples.

Definition env : Env := mockEnv Mock.fragments.

Definition boom : error := ErrorString "boom".
Definition earlier : error := ErrorString "earlier".
Definition later : error := ErrorString "later".

(** The object [Truncate("users")] builds. *)
Definition usersTruncate : Dataset exp.TruncateClauses :=
  {| dialect := Mock.defaultDialect;
     clauses := exp.TruncateClauses_SetTable exp.NewTruncateClauses
                  [exp.Identifier (Mock.ParseIdentifier "users")];
     isPrepared := preparedNoPreference; queryFactory := None; err := None |}.

(** [Truncate("users").SetError(boom)]. *)
Definition failedTruncate : Dataset exp.TruncateClauses :=
  set_err usersTruncate (Some boom).

(** [Update("users").Limit(7)] and [Delete("users").Limit(7)]. *)
Definition usersUpdate : Dataset exp.UpdateClauses :=
  {| dialect := Mock.defaultDialect;
     clauses := exp.UpdateClauses_SetLimit
                  (exp.UpdateClauses_SetTable exp.NewUpdateClauses
                     (exp.Identifier (Mock.ParseIdentifier "users")))
                  (exp.VUint 7);
     isPrepared := preparedNoPreference; queryFactory := None; err := None |}.

Definition usersDelete : Dataset exp.DeleteClauses :=
  {| dialect := Mock.defaultDialect;
     clauses := exp.DeleteClauses_SetLimit
                  (exp.DeleteClauses_SetFrom exp.NewDeleteClauses
                     (Mock.ParseIdentifier "users"))
                  (exp.VUint 7);
     isPrepared := preparedNoPreference; queryFactory := None; err := None |}.

(** [Insert("archive")] under the dialect [d]. *)
Definition archiveInsert (d : SQLDialect) : Dataset exp.InsertClauses :=
  {| dialect := d;
     clauses := exp.InsertClauses_SetInto exp.NewInsertClauses
                  (exp.Identifier (Mock.ParseIdentifier "archive"));
     isPrepared := preparedNoPreference; queryFactory := None; err := None |}.

(** A SELECT from users under the dialect [d]. *)
Definition usersSelect (d : SQLDialect) : Dataset exp.SelectClauses :=
  {| dialect := d;
     clauses := {| exp.sc_from := [exp.Identifier (Mock.ParseIdentifier "users")];
                   exp.sc_where := [] |};
     isPrepared := preparedNoPreference; queryFactory := None; err := None |}.

Definition truncateHeap (d : Dataset exp.TruncateClauses) : Heap :=
  with_truncates emptyHeap {[1%positive := d]}.

Definition updateHeap : Heap := with_updates emptyHeap {[1%positive := usersUpdate]}.

Definition deleteHeap : Heap := with_deletes emptyHeap {[1%positive := usersDelete]}.

(** An INSERT builder under [di] at address 1 and a SELECT builder under
    [ds] at address 1. *)
Definition insertHeap (di ds : SQLDialect) : Heap :=
  with_selects (with_inserts emptyHeap {[1%positive := archiveInsert di]})
    {[1%positive := usersSelect ds]}.

End Examples.

#[global] Instance allocated_dec h r : Decision (allocated h r).
Proof. unfold allocated. apply _. Defined.

#[global] Instance heap_closed_dec h : Decision (heap_closed h).
Proof. unfold heap_closed. apply _. Defined.

(** ** The equations of a builder's methods *)

(** What the methods of a builder compute on a receiver that is allocated,
    and how its objects sit in the heap; proved for each of the four builders
    below, and all that the properties shared by the four rest on. *)
Record BuilderLaws (B : Builder) : Prop := {
  objects_with h m : objects B (with_objects B h m) = m;
  lookupRef_ref h p : lookupRef h (ref B p) = toObject B <$> objects B h !! p;
  lookupRef_with h m r :
    (∀ p, r ≠ ref B p) → lookupRef (with_objects B h m) r = lookupRef h r;
  ref_cases r : (∃ p, r = ref B p) ∨ (∀ p, r ≠ ref B p);
  toObject_refs d : Object_refs (toObject B d) = refs B (clauses d);
  render_pure env :
    PureDialects env → ∀ d h h' b c,
      agree_on h h' (refs B c) → render B env d h' b c = render B env d h b c;
  GetClauses_run h b d :
    objects B h !! b = Some d → GetClauses B b h = Ok (clauses d) h;
  Dialect_run h b d :
    objects B h !! b = Some d → Dialect B b h = Ok (dialect d) h;
  IsPrepared_run env h b d :
    objects B h !! b = Some d →
    IsPrepared B env b h = Ok (prepared_Bool (isPrepared d)) h;
  Error_run h b d :
    objects B h !! b = Some d → Error B b h = Ok (err d) h;
  sqlBuilder_run env h b d :
    objects B h !! b = Some d →
    sqlBuilder B env b h =
      Ok (let buf := sb.NewSQLBuilder (prepared_Bool (isPrepared d)) in
          match err d with
          | Some e => sb.SetError buf (Some e)
          | None => render B env (dialect d) h buf (clauses d)
          end) h;
  ToSQL_run env h b :
    ToSQL B env b h =
      match sqlBuilder B env b h with
      | Ok x h' => Ok (sb.ToSQL x) h'
      | Panic e h' => Panic e h'
      end;
  MustToSQL_run env h b :
    MustToSQL B env b h =
      match sqlBuilder B env b h with
      | Ok x h' =>
          match sb.ToSQL x with
          | (_, _, Some e) => Panic e h'
          | (sql, params, None) => Ok (sql, params) h'
          end
      | Panic e h' => Panic e h'
      end;
  SetError_run h b d e :
    objects B h !! b = Some d →
    SetError B b e h =
      Ok b (if decide (err d = None)
            then with_objects B h (<[b := set_err d e]> (objects B h))
            else h);
  Clone_run h b d :
    objects B h !! b = Some d →
    Clone B b h =
      Ok (exp.Subquery (ref B (newLoc (objects B h))))
         (with_objects B h (<[newLoc (objects B h) := d]> (objects B h)));
  invoke_SetError env b c :
    isSetError B c = true → ∃ e, invoke B env b c = SetError B b e;
  invoke_panic env h b d c e h' :
    objects B h !! b = Some d → invoke B env b c h = Panic e h' → h' = h;
  invoke_shape env h b d c b' h' :
    objects B h !! b = Some d → isSetError B c = false →
    invoke B env b c h = Ok b' h' →
    b' = newLoc (objects B h) ∧
    ∃ d' h1, h' = with_objects B h1 (<[b' := d']> (objects B h))
      ∧ err d' = err d
      ∧ (∀ r, r ∉ written B c → lookupRef h1 r = lookupRef h r);
}.

(** ** Executors *)

(** [exec.QueryFactory] and [exec.QueryExecutor] are interfaces of package
    [exec], an external collaborator: a factory turns a finished builder into
    an executor.  The factory of a builder is an interface value, [None]
    being nil. *)
Class Exec := {
  QueryExecutor : Type;
  FromSQLBuilder : N → sb.SQLBuilder → QueryExecutor;
}.

Section executors.
Context {env : Env} {exec : Exec}.

(** [queryFactory.FromSQLBuilder(b)]: a method call on a nil interface value
    is a run-time panic. *)
Definition callFromSQLBuilder (f : QueryFactory) (b : sb.SQLBuilder)
    : M QueryExecutor :=
  match f with
  | Some f => mret (FromSQLBuilder f b)
  | None => panic NilDereference
  end.

Definition TruncateDataset_Executor (td : loc) : M QueryExecutor :=
  d ← TruncateDataset.load td;
  b ← TruncateDataset.truncateSQLBuilder td;
  callFromSQLBuilder (queryFactory d) b.

Definition InsertDataset_Executor (id : loc) : M QueryExecutor :=
  d ← InsertDataset.load id;
  b ← InsertDataset.insertSQLBuilder id;
  callFromSQLBuilder (queryFactory d) b.

Definition UpdateDataset_Executor (ud : loc) : M QueryExecutor :=
  d ← UpdateDataset.load ud;
  b ← UpdateDataset.updateSQLBuilder ud;
  callFromSQLBuilder (queryFactory d) b.

Definition DeleteDataset_Executor (dd : loc) : M QueryExecutor :=
  d ← DeleteDataset.load dd;
  b ← DeleteDataset.deleteSQLBuilder dd;
  callFromSQLBuilder (queryFactory d) b.

End executors.

(** ** Chains of calls and the common mutators *)

(** A chain of method calls [b.m1(x1).m2(x2)...]. *)
Fixpoint invokeAll (B : Builder) (env : Env) (b : loc) (cs : list (call B))
    : M loc :=
  match cs with
  | [] => mret b
  | c :: cs' => b' ← invoke B env b c; invokeAll B env b' cs'
  end.

(** The mutators that every builder has: they assign to one field of the
    builder and leave its clause record alone. *)
Inductive CommonCall :=
| CommonPrepared (prepared : bool)
| CommonWithDialect (dl : string)
| CommonSetDialect (dialect : SQLDialect)
| CommonSetError (e : option error).

Definition truncateCommon (c : TruncateDataset.call) : option CommonCall :=
  match c with
  | TruncateDataset.CallPrepared p => Some (CommonPrepared p)
  | TruncateDataset.CallWithDialect dl => Some (CommonWithDialect dl)
  | TruncateDataset.CallSetDialect d => Some (CommonSetDialect d)
  | TruncateDataset.CallSetError e => Some (CommonSetError e)
  | _ => None
  end.

Definition insertCommon (c : InsertDataset.call) : option CommonCall :=
  match c with
  | InsertDataset.CallPrepared p => Some (CommonPrepared p)
  | InsertDataset.CallWithDialect dl => Some (CommonWithDialect dl)
  | InsertDataset.CallSetDialect d => Some (CommonSetDialect d)
  | InsertDataset.CallSetError e => Some (CommonSetError e)
  | _ => None
  end.

Definition updateCommon (c : UpdateDataset.call) : option CommonCall :=
  match c with
  | UpdateDataset.CallPrepared p => Some (CommonPrepared p)
  | UpdateDataset.CallWithDialect dl => Some (CommonWithDialect dl)
  | UpdateDataset.CallSetDialect d => Some (CommonSetDialect d)
  | UpdateDataset.CallSetError e => Some (CommonSetError e)
  | _ => None
  end.

Definition deleteCommon (c : DeleteDataset.call) : option CommonCall :=
  match c with
  | DeleteDataset.CallPrepared p => Some (CommonPrepared p)
  | DeleteDataset.CallWithDialect dl => Some (CommonWithDialect dl)
  | DeleteDataset.CallSetDialect d => Some (CommonSetDialect d)
  | DeleteDataset.CallSetError e => Some (CommonSetError e)
  | _ => None
  end.

Section more_statements.
Context (env : Env) (B : Builder).

(** A common mutator returns a builder that differs from the receiver in
    the one field it assigns ([SetError] returns the receiver itself); a
    mutator of the statement kind keeps the dialect, the prepared flag, the
    query factory and the error of the receiver. *)
Definition changes_own_field (common : call B → option CommonCall) : Prop :=
  ∀ h b d c b' h',
    objects B h !! b = Some d →
    invoke B env b c h = Ok b' h' →
    ∃ d', objects B h' !! b' = Some d'
      ∧ match common c with
        | Some (CommonPrepared p) => d' = set_isPrepared d (preparedFromBool p)
        | Some (CommonWithDialect dl) => d' = set_dialect d (GetDialect dl)
        | Some (CommonSetDialect x) => d' = set_dialect d x
        | Some (CommonSetError e) =>
            b' = b ∧ d' = (if decide (err d = None) then set_err d e else d)
        | None =>
            dialect d' = dialect d ∧ isPrepared d' = isPrepared d
            ∧ queryFactory d' = queryFactory d ∧ err d' = err d
        end.

(** Along a chain of calls that returns, the query factory stays the one of
    the first receiver, and so does an error the first receiver carries. *)
Definition chain_keeps_factory_and_error : Prop :=
  ∀ cs h b d b' h',
    objects B h !! b = Some d →
    invokeAll B env b cs h = Ok b' h' →
    ∃ d', objects B h' !! b' = Some d'
      ∧ queryFactory d' = queryFactory d
      ∧ ∀ e, err d = Some e → err d' = Some e.

(** [SetError(nil)] writes nothing; neither does [SetError] on a builder that
    carries an error already. *)
Definition SetError_noop : Prop :=
  ∀ h b d e,
    objects B h !! b = Some d →
    e = None ∨ err d ≠ None →
    SetError B b e h = Ok b h.

(** A builder derived from [b], or cloned from it, before [b.SetError(e)]
    does not get the error; [b] does. *)
Definition error_is_snapshotted : Prop :=
  ∀ h b d c b1 h1 e,
    objects B h !! b = Some d →
    err d = None →
    isSetError B c = false →
    invoke B env b c h = Ok b1 h1 →
    ∃ p h2 h3,
      Clone B b h1 = Ok (exp.Subquery (ref B p)) h2
      ∧ SetError B b (Some e) h2 = Ok b h3
      ∧ Error B b h3 = Ok (Some e) h3
      ∧ Error B b1 h3 = Ok None h3
      ∧ Error B p h3 = Ok None h3.

End more_statements.

(** What holds of each kind's [Executor]: with a nil query factory it
    panics, however the builder was derived, and writes nothing; with a
    factory it hands over the builder that [ToSQL] reads its result off. *)
Definition Executor_needs_factory (env : Env) (exec : Exec) (B : Builder)
    (Executor : loc → M QueryExecutor) : Prop :=
  ∀ cs h b d b' h',
    objects B h !! b = Some d →
    invokeAll B env b cs h = Ok b' h' →
    match queryFactory d with
    | None => Executor b' h' = Panic NilDereference h'
    | Some f =>
        ∃ buf, sqlBuilder B env b' h' = Ok buf h'
          ∧ Executor b' h' = Ok (FromSQLBuilder f buf) h'
    end.

(** [AppendSQL] of a statement: into a new builder of the statement's
    prepared mode it gives the builder that [ToSQL] reads its result off;
    when the statement carries an error it writes no text, whatever the
    environment, and leaves the outer builder with an error, the
    statement's own if the outer builder had none. *)
Definition AppendSQL_embeds (env : Env) (B : Builder)
    (AppendSQL : Env → loc → sb.SQLBuilder → M sb.SQLBuilder) : Prop :=
  ∀ h b d,
    objects B h !! b = Some d →
    AppendSQL env b (sb.NewSQLBuilder (prepared_Bool (isPrepared d))) h
    = sqlBuilder B env b h
    ∧ ∀ e, err d = Some e → ∀ env' buf,
        ∃ buf', AppendSQL env' b buf h = Ok buf' h
          ∧ sb.buf buf' = sb.buf buf
          ∧ sb.args buf' = sb.args buf
          ∧ sb.err buf' = Some (default e (sb.err buf)).

(** What a package-level constructor gives on the heap [h]: when it
    returns, a builder at a new address, under the default dialect, without
    a query factory and without an error; whether it returns or panics, the
    objects of [h] are as they were. *)
Definition constructs_default_builder (env : Env) (B : Builder) (h : Heap)
    (r : Result loc) : Prop :=
  match r with
  | Ok b h' =>
      objects B h !! b = None
      ∧ (∃ d, objects B h' !! b = Some d
           ∧ dialect d = GetDialect "default"
           ∧ queryFactory d = None ∧ err d = None)
      ∧ ∀ r o, lookupRef h r = Some o → lookupRef h' r = Some o
  | Panic _ h' => ∀ r o, lookupRef h r = Some o → lookupRef h' r = Some o
  end.

(** A query factory for the examples: its executor is the factory's
    number with the builder it was given. *)
Definition mockExec : Exec :=
  {| QueryExecutor := N * sb.SQLBuilder; FromSQLBuilder f b := (f, b) |}.

(** ** Proof automation *)

(** Unfolding of the monad and of each builder's methods. *)
Ltac unfold_M :=
  unfold mbind, M_bind, mret, M_ret, panic, getHeap, liftPanic, deref in *.

Ltac unfold_Truncate :=
  unfold TruncateDataset.WithDialect, TruncateDataset.Prepared, TruncateDataset.SetDialect,
    TruncateDataset.Table, TruncateDataset.Cascade, TruncateDataset.NoCascade,
    TruncateDataset.Restrict, TruncateDataset.NoRestrict, TruncateDataset.Identity,
    TruncateDataset.Clone, TruncateDataset.Error, TruncateDataset.Dialect,
    TruncateDataset.IsPrepared, TruncateDataset.SetError, TruncateDataset.ToSQL,
    TruncateDataset.MustToSQL, TruncateDataset.truncateSQLBuilder,
    TruncateDataset.GetClauses, TruncateDataset.copy, TruncateDataset.load,
    TruncateDataset.store, TruncateDataset.alloc in *.

Ltac shape_ok h := eexists _, h; split; [reflexivity | split; [reflexivity | done]].

Ltac unfold_Insert :=
  unfold InsertDataset.WithDialect, InsertDataset.Prepared, InsertDataset.SetDialect,
    InsertDataset.With, InsertDataset.WithRecursive, InsertDataset.Into,
    InsertDataset.Cols, InsertDataset.ClearCols, InsertDataset.ColsAppend,
    InsertDataset.FromQuery, InsertDataset.Vals, InsertDataset.ClearVals,
    InsertDataset.Rows, InsertDataset.ClearRows, InsertDataset.Returning,
    InsertDataset.ClearOnConflict, InsertDataset.OnConflict, InsertDataset.As,
    InsertDataset.Clone, InsertDataset.Error, InsertDataset.Dialect,
    InsertDataset.IsPrepared, InsertDataset.SetError, InsertDataset.ToSQL,
    InsertDataset.MustToSQL, InsertDataset.insertSQLBuilder,
    InsertDataset.GetClauses, InsertDataset.copy, InsertDataset.load,
    InsertDataset.store, InsertDataset.alloc,
    SelectDataset.load, SelectDataset.store in *.

Ltac unfold_Update :=
  unfold UpdateDataset.WithDialect, UpdateDataset.Prepared, UpdateDataset.SetDialect,
    UpdateDataset.With, UpdateDataset.WithRecursive, UpdateDataset.Table,
    UpdateDataset.Set_, UpdateDataset.From, UpdateDataset.Where,
    UpdateDataset.ClearWhere, UpdateDataset.Order, UpdateDataset.OrderAppend,
    UpdateDataset.OrderPrepend, UpdateDataset.ClearOrder, UpdateDataset.Limit,
    UpdateDataset.LimitAll, UpdateDataset.ClearLimit, UpdateDataset.Returning,
    UpdateDataset.Clone, UpdateDataset.Error, UpdateDataset.Dialect,
    UpdateDataset.IsPrepared, UpdateDataset.SetError, UpdateDataset.ToSQL,
    UpdateDataset.MustToSQL, UpdateDataset.updateSQLBuilder,
    UpdateDataset.GetClauses, UpdateDataset.copy, UpdateDataset.load,
    UpdateDataset.store, UpdateDataset.alloc in *.

Ltac unfold_Delete :=
  unfold DeleteDataset.WithDialect, DeleteDataset.Prepared, DeleteDataset.SetDialect,
    DeleteDataset.With, DeleteDataset.WithRecursive, DeleteDataset.From,
    DeleteDataset.Where, DeleteDataset.ClearWhere, DeleteDataset.Order,
    DeleteDataset.OrderAppend, DeleteDataset.OrderPrepend,
    DeleteDataset.ClearOrder, DeleteDataset.Limit, DeleteDataset.LimitAll,
    DeleteDataset.ClearLimit, DeleteDataset.Returning,
    DeleteDataset.Clone, DeleteDataset.Error, DeleteDataset.Dialect,
    DeleteDataset.IsPrepared, DeleteDataset.SetError, DeleteDataset.ToSQL,
    DeleteDataset.MustToSQL, DeleteDataset.deleteSQLBuilder,
    DeleteDataset.GetClauses, DeleteDataset.copy, DeleteDataset.load,
    DeleteDataset.store, DeleteDataset.alloc in *.

(** The part of a laws proof that is the same for every builder: [unf]
    unfolds the builder's methods, [st] is its store. *)
Ltac easy_laws unf st :=
  match goal with
  | |- ∀ h m, _ = m => done
  | |- ∀ h p, lookupRef _ _ = _ => done
  | |- ∀ h m r, _ → lookupRef _ r = lookupRef _ r =>
      let Hr := fresh in intros h m [p|p|p|p|p] Hr; try done; by destruct (Hr p)
  | |- ∀ r, (∃ p, r = _) ∨ _ => intros []; eauto; right; done
  | |- ∀ d, Object_refs _ = _ => done
  | |- ∀ (env : Env) (h : Heap) (b : loc) (d : _), st h !! b = Some d → _ =>
      let Hd := fresh in
      intros env h b d Hd; unf; unfold_M; rewrite Hd; by destruct (err d)
  | |- ∀ (h : Heap) (b : loc) (d : _) (e : option error), st h !! b = Some d → _ =>
      let Hd := fresh in
      intros h b d e Hd; unf; unfold_M; rewrite Hd; by case_decide
  | |- ∀ (h : Heap) (b : loc) (d : _), st h !! b = Some d → _ =>
      let Hd := fresh in
      intros h b d Hd; unf; unfold_M; rewrite !Hd; by destruct d
  | |- ∀ (env : Env) (h : Heap) (b : loc), _ =>
      intros env h b; unf; unfold_M;
      destruct (st h !! b) as [d|]; [|done];
      destruct (err d); [done|]; by try destruct (sb.ToSQL _) as [[? ?] [?|]]
  | |- ∀ (env : Env) (b : loc) c, _ = true → _ => intros env b []; try done; eauto
  end.

Ltac panic_step Hd :=
  simpl; rewrite ?Hd; simpl; rewrite ?lookup_insert_eq; simpl; try congruence.

Ltac shape_step Hd h :=
  simpl; rewrite ?Hd; simpl; rewrite ?lookup_insert_eq; simpl;
  rewrite ?insert_insert_eq;
  try (intros [= <- <-]; split; [done|shape_ok h]).

Ltac field_step Hd d :=
  simpl; rewrite ?Hd; simpl; rewrite ?lookup_insert_eq; simpl;
  rewrite ?insert_insert_eq;
  try (intros [= <- <-]; eexists; split;
       [simpl; apply lookup_insert_eq | by destruct d]).

(** * Properties *)

(** ** The heap *)

Lemma newLoc_fresh {C} (m : gmap loc (Dataset C)) : m !! newLoc m = None.
Proof. apply not_elem_of_dom, is_fresh. Qed.

Lemma newLoc_ne {C} (m : gmap loc (Dataset C)) p d :
  m !! p = Some d → newLoc m ≠ p.
Proof. intros Hp E. rewrite <- E, newLoc_fresh in Hp. discriminate. Qed.

Lemma bind_run {A B} (m : M A) (f : A → M B) h :
  (m ≫= f) h = match m h with Ok a h' => f a h' | Panic e h' => Panic e h' end.
Proof. reflexivity. Qed.

Lemma heap_closed_object h r o :
  heap_closed h → lookupRef h r = Some o → Forall (allocated h) (Object_refs o).
Proof.
  intros (Hs & Hi & Hu & Hd & Ht) Hr.
  destruct r as [p|p|p|p|p]; simpl in Hr;
    apply fmap_Some in Hr as (d & Hp & ->);
    [ exact (Hs p d Hp) | exact (Hi p d Hp) | exact (Hu p d Hp)
    | exact (Hd p d Hp) | exact (Ht p d Hp) ].
Qed.

Lemma reachable_allocated h roots r :
  heap_closed h → Forall (allocated h) roots → reachable h roots r → allocated h r.
Proof.
  intros Hc Hroots Hr. induction Hr as [r Hin | r o r' _ IH Ho Hin].
  - rewrite Forall_forall in Hroots. by apply Hroots.
  - pose proof (heap_closed_object _ _ _ Hc Ho) as Hall.
    rewrite Forall_forall in Hall. by apply Hall.
Qed.

Lemma truncateBuilder_laws : BuilderLaws truncateBuilder.
Proof.
  split; simpl; try done; try easy_laws unfold_Truncate truncates.
  - intros env Hp. apply ToTruncateSQL_pure.
  - intros env h b d c e h' Hd. destruct c; simpl;
      unfold_Truncate; unfold_M; panic_step Hd.
    + destruct (NewColumnListExpression _); panic_step Hd.
    + case_decide; panic_step Hd.
  - intros env h b d c b' h' Hd Hc. destruct c; try done; simpl;
      unfold_Truncate; unfold_M; shape_step Hd h.
    destruct (NewColumnListExpression _); shape_step Hd h; done.
Qed.

Lemma updateBuilder_laws : BuilderLaws updateBuilder.
Proof.
  split; simpl; try done; try easy_laws unfold_Update updates.
  - intros env Hp. apply ToUpdateSQL_pure.
  - intros env h b d c e h' Hd. destruct c; simpl;
      unfold_Update; unfold_M; panic_step Hd.
    + destruct table; panic_step Hd.
    + destruct (NewColumnListExpression _); panic_step Hd.
    + case_decide; panic_step Hd.
    + destruct (NewColumnListExpression _); panic_step Hd.
    + case_decide; panic_step Hd.
  - intros env h b d c b' h' Hd Hc. destruct c; try done; simpl;
      unfold_Update; unfold_M; shape_step Hd h.
    + destruct table; shape_step Hd h; done.
    + destruct (NewColumnListExpression _); shape_step Hd h; done.
    + case_decide; shape_step Hd h.
    + destruct (NewColumnListExpression _); shape_step Hd h; done.
Qed.

Lemma deleteBuilder_laws : BuilderLaws deleteBuilder.
Proof.
  split; simpl; try done; try easy_laws unfold_Delete deletes.
  - intros env Hp. apply ToDeleteSQL_pure.
  - intros env h b d c e h' Hd. destruct c; simpl;
      unfold_Delete; unfold_M; panic_step Hd.
    + destruct table as [| | | | |[]|]; panic_step Hd.
    + case_decide; panic_step Hd.
    + destruct (NewColumnListExpression _); panic_step Hd.
    + case_decide; panic_step Hd.
  - intros env h b d c b' h' Hd Hc. destruct c; try done; simpl;
      unfold_Delete; unfold_M; shape_step Hd h.
    + destruct table as [| | | | |[]|]; shape_step Hd h; done.
    + case_decide; shape_step Hd h.
    + destruct (NewColumnListExpression _); shape_step Hd h; done.
Qed.

(** What [FromQuery] does, in one equation. *)
Lemma FromQuery_run {env : Env} h id d from :
  inserts h !! id = Some d →
  InsertDataset.FromQuery id from h =
    let result h1 :=
      Ok (newLoc (inserts h))
         (with_inserts h1 (<[newLoc (inserts h) :=
            {| dialect := dialect d;
               clauses := exp.InsertClauses_SetFrom (clauses d) from;
               isPrepared := isPrepared d; queryFactory := queryFactory d;
               err := err d |}]> (inserts h))) in
    match from with
    | exp.Subquery (SelectRef sds) =>
        match selects h !! sds with
        | None => Panic NilDereference h
        | Some s =>
            if decide (dialect s ≠ GetDialect "default" ∧ dialect d ≠ dialect s)
            then Panic (ErrIncompatibleDialects
                          (SQLDialect_Dialect (dialect d))
                          (SQLDialect_Dialect (dialect s))) h
            else result (with_selects h
                           (<[sds := set_dialect s (dialect d)]> (selects h)))
        end
    | _ => result h
    end.
Proof.
  intros Hd. unfold_Insert; unfold_M.
  destruct from as [| |[sds| | | |]|]; simpl; rewrite ?Hd; simpl; rewrite ?Hd; try done.
  destruct (selects h !! sds) as [s|]; [|done].
  destruct (decide (dialect s ≠ GetDialect "default" ∧ dialect d ≠ dialect s))
    as [[Hs Hne]|Hn].
  - rewrite (decide_True (P := dialect s ≠ _)); [|done]. simpl. rewrite Hd. simpl.
    rewrite decide_True; [|done]. simpl. by rewrite Hd.
  - destruct (decide (dialect s ≠ GetDialect "default")) as [Hs|Hs]; simpl;
      repeat (rewrite Hd; simpl); [|done].
    rewrite decide_False; [|naive_solver]. simpl. by repeat (rewrite Hd; simpl).
Qed.

Lemma insertBuilder_laws : BuilderLaws insertBuilder.
Proof.
  split; simpl; try done; try easy_laws unfold_Insert inserts.
  - intros env Hp. apply ToInsertSQL_pure.
  - intros env h b d c e h' Hd. destruct c; simpl;
      try rewrite (FromQuery_run _ _ _ _ Hd);
      unfold_Insert; unfold_M; panic_step Hd.
    + destruct into; panic_step Hd.
    + destruct (NewColumnListExpression _); panic_step Hd.
    + destruct (NewColumnListExpression _); panic_step Hd.
    + destruct from as [| |[sds| | | |]|]; panic_step Hd.
      destruct (selects h !! sds) as [s|]; [|congruence].
      case_decide; congruence.
    + destruct (NewColumnListExpression _); panic_step Hd.
    + case_decide; panic_step Hd.
  - intros env h b d c b' h' Hd Hc. destruct c; try done; simpl;
      try rewrite (FromQuery_run _ _ _ _ Hd);
      unfold_Insert; unfold_M; shape_step Hd h.
    + destruct into; shape_step Hd h; done.
    + destruct (NewColumnListExpression _); shape_step Hd h; done.
    + destruct (NewColumnListExpression _); shape_step Hd h; done.
    + destruct from as [| |[sds| | | |]|]; shape_step Hd h.
      destruct (selects h !! sds) as [s|]; [|done].
      case_decide; [done|]. intros [= <- <-]. split; [done|].
      eexists _, (with_selects h _). split; [reflexivity|]. split; [done|].
      intros r Hr. destruct r as [p| | | |]; try done. simpl.
      rewrite lookup_insert_ne; [done|]. intros ->. apply Hr. by left.
    + destruct (NewColumnListExpression _); shape_step Hd h; done.
Qed.

(** ** Consequences of the equations, for any builder *)

Section generic.
Context (B : Builder) (L : BuilderLaws B).

Lemma lookup_with_objects h m p :
  objects B (with_objects B h m) !! p = m !! p.
Proof. by rewrite (objects_with B L). Qed.

Lemma ToSQL_total env h b d :
  objects B h !! b = Some d →
  ToSQL B env b h =
    Ok (sb.ToSQL
          (let buf := sb.NewSQLBuilder (prepared_Bool (isPrepared d)) in
           match err d with
           | Some e => sb.SetError buf (Some e)
           | None => render B env (dialect d) h buf (clauses d)
           end)) h.
Proof.
  intros Hd. by rewrite (ToSQL_run B L), (sqlBuilder_run B L _ _ _ _ Hd).
Qed.

Lemma ToSQL_sticky env h b d e :
  objects B h !! b = Some d → err d = Some e →
  ToSQL B env b h = Ok ("", [], Some e) h.
Proof. intros Hd He. rewrite (ToSQL_total _ _ _ _ Hd), He. done. Qed.

Lemma ToSQL_frame env h h' b d :
  PureDialects env →
  objects B h !! b = Some d → objects B h' !! b = Some d →
  agree_on h h' (refs B (clauses d)) →
  ∃ res, ToSQL B env b h = Ok res h ∧ ToSQL B env b h' = Ok res h'.
Proof.
  intros Hp Hd Hd' Hag. eexists. split; [by apply ToSQL_total|].
  rewrite (ToSQL_total _ _ _ _ Hd'). simpl.
  destruct (err d); [done|]. by rewrite (render_pure B L env Hp _ _ _ _ _ Hag).
Qed.

Lemma receiver_unchanged_holds env : PureDialects env → receiver_unchanged env B.
Proof.
  intros Hp h b d c Hd Hs.
  destruct (invoke B env b c h) as [b' h'|e h'] eqn:Hinv;
    [|by eapply (invoke_panic B L)].
  destruct (invoke_shape B L _ _ _ _ _ _ _ Hd Hs Hinv)
    as (-> & d' & h1 & -> & _ & Hh1).
  assert (Hne : newLoc (objects B h) ≠ b) by by eapply newLoc_ne.
  assert (Hb : objects B (with_objects B h1
             (<[newLoc (objects B h) := d']> (objects B h))) !! b = Some d).
  { by rewrite lookup_with_objects, lookup_insert_ne. }
  assert (Hfr : ∀ r, r ≠ ref B (newLoc (objects B h)) → r ∉ written B c →
      lookupRef (with_objects B h1
        (<[newLoc (objects B h) := d']> (objects B h))) r = lookupRef h r).
  { intros r Hr Hnw. destruct (ref_cases B L r) as [[q ->]|Hq].
    - rewrite !(lookupRef_ref B L), lookup_with_objects.
      rewrite lookup_insert_ne; [done|]. congruence.
    - rewrite (lookupRef_with B L) by done. by apply Hh1. }
  split; [apply newLoc_fresh|]. split; [done|]. split; [done|].
  intros Hc Hw. apply (ToSQL_frame env h _ b d); try done.
  intros r Hr. apply Hfr.
  - intros ->.
    assert (Hal : allocated h (ref B (newLoc (objects B h)))).
    { eapply reachable_allocated; [done| |done].
      rewrite <- (toObject_refs B L). eapply heap_closed_object; [done|].
      by rewrite (lookupRef_ref B L), Hd. }
    destruct Hal as [o Ho].
    by rewrite (lookupRef_ref B L), newLoc_fresh in Ho.
  - intros Hin. by eapply Hw.
Qed.

Lemma SetError_in_place_holds : SetError_in_place B.
Proof.
  intros h b d e Hd. rewrite (SetError_run B L _ _ _ _ Hd).
  eexists; split; [done|]. case_decide.
  - split; [by rewrite lookup_with_objects, lookup_insert_eq|].
    intros r Hr. destruct (ref_cases B L r) as [[q ->]|Hq].
    + rewrite !(lookupRef_ref B L), lookup_with_objects.
      rewrite lookup_insert_ne; [done|]. congruence.
    + by apply (lookupRef_with B L).
  - done.
Qed.

Lemma sticky_propagation_holds env : sticky_propagation env B.
Proof.
  intros h b d e c Hd He.
  destruct (invoke B env b c h) as [b' h'|e' h'] eqn:Hinv;
    [|by eapply (invoke_panic B L)].
  destruct (isSetError B c) eqn:Hs.
  - destruct (invoke_SetError B L env b c Hs) as [e0 Heq].
    rewrite Heq, (SetError_run B L _ _ _ _ Hd) in Hinv.
    rewrite decide_False in Hinv by by rewrite He.
    injection Hinv as <- <-.
    split; [by rewrite (Error_run B L _ _ _ Hd), He|].
    intros env'. by eapply ToSQL_sticky.
  - destruct (invoke_shape B L _ _ _ _ _ _ _ Hd Hs Hinv)
      as (-> & d' & h1 & -> & He' & _).
    assert (Hb : objects B (with_objects B h1
               (<[newLoc (objects B h) := d']> (objects B h)))
               !! newLoc (objects B h) = Some d').
    { by rewrite lookup_with_objects, lookup_insert_eq. }
    split; [by rewrite (Error_run B L _ _ _ Hb), He', He|].
    intros env'. eapply ToSQL_sticky; [done|]. by rewrite He'.
Qed.

Lemma first_error_wins_holds : first_error_wins B.
Proof.
  intros h b d e1 e2 Hd. rewrite !bind_run, (SetError_run B L _ _ _ _ Hd).
  destruct (decide (err d = None)) as [Hn|Hn].
  - set (h1 := with_objects B h _).
    assert (H1 : objects B h1 !! b = Some (set_err d (Some e1))).
    { unfold h1. by rewrite lookup_with_objects, lookup_insert_eq. }
    rewrite bind_run, (SetError_run B L _ _ _ _ H1). simpl.
    rewrite (Error_run B L _ _ _ H1). simpl. rewrite Hn. eauto.
  - rewrite bind_run, (SetError_run B L _ _ _ _ Hd).
    rewrite decide_False by done. rewrite (Error_run B L _ _ _ Hd).
    destruct (err d); [eauto|done].
Qed.

Lemma MustToSQL_agrees_holds env : MustToSQL_agrees env B.
Proof.
  intros h b d Hd.
  rewrite (ToSQL_run B L), (MustToSQL_run B L), (sqlBuilder_run B L _ _ _ _ Hd).
  destruct (sb.ToSQL _) as [[sql params] [e|]]; by eexists _, _, _.
Qed.

Lemma Clone_identical_holds env : Clone_identical env B.
Proof.
  intros h b d Hd. rewrite (Clone_run B L _ _ _ Hd).
  set (p := newLoc (objects B h)). set (h' := with_objects B h _).
  assert (Hp : objects B h' !! p = Some d).
  { unfold h'. by rewrite lookup_with_objects, lookup_insert_eq. }
  assert (Hb : objects B h' !! b = Some d).
  { unfold h'. rewrite lookup_with_objects, lookup_insert_ne; [done|].
    by eapply newLoc_ne. }
  eexists p, h', _. split; [done|]. split; [apply newLoc_fresh|]. split; [done|].
  rewrite !(GetClauses_run B L _ _ _ Hp), !(GetClauses_run B L _ _ _ Hb),
    !(Dialect_run B L _ _ _ Hp), !(Dialect_run B L _ _ _ Hb),
    !(IsPrepared_run B L _ _ _ _ Hp), !(IsPrepared_run B L _ _ _ _ Hb),
    !(Error_run B L _ _ _ Hp), !(Error_run B L _ _ _ Hb),
    (ToSQL_total _ _ _ _ Hp), (ToSQL_total _ _ _ _ Hb).
  done.
Qed.

End generic.

(** ** Table arguments and limits *)

Section arguments.
Context {env : Env}.

Lemma Into_run h id (d : Dataset exp.InsertClauses) into :
  inserts h !! id = Some d →
  InsertDataset.Into id into h =
    match into with
    | exp.VExpr t =>
        copied insertBuilder h d (exp.InsertClauses_SetInto (clauses d) t)
    | exp.VString t =>
        copied insertBuilder h d
          (exp.InsertClauses_SetInto (clauses d) (exp.Identifier (ParseIdentifier t)))
    | _ => Panic ErrUnsupportedIntoType h
    end.
Proof.
  intros Hd. unfold copied. unfold_Insert; unfold_M.
  destruct into; by repeat (rewrite ?Hd; simpl).
Qed.

Lemma Table_run h ud (d : Dataset exp.UpdateClauses) table :
  updates h !! ud = Some d →
  UpdateDataset.Table ud table h =
    match table with
    | exp.VExpr t =>
        copied updateBuilder h d (exp.UpdateClauses_SetTable (clauses d) t)
    | exp.VString t =>
        copied updateBuilder h d
          (exp.UpdateClauses_SetTable (clauses d) (exp.Identifier (ParseIdentifier t)))
    | _ => Panic ErrUnsupportedUpdateTableType h
    end.
Proof.
  intros Hd. unfold copied. unfold_Update; unfold_M.
  destruct table; by repeat (rewrite ?Hd; simpl).
Qed.

Lemma From_run h dd (d : Dataset exp.DeleteClauses) table :
  deletes h !! dd = Some d →
  DeleteDataset.From dd table h =
    match table with
    | exp.VExpr (exp.Identifier t) =>
        copied deleteBuilder h d (exp.DeleteClauses_SetFrom (clauses d) t)
    | exp.VString t =>
        copied deleteBuilder h d
          (exp.DeleteClauses_SetFrom (clauses d) (ParseIdentifier t))
    | _ => Panic ErrBadFromArgument h
    end.
Proof.
  intros Hd. unfold copied. unfold_Delete; unfold_M.
  destruct table as [| | | | |[]|]; by repeat (rewrite ?Hd; simpl).
Qed.

Lemma Update_Limit_run h ud (d : Dataset exp.UpdateClauses) limit :
  updates h !! ud = Some d →
  UpdateDataset.Limit ud limit h =
    copied updateBuilder h d
      (exp.UpdateClauses_withLimit (clauses d)
         (if decide (0 < limit)%N then Some (exp.VUint limit) else None)).
Proof.
  intros Hd. unfold copied. unfold_Update; unfold_M.
  case_decide; by repeat (rewrite ?Hd; simpl).
Qed.

Lemma Update_ClearLimit_run h ud (d : Dataset exp.UpdateClauses) :
  updates h !! ud = Some d →
  UpdateDataset.ClearLimit ud h =
    copied updateBuilder h d (exp.UpdateClauses_withLimit (clauses d) None).
Proof. intros Hd. unfold copied. unfold_Update; unfold_M. by repeat (rewrite ?Hd; simpl). Qed.

Lemma Delete_Limit_run h dd (d : Dataset exp.DeleteClauses) limit :
  deletes h !! dd = Some d →
  DeleteDataset.Limit dd limit h =
    copied deleteBuilder h d
      (exp.DeleteClauses_withLimit (clauses d)
         (if decide (0 < limit)%N then Some (exp.VUint limit) else None)).
Proof.
  intros Hd. unfold copied. unfold_Delete; unfold_M.
  case_decide; by repeat (rewrite ?Hd; simpl).
Qed.

Lemma Delete_ClearLimit_run h dd (d : Dataset exp.DeleteClauses) :
  deletes h !! dd = Some d →
  DeleteDataset.ClearLimit dd h =
    copied deleteBuilder h d (exp.DeleteClauses_withLimit (clauses d) None).
Proof. intros Hd. unfold copied. unfold_Delete; unfold_M. by repeat (rewrite ?Hd; simpl). Qed.

Lemma Cascade_run h td (d : Dataset exp.TruncateClauses) :
  truncates h !! td = Some d →
  TruncateDataset.Cascade td h =
    copied truncateBuilder h d
      (exp.TruncateClauses_SetOptions (clauses d)
         {| exp.Cascade := true;
            exp.Restrict := exp.Restrict (exp.tc_options (clauses d));
            exp.Identity := exp.Identity (exp.tc_options (clauses d)) |}).
Proof. intros Hd. unfold copied. unfold_Truncate; unfold_M. by repeat (rewrite ?Hd; simpl). Qed.

Lemma Identity_run h td (d : Dataset exp.TruncateClauses) identity :
  truncates h !! td = Some d →
  TruncateDataset.Identity td identity h =
    copied truncateBuilder h d
      (exp.TruncateClauses_SetOptions (clauses d)
         {| exp.Cascade := exp.Cascade (exp.tc_options (clauses d));
            exp.Restrict := exp.Restrict (exp.tc_options (clauses d));
            exp.Identity := identity |}).
Proof. intros Hd. unfold copied. unfold_Truncate; unfold_M. by repeat (rewrite ?Hd; simpl). Qed.

End arguments.

(** ** The test dialects are pure *)

Lemma mockEnv_pure f : PureDialects (mockEnv f).
Proof.
  split; try done. intros d h h' b c Hag. simpl. unfold Mock.ToInsertSQL.
  destruct (exp.ic_from c) as [[| |[p| | | |]|]|] eqn:Hfrom; try done.
  assert (Hp : lookupRef h' (SelectRef p) = lookupRef h (SelectRef p)).
  { apply Hag, reachable_root. unfold exp.InsertClauses_refs.
    rewrite Hfrom. simpl. set_solver. }
  simpl in Hp.
  destruct (selects h' !! p), (selects h !! p); simpl in Hp; by simplify_eq.
Qed.

Lemma reachable_nil h r : ¬ reachable h [] r.
Proof. intros Hr. induction Hr as [r Hin|]; [by apply elem_of_nil in Hin|done]. Qed.

Lemma heap_closed_run h : bool_decide (heap_closed h) = true → heap_closed h.
Proof. apply bool_decide_eq_true_1. Qed.

(** * The claims *)

(** C1, as amended.  For each of the four builders: a mutator other than
    [SetError] either panics without writing, or returns a pointer to a new
    object and leaves the receiver's object and every other object as they
    were (except the SELECT argument of [FromQuery], whose dialect it
    overwrites); so it leaves what [ToSQL] returns for the receiver as it
    was, provided the rewritten argument is not part of the receiver's
    statement.  [SetError] instead returns the receiver itself and records
    the error in it when it has none.  The dialects are taken to be pure. *)
Theorem mutators_leave_receiver_unchanged (env : Env) :
  PureDialects env →
  every_builder (λ B, receiver_unchanged env B ∧ SetError_in_place B).
Proof.
  intros Hp. unfold every_builder.
  split; [|split; [|split]];
    (split; [apply receiver_unchanged_holds | apply SetError_in_place_holds]);
    auto using insertBuilder_laws, updateBuilder_laws, deleteBuilder_laws,
      truncateBuilder_laws.
Qed.

(** C1 at an INSERT builder under postgres and [FromQuery] of a SELECT under
    the default dialect. *)
Lemma mutators_leave_receiver_unchanged_witness :
  ∃ b' h' res,
    InsertDataset.invoke (env := Examples.env) 1%positive
      (InsertDataset.CallFromQuery (exp.Subquery (SelectRef 1%positive)))
      (Examples.insertHeap Mock.postgresDialect Mock.defaultDialect) = Ok b' h'
    ∧ inserts (Examples.insertHeap Mock.postgresDialect Mock.defaultDialect) !! b' = None
    ∧ inserts h' !! 1%positive = Some (Examples.archiveInsert Mock.postgresDialect)
    ∧ InsertDataset.ToSQL (env := Examples.env) 1%positive
        (Examples.insertHeap Mock.postgresDialect Mock.defaultDialect)
      = Ok res (Examples.insertHeap Mock.postgresDialect Mock.defaultDialect)
    ∧ InsertDataset.ToSQL (env := Examples.env) 1%positive h' = Ok res h'.
Proof.
  destruct (mutators_leave_receiver_unchanged Examples.env
              (mockEnv_pure Mock.fragments)) as [[Hins _] _].
  eassert (Hrun : invoke insertBuilder Examples.env 1%positive
      (InsertDataset.CallFromQuery (exp.Subquery (SelectRef 1%positive)))
      (Examples.insertHeap Mock.postgresDialect Mock.defaultDialect) = Ok _ _)
    by (vm_compute; reflexivity).
  assert (Hcl : heap_closed (Examples.insertHeap Mock.postgresDialect Mock.defaultDialect))
    by (apply heap_closed_run; vm_compute; reflexivity).
  assert (Hd : inserts (Examples.insertHeap Mock.postgresDialect Mock.defaultDialect) !! 1%positive
               = Some (Examples.archiveInsert Mock.postgresDialect)) by (vm_compute; reflexivity).
  pose proof (Hins _ _ _
              (InsertDataset.CallFromQuery (exp.Subquery (SelectRef 1%positive)))
              Hd eq_refl) as Hcall.
  rewrite Hrun in Hcall. destruct Hcall as (Hnew & Hb & _ & Hsql).
  destruct (Hsql Hcl (λ r _, reachable_nil _ r)) as (res & Hbefore & Hafter).
  eexists _, _, res. split; [exact Hrun|]. split; [exact Hnew|].
  split; [exact Hb|]. split; [exact Hbefore|exact Hafter].
Defined.

(** C1, as stated, fails for [SetError]: on a builder without an error it
    returns the receiver, not a new value, and the receiver's [ToSQL] no
    longer gives the statement but the error. *)
Lemma SetError_changes_receiver :
  TruncateDataset.ToSQL (env := Examples.env) 1%positive
      (Examples.truncateHeap Examples.usersTruncate)
    = Ok ("TRUNCATE users", [], None) (Examples.truncateHeap Examples.usersTruncate)
  ∧ TruncateDataset.invoke (env := Examples.env) 1%positive
      (TruncateDataset.CallSetError (Some Examples.boom))
      (Examples.truncateHeap Examples.usersTruncate)
    = Ok 1%positive (Examples.truncateHeap Examples.failedTruncate)
  ∧ TruncateDataset.ToSQL (env := Examples.env) 1%positive
      (Examples.truncateHeap Examples.failedTruncate)
    = Ok ("", [], Some Examples.boom) (Examples.truncateHeap Examples.failedTruncate).
Proof. repeat split; vm_compute; reflexivity. Qed.

(** Without the proviso of C1 the receiver's rendering can change: under the
    test dialects, [FromQuery] on a builder that already holds the same
    SELECT as its row source rewrites that row source's dialect. *)
Example FromQuery_rewrites_shared_row_source :
  ∃ b1 h1 b2 h2,
    InsertDataset.FromQuery (env := Examples.env) 1%positive
      (exp.Subquery (SelectRef 1%positive))
      (Examples.insertHeap Mock.defaultDialect Mock.defaultDialect)
      = Ok b1 h1
    ∧ InsertDataset.SetDialect b1 Mock.postgresDialect h1 = Ok b2 h2
    ∧ InsertDataset.ToSQL (env := Examples.env) b2 h2
      = Ok ("INSERT INTO archive SELECT * FROM users LIMIT ?", [], None) h2
    ∧ ∃ b3 h3,
        InsertDataset.FromQuery (env := Examples.env) b2
          (exp.Subquery (SelectRef 1%positive)) h2 = Ok b3 h3
        ∧ InsertDataset.ToSQL (env := Examples.env) b2 h3
          = Ok ("INSERT INTO archive SELECT * FROM users LIMIT $1", [], None) h3.
Proof.
  eexists _, _, _, _. split; [vm_compute; reflexivity|].
  split; [vm_compute; reflexivity|]. split; [vm_compute; reflexivity|].
  eexists _, _. split; vm_compute; reflexivity.
Qed.

(** C2.  For each of the four builders: when the receiver carries an error,
    a mutator either panics without writing (its argument is rejected) or
    returns a builder that carries the same error, and [ToSQL] of that
    builder returns this error with empty text and no parameters; the result
    is the same under every environment, so no rendering entry point of a
    dialect has a part in it. *)
Theorem sticky_error_propagates (env : Env) :
  every_builder (sticky_propagation env).
Proof.
  unfold every_builder.
  split; [|split; [|split]]; apply sticky_propagation_holds;
    auto using insertBuilder_laws, updateBuilder_laws, deleteBuilder_laws,
      truncateBuilder_laws.
Qed.

(** C2 at [Truncate("users").SetError(boom)] and [Cascade]. *)
Lemma sticky_error_propagates_witness :
  ∃ b' h',
    TruncateDataset.invoke (env := Examples.env) 1%positive
      TruncateDataset.CallCascade (Examples.truncateHeap Examples.failedTruncate)
      = Ok b' h'
    ∧ TruncateDataset.Error b' h' = Ok (Some Examples.boom) h'
    ∧ TruncateDataset.ToSQL (env := Examples.env) b' h'
      = Ok ("", [], Some Examples.boom) h'.
Proof.
  destruct (sticky_error_propagates Examples.env) as (_ & _ & _ & Htr).
  eassert (Hrun : invoke truncateBuilder Examples.env 1%positive
      TruncateDataset.CallCascade (Examples.truncateHeap Examples.failedTruncate)
      = Ok _ _) by (vm_compute; reflexivity).
  assert (Hd : truncates (Examples.truncateHeap Examples.failedTruncate) !! 1%positive
               = Some Examples.failedTruncate) by (vm_compute; reflexivity).
  pose proof (Htr _ _ _ Examples.boom TruncateDataset.CallCascade Hd eq_refl)
    as Hcall.
  rewrite Hrun in Hcall. destruct Hcall as [Herr Hsql].
  eexists _, _. split; [exact Hrun|]. split; [exact Herr|]. exact (Hsql Examples.env).
Defined.

(** C3, as amended.  For each of the four builders: after
    [SetError(e1).SetError(e2)] the builder's error is the error the
    receiver already had, and [e1] when it had none; [e2] is never
    recorded. *)
Theorem SetError_first_error_wins : every_builder first_error_wins.
Proof.
  unfold every_builder.
  split; [|split; [|split]]; apply first_error_wins_holds;
    auto using insertBuilder_laws, updateBuilder_laws, deleteBuilder_laws,
      truncateBuilder_laws.
Qed.

(** C3 at [Truncate("users")], which carries no error. *)
Lemma SetError_first_error_wins_witness :
  ∃ h',
    (b1 ← TruncateDataset.SetError 1%positive (Some Examples.earlier);
     b2 ← TruncateDataset.SetError b1 (Some Examples.later);
     TruncateDataset.Error b2) (Examples.truncateHeap Examples.usersTruncate)
    = Ok (Some Examples.earlier) h'.
Proof.
  destruct SetError_first_error_wins as (_ & _ & _ & Htr).
  assert (Hd : truncates (Examples.truncateHeap Examples.usersTruncate) !! 1%positive
               = Some Examples.usersTruncate) by (vm_compute; reflexivity).
  exact (Htr _ _ _ Examples.earlier Examples.later Hd).
Defined.

(** C3, as stated, fails on a builder that already carries an error: that
    error stays, and [e1] is not recorded. *)
Lemma SetError_keeps_earlier_error :
  Examples.earlier ≠ Examples.later
  ∧ (b1 ← TruncateDataset.SetError 1%positive (Some Examples.earlier);
     b2 ← TruncateDataset.SetError b1 (Some Examples.later);
     TruncateDataset.Error b2) (Examples.truncateHeap Examples.failedTruncate)
    = Ok (Some Examples.boom) (Examples.truncateHeap Examples.failedTruncate)
  ∧ Examples.boom ≠ Examples.earlier.
Proof. split; [done|]. split; [vm_compute; reflexivity|done]. Qed.

(** C4.  [FromQuery] with a SELECT builder: when the SELECT's dialect is
    not the default one and differs from the INSERT's, the call panics with
    the incompatibility error and writes nothing; when the SELECT's dialect
    is the default one, the call returns a new INSERT builder under the
    receiver's dialect whose row source is that SELECT, the SELECT now has
    the receiver's dialect, and both the statement and the row source are
    rendered by that dialect's entry points. *)
Theorem FromQuery_dialect_consistency (env : Env) h id
    (d : Dataset exp.InsertClauses) sds (s : Dataset exp.SelectClauses) :
  inserts h !! id = Some d →
  selects h !! sds = Some s →
  (dialect s ≠ GetDialect "default" → dialect s ≠ dialect d →
     InsertDataset.FromQuery id (exp.Subquery (SelectRef sds)) h
     = Panic (ErrIncompatibleDialects (SQLDialect_Dialect (dialect d))
                                      (SQLDialect_Dialect (dialect s))) h)
  ∧ (dialect s = GetDialect "default" →
     ∃ b' h',
       InsertDataset.FromQuery id (exp.Subquery (SelectRef sds)) h = Ok b' h'
       ∧ inserts h' !! b'
         = Some {| dialect := dialect d;
                   clauses := exp.InsertClauses_SetFrom (clauses d)
                                (exp.Subquery (SelectRef sds));
                   isPrepared := isPrepared d; queryFactory := queryFactory d;
                   err := err d |}
       ∧ selects h' !! sds = Some (set_dialect s (dialect d))
       ∧ (err d = None →
          InsertDataset.ToSQL b' h'
          = Ok (sb.ToSQL
                  (ToInsertSQL (dialect d) h'
                     (sb.NewSQLBuilder (prepared_Bool (isPrepared d)))
                     (exp.InsertClauses_SetFrom (clauses d)
                        (exp.Subquery (SelectRef sds))))) h')
       ∧ (err s = None → ∀ buf,
          SelectDataset.AppendSQL sds buf h'
          = Ok (ToSelectSQL (dialect d) h' buf (clauses s)) h')).
Proof.
  intros Hd Hs. rewrite (FromQuery_run _ _ _ _ Hd), Hs. simpl. split.
  - intros H1 H2. rewrite decide_True; [done|]. split; [done|congruence].
  - intros H1. rewrite decide_False by (intros [? _]; done).
    set (h1 := with_selects h _). set (b' := newLoc (inserts h)).
    set (h' := with_inserts h1 _).
    assert (Hb : inserts h' !! b' = Some
      {| dialect := dialect d;
         clauses := exp.InsertClauses_SetFrom (clauses d) (exp.Subquery (SelectRef sds));
         isPrepared := isPrepared d; queryFactory := queryFactory d; err := err d |}).
    { unfold h'. simpl. by rewrite lookup_insert_eq. }
    assert (Hsel : selects h' !! sds = Some (set_dialect s (dialect d))).
    { unfold h', h1. simpl. by rewrite lookup_insert_eq. }
    exists b', h'. split; [done|]. split; [done|]. split; [done|]. split.
    + intros He. rewrite (ToSQL_total insertBuilder insertBuilder_laws _ _ _ _ Hb).
      simpl. by rewrite He.
    + intros He buf. unfold SelectDataset.AppendSQL, SelectDataset.load.
      unfold_M. rewrite Hsel. simpl. by rewrite He.
Qed.

(** C4 at an INSERT under the default dialect with a SELECT under postgres,
    and at an INSERT under postgres with a SELECT under the default
    dialect. *)
Lemma FromQuery_dialect_consistency_witness :
  InsertDataset.FromQuery (env := Examples.env) 1%positive
      (exp.Subquery (SelectRef 1%positive))
      (Examples.insertHeap Mock.defaultDialect Mock.postgresDialect)
    = Panic (ErrIncompatibleDialects "default" "postgres")
        (Examples.insertHeap Mock.defaultDialect Mock.postgresDialect)
  ∧ ∃ b' h',
      InsertDataset.FromQuery (env := Examples.env) 1%positive
        (exp.Subquery (SelectRef 1%positive))
        (Examples.insertHeap Mock.postgresDialect Mock.defaultDialect)
      = Ok b' h'
      ∧ selects h' !! 1%positive = Some (Examples.usersSelect Mock.postgresDialect)
      ∧ InsertDataset.ToSQL (env := Examples.env) b' h'
        = Ok ("INSERT INTO archive SELECT * FROM users LIMIT $1", [], None) h'.
Proof.
  split.
  - refine (proj1 (FromQuery_dialect_consistency Examples.env
      (Examples.insertHeap Mock.defaultDialect Mock.postgresDialect) 1%positive
      (Examples.archiveInsert Mock.defaultDialect) 1%positive
      (Examples.usersSelect Mock.postgresDialect) _ _) _ _);
      vm_compute; (reflexivity || discriminate).
  - destruct (proj2 (FromQuery_dialect_consistency Examples.env
      (Examples.insertHeap Mock.postgresDialect Mock.defaultDialect) 1%positive
      (Examples.archiveInsert Mock.postgresDialect) 1%positive
      (Examples.usersSelect Mock.defaultDialect) eq_refl eq_refl) eq_refl)
      as (b' & h' & Hrun & Hb & Hsel & Hsql & _).
    exists b', h'. split; [exact Hrun|]. split; [exact Hsel|].
    rewrite (Hsql eq_refl).
    eassert (Hh : Ok b' h' = Ok _ _) by (rewrite <- Hrun; vm_compute; reflexivity).
    injection Hh as -> Hh'. rewrite Hh'. vm_compute. reflexivity.
Defined.

(** C5.  The target argument of [InsertDataset.Into], [UpdateDataset.Table]
    and [DeleteDataset.From]: a string is stored as the identifier parsed
    from it and an expression as it is ([From] takes identifier expressions
    only); every other argument makes the call panic with the method's own
    sentinel error, no object being written, so the error is nobody's
    sticky error. *)
Theorem table_argument_kinds (env : Env) (h : Heap) (p : loc) :
  (∀ (d : Dataset exp.InsertClauses) (into : exp.Value),
     inserts h !! p = Some d →
     InsertDataset.Into p into h =
       match into with
       | exp.VExpr t =>
           copied insertBuilder h d (exp.InsertClauses_SetInto (clauses d) t)
       | exp.VString t =>
           copied insertBuilder h d
             (exp.InsertClauses_SetInto (clauses d)
                (exp.Identifier (ParseIdentifier t)))
       | _ => Panic ErrUnsupportedIntoType h
       end)
  ∧ (∀ (d : Dataset exp.UpdateClauses) (table : exp.Value),
     updates h !! p = Some d →
     UpdateDataset.Table p table h =
       match table with
       | exp.VExpr t =>
           copied updateBuilder h d (exp.UpdateClauses_SetTable (clauses d) t)
       | exp.VString t =>
           copied updateBuilder h d
             (exp.UpdateClauses_SetTable (clauses d)
                (exp.Identifier (ParseIdentifier t)))
       | _ => Panic ErrUnsupportedUpdateTableType h
       end)
  ∧ (∀ (d : Dataset exp.DeleteClauses) (table : exp.Value),
     deletes h !! p = Some d →
     DeleteDataset.From p table h =
       match table with
       | exp.VExpr (exp.Identifier t) =>
           copied deleteBuilder h d (exp.DeleteClauses_SetFrom (clauses d) t)
       | exp.VString t =>
           copied deleteBuilder h d
             (exp.DeleteClauses_SetFrom (clauses d) (ParseIdentifier t))
       | _ => Panic ErrBadFromArgument h
       end).
Proof.
  split; [|split]; intros d v Hd;
    [by apply Into_run | by apply Table_run | by apply From_run].
Qed.

(** C5 at an integer, nil, a literal expression and a string. *)
Lemma table_argument_kinds_witness :
  InsertDataset.Into (env := Examples.env) 1%positive (exp.VInt 42)
      (Examples.insertHeap Mock.defaultDialect Mock.defaultDialect)
    = Panic ErrUnsupportedIntoType
        (Examples.insertHeap Mock.defaultDialect Mock.defaultDialect)
  ∧ UpdateDataset.Table (env := Examples.env) 1%positive exp.VNil Examples.updateHeap
    = Panic ErrUnsupportedUpdateTableType Examples.updateHeap
  ∧ DeleteDataset.From (env := Examples.env) 1%positive
      (exp.VExpr (exp.Literal "users")) Examples.deleteHeap
    = Panic ErrBadFromArgument Examples.deleteHeap
  ∧ DeleteDataset.From (env := Examples.env) 1%positive
      (exp.VString "orders") Examples.deleteHeap
    = copied deleteBuilder Examples.deleteHeap Examples.usersDelete
        (exp.DeleteClauses_SetFrom (clauses Examples.usersDelete)
           (Mock.ParseIdentifier "orders")).
Proof.
  split; [|split; [|split]].
  - exact (proj1 (table_argument_kinds Examples.env
      (Examples.insertHeap Mock.defaultDialect Mock.defaultDialect) 1%positive)
      (Examples.archiveInsert Mock.defaultDialect) (exp.VInt 42) eq_refl).
  - exact (proj1 (proj2 (table_argument_kinds Examples.env Examples.updateHeap
      1%positive)) Examples.usersUpdate exp.VNil eq_refl).
  - exact (proj2 (proj2 (table_argument_kinds Examples.env Examples.deleteHeap
      1%positive)) Examples.usersDelete (exp.VExpr (exp.Literal "users")) eq_refl).
  - exact (proj2 (proj2 (table_argument_kinds Examples.env Examples.deleteHeap
      1%positive)) Examples.usersDelete (exp.VString "orders") eq_refl).
Defined.

(** C6.  For each of the four builders: [MustToSQL] panics, with the error
    as the panic value, exactly when [ToSQL] returns an error, and otherwise
    returns the text and the parameters that [ToSQL] returns. *)
Theorem MustToSQL_panics_iff_ToSQL_errors (env : Env) :
  every_builder (MustToSQL_agrees env).
Proof.
  unfold every_builder.
  split; [|split; [|split]]; apply MustToSQL_agrees_holds;
    auto using insertBuilder_laws, updateBuilder_laws, deleteBuilder_laws,
      truncateBuilder_laws.
Qed.

(** C6 at [Truncate("users")] without and with an error. *)
Lemma MustToSQL_panics_iff_ToSQL_errors_witness :
  (TruncateDataset.ToSQL (env := Examples.env) 1%positive
     (Examples.truncateHeap Examples.usersTruncate)
   = Ok ("TRUNCATE users", [], None) (Examples.truncateHeap Examples.usersTruncate)
   ∧ TruncateDataset.MustToSQL (env := Examples.env) 1%positive
       (Examples.truncateHeap Examples.usersTruncate)
     = Ok ("TRUNCATE users", []) (Examples.truncateHeap Examples.usersTruncate))
  ∧ (TruncateDataset.ToSQL (env := Examples.env) 1%positive
       (Examples.truncateHeap Examples.failedTruncate)
     = Ok ("", [], Some Examples.boom) (Examples.truncateHeap Examples.failedTruncate)
     ∧ TruncateDataset.MustToSQL (env := Examples.env) 1%positive
         (Examples.truncateHeap Examples.failedTruncate)
       = Panic Examples.boom (Examples.truncateHeap Examples.failedTruncate)).
Proof.
  destruct (MustToSQL_panics_iff_ToSQL_errors Examples.env) as (_ & _ & _ & Htr).
  split.
  - destruct (Htr (Examples.truncateHeap Examples.usersTruncate) 1%positive
                Examples.usersTruncate) as (sql & params & e & Hto & Hmust);
      [vm_compute; reflexivity|].
    assert (Heq : (sql, params, e) = ("TRUNCATE users", [], None)).
    { enough (Ok (sql, params, e) (Examples.truncateHeap Examples.usersTruncate)
              = Ok ("TRUNCATE users", [], None)
                  (Examples.truncateHeap Examples.usersTruncate)) by congruence.
      rewrite <- Hto. vm_compute. reflexivity. }
    injection Heq as -> -> ->. split; [exact Hto|exact Hmust].
  - destruct (Htr (Examples.truncateHeap Examples.failedTruncate) 1%positive
                Examples.failedTruncate) as (sql & params & e & Hto & Hmust);
      [vm_compute; reflexivity|].
    assert (Heq : (sql, params, e) = ("", [], Some Examples.boom)).
    { enough (Ok (sql, params, e) (Examples.truncateHeap Examples.failedTruncate)
              = Ok ("", [], Some Examples.boom)
                  (Examples.truncateHeap Examples.failedTruncate)) by congruence.
      rewrite <- Hto. vm_compute. reflexivity. }
    injection Heq as -> -> ->. split; [exact Hto|exact Hmust].
Defined.

(** C7.  [Limit] of [UpdateDataset] and of [DeleteDataset]: with a positive
    [n] the new builder's clause record has the limit [n], with 0 it has no
    limit, as after [ClearLimit]; either way the receiver's own limit plays
    no part. *)
Theorem Limit_sets_or_clears (h : Heap) (p : loc) :
  (∀ (d : Dataset exp.UpdateClauses) (n : N),
     updates h !! p = Some d →
     ((0 < n)%N →
        UpdateDataset.Limit p n h
        = copied updateBuilder h d
            (exp.UpdateClauses_SetLimit (clauses d) (exp.VUint n))
        ∧ exp.uc_limit (exp.UpdateClauses_SetLimit (clauses d) (exp.VUint n))
          = Some (exp.VUint n))
     ∧ UpdateDataset.Limit p 0 h = UpdateDataset.ClearLimit p h
     ∧ UpdateDataset.Limit p 0 h
       = copied updateBuilder h d (exp.UpdateClauses_ClearLimit (clauses d))
     ∧ exp.uc_limit (exp.UpdateClauses_ClearLimit (clauses d)) = None)
  ∧ (∀ (d : Dataset exp.DeleteClauses) (n : N),
     deletes h !! p = Some d →
     ((0 < n)%N →
        DeleteDataset.Limit p n h
        = copied deleteBuilder h d
            (exp.DeleteClauses_SetLimit (clauses d) (exp.VUint n))
        ∧ exp.dc_limit (exp.DeleteClauses_SetLimit (clauses d) (exp.VUint n))
          = Some (exp.VUint n))
     ∧ DeleteDataset.Limit p 0 h = DeleteDataset.ClearLimit p h
     ∧ DeleteDataset.Limit p 0 h
       = copied deleteBuilder h d (exp.DeleteClauses_ClearLimit (clauses d))
     ∧ exp.dc_limit (exp.DeleteClauses_ClearLimit (clauses d)) = None).
Proof.
  split; intros d n Hd.
  - rewrite !(Update_Limit_run _ _ _ _ Hd), (Update_ClearLimit_run _ _ _ Hd).
    split; [|done]. intros Hn. by rewrite decide_True.
  - rewrite !(Delete_Limit_run _ _ _ _ Hd), (Delete_ClearLimit_run _ _ _ Hd).
    split; [|done]. intros Hn. by rewrite decide_True.
Qed.

(** C7 at builders whose limit is 7. *)
Lemma Limit_sets_or_clears_witness :
  exp.uc_limit (clauses Examples.usersUpdate) = Some (exp.VUint 7)
  ∧ (UpdateDataset.Limit 1%positive 3 Examples.updateHeap
     = copied updateBuilder Examples.updateHeap Examples.usersUpdate
         (exp.UpdateClauses_SetLimit (clauses Examples.usersUpdate) (exp.VUint 3))
     ∧ exp.uc_limit
         (exp.UpdateClauses_SetLimit (clauses Examples.usersUpdate) (exp.VUint 3))
       = Some (exp.VUint 3))
  ∧ DeleteDataset.Limit 1%positive 0 Examples.deleteHeap
    = copied deleteBuilder Examples.deleteHeap Examples.usersDelete
        (exp.DeleteClauses_ClearLimit (clauses Examples.usersDelete)).
Proof.
  split; [reflexivity|]. split.
  - refine (proj1 (proj1 (Limit_sets_or_clears
      Examples.updateHeap 1%positive) Examples.usersUpdate 3%N eq_refl) _).
    reflexivity.
  - exact (proj1 (proj2 (proj2 (proj2 (Limit_sets_or_clears
      Examples.deleteHeap 1%positive) Examples.usersDelete 0%N eq_refl)))).
Defined.

(** The result of [copy] on a TRUNCATE builder. *)
Lemma copied_truncate h (d : Dataset exp.TruncateClauses) c :
  ∃ p h',
    copied truncateBuilder h d c = Ok p h'
    ∧ truncates h' !! p
      = Some {| dialect := dialect d; clauses := c; isPrepared := isPrepared d;
                queryFactory := queryFactory d; err := err d |}
    ∧ ∀ q x, truncates h !! q = Some x → truncates h' !! q = Some x.
Proof.
  eexists _, _. split; [reflexivity|]. simpl. split; [by rewrite lookup_insert_eq|].
  intros q x Hq. rewrite lookup_insert_ne; [done|]. by eapply newLoc_ne.
Qed.

(** C8.  [Cascade] and [Identity] commute: in either order the builder
    returned has the receiver's fields and the receiver's clause record with
    the CASCADE flag set and the identity option [s], and the two builders
    render alike.  Under the rendering of TRUNCATE that the specification
    describes, [Truncate("users").Cascade().Identity("restart")] and
    [Truncate("users").Identity("restart").Cascade()] both give the TRUNCATE
    clause, the table name, the CASCADE fragment and the identity fragment,
    in this order. *)
Theorem Cascade_Identity_commute :
  (∀ (env : Env) h td (d : Dataset exp.TruncateClauses) s,
     truncates h !! td = Some d →
     let d' := {| dialect := dialect d;
                  clauses := exp.TruncateClauses_SetOptions (clauses d)
                    {| exp.Cascade := true;
                       exp.Restrict := exp.Restrict (exp.tc_options (clauses d));
                       exp.Identity := s |};
                  isPrepared := isPrepared d; queryFactory := queryFactory d;
                  err := err d |} in
     (∃ p1 h1 p2 h2,
        (x ← TruncateDataset.Cascade td; TruncateDataset.Identity x s) h = Ok p1 h1
        ∧ (x ← TruncateDataset.Identity td s; TruncateDataset.Cascade x) h = Ok p2 h2
        ∧ truncates h1 !! p1 = Some d'
        ∧ truncates h2 !! p2 = Some d')
     ∧ ∃ res h',
        (a ← (x ← TruncateDataset.Cascade td; TruncateDataset.Identity x s);
         c ← (x ← TruncateDataset.Identity td s; TruncateDataset.Cascade x);
         ra ← TruncateDataset.ToSQL a;
         rc ← TruncateDataset.ToSQL c;
         mret (ra, rc)) h = Ok (res, res) h')
  ∧ (∀ f : TruncateFragments,
     let sql := (((TruncateClause f ++ "users") ++ CascadeFragment f)
                 ++ IdentityFragment f "restart")%string in
     ∃ h1 h2,
       (b ← TruncateDataset.Truncate (env := mockEnv f) [exp.VString "users"];
        c ← TruncateDataset.Cascade b;
        i ← TruncateDataset.Identity c "restart";
        TruncateDataset.ToSQL (env := mockEnv f) i) emptyHeap
       = Ok (sql, [], None) h1
       ∧ (b ← TruncateDataset.Truncate (env := mockEnv f) [exp.VString "users"];
          i ← TruncateDataset.Identity b "restart";
          c ← TruncateDataset.Cascade i;
          TruncateDataset.ToSQL (env := mockEnv f) c) emptyHeap
         = Ok (sql, [], None) h2).
Proof.
  split.
  - intros env h td d s Hd d'.
    assert (Hci : ∀ h0, truncates h0 !! td = Some d →
      ∃ p h1, (x ← TruncateDataset.Cascade td; TruncateDataset.Identity x s) h0 = Ok p h1
        ∧ truncates h1 !! p = Some d'
        ∧ ∀ q x, truncates h0 !! q = Some x → truncates h1 !! q = Some x).
    { intros h0 H0. rewrite bind_run, (Cascade_run _ _ _ H0).
      destruct (copied_truncate h0 d (exp.TruncateClauses_SetOptions (clauses d)
        {| exp.Cascade := true;
           exp.Restrict := exp.Restrict (exp.tc_options (clauses d));
           exp.Identity := exp.Identity (exp.tc_options (clauses d)) |}))
        as (p & h1 & -> & Hp & Hk).
      rewrite (Identity_run _ _ _ _ Hp).
      match goal with
      | |- context [copied truncateBuilder ?hh ?dd ?cc] =>
          destruct (copied_truncate hh dd cc) as (p' & h2 & Heq & Hp' & Hk')
      end.
      exists p', h2. split; [exact Heq|]. split; [exact Hp'|]. eauto. }
    assert (Hic : ∀ h0, truncates h0 !! td = Some d →
      ∃ p h1, (x ← TruncateDataset.Identity td s; TruncateDataset.Cascade x) h0 = Ok p h1
        ∧ truncates h1 !! p = Some d'
        ∧ ∀ q x, truncates h0 !! q = Some x → truncates h1 !! q = Some x).
    { intros h0 H0. rewrite bind_run, (Identity_run _ _ _ _ H0).
      destruct (copied_truncate h0 d (exp.TruncateClauses_SetOptions (clauses d)
        {| exp.Cascade := exp.Cascade (exp.tc_options (clauses d));
           exp.Restrict := exp.Restrict (exp.tc_options (clauses d));
           exp.Identity := s |}))
        as (p & h1 & -> & Hp & Hk).
      rewrite (Cascade_run _ _ _ Hp).
      match goal with
      | |- context [copied truncateBuilder ?hh ?dd ?cc] =>
          destruct (copied_truncate hh dd cc) as (p' & h2 & Heq & Hp' & Hk')
      end.
      exists p', h2. split; [exact Heq|]. split; [exact Hp'|]. eauto. }
    split.
    + destruct (Hci h Hd) as (p1 & h1 & E1 & H1 & _).
      destruct (Hic h Hd) as (p2 & h2 & E2 & H2 & _).
      by exists p1, h1, p2, h2.
    + destruct (Hci h Hd) as (p1 & h1 & E1 & H1 & K1).
      destruct (Hic h1 (K1 _ _ Hd)) as (p2 & h2 & E2 & H2 & K2).
      rewrite bind_run, E1, bind_run, E2, bind_run.
      rewrite (ToSQL_total truncateBuilder truncateBuilder_laws _ _ _ _ (K2 _ _ H1)).
      rewrite bind_run.
      rewrite (ToSQL_total truncateBuilder truncateBuilder_laws _ _ _ _ H2).
      by eexists _, _.
  - intros f sql. eexists _, _. split; vm_compute; reflexivity.
Qed.

(** C8 at [Truncate("users")]. *)
Lemma Cascade_Identity_commute_witness :
  ∃ p1 h1 p2 h2,
    (x ← TruncateDataset.Cascade 1%positive; TruncateDataset.Identity x "restart")
      (Examples.truncateHeap Examples.usersTruncate) = Ok p1 h1
    ∧ (x ← TruncateDataset.Identity 1%positive "restart"; TruncateDataset.Cascade x)
        (Examples.truncateHeap Examples.usersTruncate) = Ok p2 h2
    ∧ truncates h1 !! p1 = truncates h2 !! p2
    ∧ exp.tc_options <$> (clauses <$> truncates h1 !! p1)
      = Some {| exp.Cascade := true; exp.Restrict := false; exp.Identity := "restart" |}.
Proof.
  destruct (proj1 (proj1 Cascade_Identity_commute Examples.env
      (Examples.truncateHeap Examples.usersTruncate) 1%positive
      Examples.usersTruncate "restart" eq_refl))
    as (p1 & h1 & p2 & h2 & E1 & E2 & H1 & H2).
  exists p1, h1, p2, h2. split; [exact E1|]. split; [exact E2|].
  rewrite H1, H2. split; reflexivity.
Defined.

(** C9.  For each of the four builders: [Clone] returns a pointer to a new
    object, and [GetClauses], [Dialect], [IsPrepared], [Error] and [ToSQL]
    give for it what they give for the receiver. *)
Theorem Clone_observably_identical (env : Env) :
  every_builder (Clone_identical env).
Proof.
  unfold every_builder.
  split; [|split; [|split]]; apply Clone_identical_holds;
    auto using insertBuilder_laws, updateBuilder_laws, deleteBuilder_laws,
      truncateBuilder_laws.
Qed.

(** C9 at [Truncate("users")]. *)
Lemma Clone_observably_identical_witness :
  ∃ p h' res,
    TruncateDataset.Clone 1%positive (Examples.truncateHeap Examples.usersTruncate)
      = Ok (exp.Subquery (TruncateRef p)) h'
    ∧ p ≠ 1%positive
    ∧ TruncateDataset.GetClauses p h' = Ok (clauses Examples.usersTruncate) h'
    ∧ TruncateDataset.ToSQL (env := Examples.env) p h' = Ok res h'
    ∧ TruncateDataset.ToSQL (env := Examples.env) 1%positive h' = Ok res h'.
Proof.
  destruct (Clone_observably_identical Examples.env) as (_ & _ & _ & Htr).
  assert (Hd : truncates (Examples.truncateHeap Examples.usersTruncate) !! 1%positive
               = Some Examples.usersTruncate) by (vm_compute; reflexivity).
  destruct (Htr _ _ _ Hd)
    as (p & h' & res & Hcl & Hnew & _ & [Hgc _] & _ & _ & _ & [Hp Hb]).
  exists p, h', res. split; [exact Hcl|]. split.
  - intros ->. enough (Some Examples.usersTruncate = None) by discriminate.
    rewrite <- Hd. exact Hnew.
  - split; [exact Hgc|]. split; [exact Hp|exact Hb].
Defined.

(** C10.  [FromQuery] with a SELECT builder under the default dialect
    writes the receiver's dialect into that very object: the caller's
    pointer sees the new dialect, no SELECT object is allocated, and the
    new INSERT builder holds the caller's pointer as its row source. *)
Theorem FromQuery_adopts_dialect_in_place (env : Env) h id
    (d : Dataset exp.InsertClauses) sds (s : Dataset exp.SelectClauses) :
  inserts h !! id = Some d →
  selects h !! sds = Some s →
  dialect s = GetDialect "default" →
  ∃ b' h' d',
    InsertDataset.FromQuery id (exp.Subquery (SelectRef sds)) h = Ok b' h'
    ∧ selects h' = <[sds := set_dialect s (dialect d)]> (selects h)
    ∧ dom (selects h') = dom (selects h)
    ∧ inserts h' !! b' = Some d'
    ∧ exp.ic_from (clauses d') = Some (exp.Subquery (SelectRef sds)).
Proof.
  intros Hd Hs Hdef. rewrite (FromQuery_run _ _ _ _ Hd), Hs. simpl.
  rewrite decide_False by (intros [? _]; done).
  eexists _, _, _. split; [done|]. simpl. split; [done|]. split.
  - by apply dom_insert_lookup_L.
  - split; [by rewrite lookup_insert_eq|done].
Qed.

(** C10 at an INSERT under postgres with a SELECT under the default
    dialect. *)
Lemma FromQuery_adopts_dialect_in_place_witness :
  ∃ b' h',
    InsertDataset.FromQuery (env := Examples.env) 1%positive
      (exp.Subquery (SelectRef 1%positive))
      (Examples.insertHeap Mock.postgresDialect Mock.defaultDialect)
    = Ok b' h'
    ∧ selects (Examples.insertHeap Mock.postgresDialect Mock.defaultDialect) !! 1%positive
      = Some (Examples.usersSelect Mock.defaultDialect)
    ∧ selects h' !! 1%positive = Some (Examples.usersSelect Mock.postgresDialect).
Proof.
  destruct (FromQuery_adopts_dialect_in_place Examples.env
      (Examples.insertHeap Mock.postgresDialect Mock.defaultDialect) 1%positive
      (Examples.archiveInsert Mock.postgresDialect) 1%positive
      (Examples.usersSelect Mock.defaultDialect) eq_refl eq_refl eq_refl)
    as (b' & h' & d' & Hrun & Hsel & _).
  exists b', h'. split; [exact Hrun|]. split; [reflexivity|].
  rewrite Hsel. reflexivity.
Defined.

(** * More properties of the builders *)

(** ** Which fields a mutator changes *)

Lemma truncate_changes_own_field env :
  changes_own_field env truncateBuilder truncateCommon.
Proof.
  intros h b d c b' h' Hd. simpl in *. destruct c; simpl;
    unfold_Truncate; unfold_M; field_step Hd d.
  - destruct (NewColumnListExpression _); field_step Hd d; done.
  - case_decide; field_step Hd d.
    intros [= <- <-]. eauto.
Qed.

Lemma update_changes_own_field env :
  changes_own_field env updateBuilder updateCommon.
Proof.
  intros h b d c b' h' Hd. simpl in *. destruct c; simpl;
    unfold_Update; unfold_M; field_step Hd d.
  - destruct table; field_step Hd d; done.
  - destruct (NewColumnListExpression _); field_step Hd d; done.
  - case_decide; field_step Hd d.
  - destruct (NewColumnListExpression _); field_step Hd d; done.
  - case_decide; field_step Hd d.
    intros [= <- <-]. eauto.
Qed.

Lemma delete_changes_own_field env :
  changes_own_field env deleteBuilder deleteCommon.
Proof.
  intros h b d c b' h' Hd. simpl in *. destruct c; simpl;
    unfold_Delete; unfold_M; field_step Hd d.
  - destruct table as [| | | | |[]|]; field_step Hd d; done.
  - case_decide; field_step Hd d.
  - destruct (NewColumnListExpression _); field_step Hd d; done.
  - case_decide; field_step Hd d.
    intros [= <- <-]. eauto.
Qed.

Lemma insert_changes_own_field env :
  changes_own_field env insertBuilder insertCommon.
Proof.
  intros h b d c b' h' Hd. simpl in *. destruct c; simpl;
    try rewrite (FromQuery_run _ _ _ _ Hd);
    unfold_Insert; unfold_M; field_step Hd d.
  - destruct into; field_step Hd d; done.
  - destruct (NewColumnListExpression _); field_step Hd d; done.
  - destruct (NewColumnListExpression _); field_step Hd d; done.
  - destruct from as [| |[sds| | | |]|]; field_step Hd d.
    destruct (selects h !! sds) as [s|]; [|done].
    case_decide; [done|]. field_step Hd d.
  - destruct (NewColumnListExpression _); field_step Hd d; done.
  - case_decide; field_step Hd d.
    intros [= <- <-]. eauto.
Qed.

(** ** Chains of calls *)

Section chains.
Context (env : Env) (B : Builder) (common : call B → option CommonCall).
Context (Hfields : changes_own_field env B common).

Lemma invoke_keeps h b d c b' h' :
  objects B h !! b = Some d →
  invoke B env b c h = Ok b' h' →
  ∃ d', objects B h' !! b' = Some d'
    ∧ queryFactory d' = queryFactory d
    ∧ ∀ e, err d = Some e → err d' = Some e.
Proof.
  intros Hd Hi. destruct (Hfields _ _ _ _ _ _ Hd Hi) as (d' & Hd' & Hc).
  exists d'. split; [done|].
  destruct (common c) as [[p|dl|x|e]|].
  - by subst d'.
  - by subst d'.
  - by subst d'.
  - destruct Hc as [_ ->]. case_decide; [|done].
    split; [done|]. intros e0 He0. congruence.
  - destruct Hc as (_ & _ & -> & ->). done.
Qed.

Lemma chain_keeps_holds : chain_keeps_factory_and_error env B.
Proof.
  intros cs. induction cs as [|c cs IH]; intros h b d b' h' Hd Hrun.
  - injection Hrun as <- <-. eauto.
  - simpl in Hrun. rewrite bind_run in Hrun.
    destruct (invoke B env b c h) as [b1 h1|] eqn:Hi; [|done].
    destruct (invoke_keeps _ _ _ _ _ _ Hd Hi) as (d1 & Hd1 & Hq1 & He1).
    destruct (IH _ _ _ _ _ Hd1 Hrun) as (d' & Hd' & Hq & He).
    exists d'. split; [done|]. split; [congruence|]. eauto.
Qed.

(** ** Executors *)

Context (exec : Exec) (L : BuilderLaws B) (Executor : loc → M QueryExecutor).
Context (Executor_run : ∀ h b d,
  objects B h !! b = Some d →
  Executor b h =
    match sqlBuilder B env b h with
    | Ok buf h' => callFromSQLBuilder (queryFactory d) buf h'
    | Panic e h' => Panic e h'
    end).

Lemma Executor_needs_factory_holds : Executor_needs_factory env exec B Executor.
Proof.
  intros cs h b d b' h' Hd Hrun.
  destruct (chain_keeps_holds _ _ _ _ _ _ Hd Hrun) as (d' & Hd' & Hq & _).
  rewrite (Executor_run _ _ _ Hd'), (sqlBuilder_run B L _ _ _ _ Hd'), Hq.
  destruct (queryFactory d); [|done]. eauto.
Qed.

End chains.

Lemma TruncateDataset_Executor_run (env : Env) (exec : Exec) h td
    (d : Dataset exp.TruncateClauses) :
  truncates h !! td = Some d →
  TruncateDataset_Executor td h =
    match TruncateDataset.truncateSQLBuilder td h with
    | Ok buf h' => callFromSQLBuilder (queryFactory d) buf h'
    | Panic e h' => Panic e h'
    end.
Proof.
  intros Hd. unfold TruncateDataset_Executor. unfold_Truncate; unfold_M.
  rewrite !Hd. by destruct (err d).
Qed.

Lemma InsertDataset_Executor_run (env : Env) (exec : Exec) h id
    (d : Dataset exp.InsertClauses) :
  inserts h !! id = Some d →
  InsertDataset_Executor id h =
    match InsertDataset.insertSQLBuilder id h with
    | Ok buf h' => callFromSQLBuilder (queryFactory d) buf h'
    | Panic e h' => Panic e h'
    end.
Proof.
  intros Hd. unfold InsertDataset_Executor. unfold_Insert; unfold_M.
  rewrite !Hd. by destruct (err d).
Qed.

Lemma UpdateDataset_Executor_run (env : Env) (exec : Exec) h ud
    (d : Dataset exp.UpdateClauses) :
  updates h !! ud = Some d →
  UpdateDataset_Executor ud h =
    match UpdateDataset.updateSQLBuilder ud h with
    | Ok buf h' => callFromSQLBuilder (queryFactory d) buf h'
    | Panic e h' => Panic e h'
    end.
Proof.
  intros Hd. unfold UpdateDataset_Executor. unfold_Update; unfold_M.
  rewrite !Hd. by destruct (err d).
Qed.

Lemma DeleteDataset_Executor_run (env : Env) (exec : Exec) h dd
    (d : Dataset exp.DeleteClauses) :
  deletes h !! dd = Some d →
  DeleteDataset_Executor dd h =
    match DeleteDataset.deleteSQLBuilder dd h with
    | Ok buf h' => callFromSQLBuilder (queryFactory d) buf h'
    | Panic e h' => Panic e h'
    end.
Proof.
  intros Hd. unfold DeleteDataset_Executor. unfold_Delete; unfold_M.
  rewrite !Hd. by destruct (err d).
Qed.

(** ** Recording an error *)

Section recording.
Context (B : Builder) (L : BuilderLaws B).
Context (with_objects_id : ∀ h, with_objects B h (objects B h) = h).

Lemma SetError_noop_holds : SetError_noop B.
Proof.
  intros h b d e Hd He. rewrite (SetError_run B L _ _ _ _ Hd).
  case_decide as Hn; [|done].
  destruct He as [->|He]; [|done].
  replace (set_err d None) with d by (destruct d; simpl in *; by subst).
  by rewrite insert_id, with_objects_id.
Qed.

Lemma error_is_snapshotted_holds env : error_is_snapshotted env B.
Proof.
  intros h b d c b1 h1 e Hd Hn Hc Hi.
  destruct (invoke_shape B L _ _ _ _ _ _ _ Hd Hc Hi)
    as (-> & d1 & h0 & -> & He1 & _).
  set (b1 := newLoc (objects B h)).
  set (h1 := with_objects B h0 (<[b1 := d1]> (objects B h))).
  assert (Hb1 : objects B h1 !! b1 = Some d1).
  { unfold h1. by rewrite (lookup_with_objects B L), lookup_insert_eq. }
  assert (Hb : objects B h1 !! b = Some d).
  { unfold h1. rewrite (lookup_with_objects B L), lookup_insert_ne; [done|].
    by eapply newLoc_ne. }
  set (p := newLoc (objects B h1)).
  set (h2 := with_objects B h1 (<[p := d]> (objects B h1))).
  assert (Hpb : p ≠ b) by by eapply newLoc_ne.
  assert (Hpb1 : p ≠ b1) by by eapply newLoc_ne.
  assert (Hbb1 : b1 ≠ b) by by eapply newLoc_ne.
  assert (H2b : objects B h2 !! b = Some d).
  { unfold h2. by rewrite (lookup_with_objects B L), lookup_insert_ne. }
  set (h3 := with_objects B h2 (<[b := set_err d (Some e)]> (objects B h2))).
  assert (H3b : objects B h3 !! b = Some (set_err d (Some e))).
  { unfold h3. by rewrite (lookup_with_objects B L), lookup_insert_eq. }
  assert (H3b1 : objects B h3 !! b1 = Some d1).
  { unfold h3, h2.
    rewrite (lookup_with_objects B L), lookup_insert_ne by done.
    by rewrite (lookup_with_objects B L), lookup_insert_ne. }
  assert (H3p : objects B h3 !! p = Some d).
  { unfold h3, h2.
    rewrite (lookup_with_objects B L), lookup_insert_ne by done.
    by rewrite (lookup_with_objects B L), lookup_insert_eq. }
  exists p, h2, h3. split; [by rewrite (Clone_run B L _ _ _ Hb)|].
  split; [by rewrite (SetError_run B L _ _ _ _ H2b), decide_True|].
  rewrite (Error_run B L _ _ _ H3b), (Error_run B L _ _ _ H3b1),
    (Error_run B L _ _ _ H3p), He1, Hn. done.
Qed.

End recording.

(** ** The package-level constructors *)

Section constructors.
Context (env : Env) (B : Builder) (L : BuilderLaws B).
Context (common : call B → option CommonCall).
Context (Hfields : changes_own_field env B common).

Lemma lookupRef_alloc h p d r o :
  objects B h !! p = None →
  lookupRef h r = Some o →
  lookupRef (with_objects B h (<[p := d]> (objects B h))) r = Some o.
Proof.
  intros Hp Hr. destruct (ref_cases B L r) as [[q ->]|Hq].
  - rewrite (lookupRef_ref B L) in *. rewrite (lookup_with_objects B L).
    rewrite lookup_insert_ne; [done|]. intros ->. by rewrite Hp in Hr.
  - by rewrite (lookupRef_with B L).
Qed.

(** A constructor allocates an object and calls one mutator on it. *)
Lemma constructs_holds (new : Dataset (Clauses B)) c h :
  dialect new = GetDialect "default" → queryFactory new = None →
  err new = None →
  isSetError B c = false → written B c = [] → common c = None →
  constructs_default_builder env B h
    (invoke B env (newLoc (objects B h)) c
       (with_objects B h (<[newLoc (objects B h) := new]> (objects B h)))).
Proof.
  intros Hdl Hqf Herr Hc Hw Hcm.
  set (p := newLoc (objects B h)).
  set (h0 := with_objects B h (<[p := new]> (objects B h))).
  assert (Hp : objects B h0 !! p = Some new).
  { unfold h0. by rewrite (lookup_with_objects B L), lookup_insert_eq. }
  assert (Hkeep : ∀ r o, lookupRef h r = Some o → lookupRef h0 r = Some o).
  { intros r o. apply lookupRef_alloc, newLoc_fresh. }
  destruct (invoke B env p c h0) as [b h'|e h'] eqn:Hi; simpl.
  - destruct (Hfields _ _ _ _ _ _ Hp Hi) as (d' & Hd' & Hsame).
    rewrite Hcm in Hsame. destruct Hsame as (Hd1 & _ & Hd2 & Hd3).
    destruct (invoke_shape B L _ _ _ _ _ _ _ Hp Hc Hi)
      as (-> & d1 & h1 & -> & _ & Hh1).
    assert (Hnew : objects B h0 !! newLoc (objects B h0) = None)
      by apply newLoc_fresh.
    split.
    { assert (Hn : (<[p := new]> (objects B h)) !! newLoc (objects B h0) = None)
        by (by rewrite <- (lookup_with_objects B L h)).
      by apply lookup_insert_None in Hn as [? _]. }
    split; [exists d'; repeat split; congruence|].
    intros r o Hr. apply Hkeep in Hr.
    destruct (ref_cases B L r) as [[q ->]|Hq].
    + rewrite (lookupRef_ref B L) in *. rewrite (lookup_with_objects B L).
      rewrite lookup_insert_ne; [done|]. intros <-. by rewrite Hnew in Hr.
    + rewrite (lookupRef_with B L) by done. rewrite Hh1; [done|].
      rewrite Hw. apply not_elem_of_nil.
  - by rewrite (invoke_panic B L _ _ _ _ _ _ _ Hp Hi).
Qed.

End constructors.

(** ** Appending a statement to an outer builder *)

Lemma insert_AppendSQL_embeds env :
  AppendSQL_embeds env insertBuilder (@InsertDataset.AppendSQL).
Proof.
  intros h b d Hd. simpl in *. unfold InsertDataset.AppendSQL.
  unfold_Insert; unfold_M. rewrite !Hd. split; [destruct (err d); reflexivity|].
  intros e He env' buf. rewrite He. eexists. split; [reflexivity|].
  unfold sb.SetError. destruct (sb.err buf) eqn:E; simpl; by rewrite ?E.
Qed.

Lemma update_AppendSQL_embeds env :
  AppendSQL_embeds env updateBuilder (@UpdateDataset.AppendSQL).
Proof.
  intros h b d Hd. simpl in *. unfold UpdateDataset.AppendSQL.
  unfold_Update; unfold_M. rewrite !Hd. split; [destruct (err d); reflexivity|].
  intros e He env' buf. rewrite He. eexists. split; [reflexivity|].
  unfold sb.SetError. destruct (sb.err buf) eqn:E; simpl; by rewrite ?E.
Qed.

Lemma delete_AppendSQL_embeds env :
  AppendSQL_embeds env deleteBuilder (@DeleteDataset.AppendSQL).
Proof.
  intros h b d Hd. simpl in *. unfold DeleteDataset.AppendSQL.
  unfold_Delete; unfold_M. rewrite !Hd. split; [destruct (err d); reflexivity|].
  intros e He env' buf. rewrite He. eexists. split; [reflexivity|].
  unfold sb.SetError. destruct (sb.err buf) eqn:E; simpl; by rewrite ?E.
Qed.

(** * Further properties, builder by builder *)

(** X1.  For each of the four builders, a call that returns gives a builder
    that differs from the receiver in what the call is for only:
    [Prepared], [WithDialect] and [SetDialect] give a builder with the
    receiver's fields but the prepared flag, respectively the dialect;
    [SetError] gives the receiver itself, with the error when it had none;
    every other mutator gives a builder with the receiver's dialect,
    prepared flag, query factory and error. *)
Theorem mutators_change_own_field (env : Env) :
  changes_own_field env insertBuilder insertCommon
  ∧ changes_own_field env updateBuilder updateCommon
  ∧ changes_own_field env deleteBuilder deleteCommon
  ∧ changes_own_field env truncateBuilder truncateCommon.
Proof.
  split; [apply insert_changes_own_field|].
  split; [apply update_changes_own_field|].
  split; [apply delete_changes_own_field|apply truncate_changes_own_field].
Qed.

(** X1 at [Truncate("users")], with [Prepared(true)] and with [Cascade]. *)
Lemma mutators_change_own_field_witness :
  (∃ b' h',
     TruncateDataset.invoke (env := Examples.env) 1%positive
       (TruncateDataset.CallPrepared true)
       (Examples.truncateHeap Examples.usersTruncate) = Ok b' h'
     ∧ truncates h' !! b'
       = Some (set_isPrepared Examples.usersTruncate preparedEnabled))
  ∧ (∃ b' h' d',
     TruncateDataset.invoke (env := Examples.env) 1%positive
       TruncateDataset.CallCascade
       (Examples.truncateHeap Examples.usersTruncate) = Ok b' h'
     ∧ truncates h' !! b' = Some d'
     ∧ dialect d' = Mock.defaultDialect
     ∧ isPrepared d' = preparedNoPreference).
Proof.
  destruct (mutators_change_own_field Examples.env) as (_ & _ & _ & Htr).
  assert (Hd : truncates (Examples.truncateHeap Examples.usersTruncate) !! 1%positive
               = Some Examples.usersTruncate) by (vm_compute; reflexivity).
  split.
  - eassert (Hrun : invoke truncateBuilder Examples.env 1%positive
        (TruncateDataset.CallPrepared true)
        (Examples.truncateHeap Examples.usersTruncate) = Ok _ _)
      by (vm_compute; reflexivity).
    destruct (Htr _ _ _ _ _ _ Hd Hrun) as (d' & Hd' & Heq).
    eexists _, _. split; [exact Hrun|]. simpl in Heq. rewrite Heq in Hd'.
    exact Hd'.
  - eassert (Hrun : invoke truncateBuilder Examples.env 1%positive
        TruncateDataset.CallCascade
        (Examples.truncateHeap Examples.usersTruncate) = Ok _ _)
      by (vm_compute; reflexivity).
    destruct (Htr _ _ _ _ _ _ Hd Hrun) as (d' & Hd' & Hdl & Hpr & _).
    eexists _, _, d'. split; [exact Hrun|]. split; [exact Hd'|].
    split; [exact Hdl|exact Hpr].
Defined.

(** X2.  For each of the four builders and every chain of calls
    [b.m1(x1).m2(x2)...] that returns: the last builder has the query
    factory of [b], and when [b] carries an error the last builder carries
    the same error. *)
Theorem chains_keep_factory_and_error (env : Env) :
  every_builder (chain_keeps_factory_and_error env).
Proof.
  unfold every_builder.
  split; [|split; [|split]]; eapply chain_keeps_holds;
    eauto using insert_changes_own_field, update_changes_own_field,
      delete_changes_own_field, truncate_changes_own_field.
Qed.

(** X2 at [Truncate("users").SetError(boom)] followed by [Cascade],
    [SetError(later)], [WithDialect("postgres")]. *)
Lemma chains_keep_factory_and_error_witness :
  ∃ b' h' d',
    invokeAll truncateBuilder Examples.env 1%positive
      [TruncateDataset.CallCascade;
       TruncateDataset.CallSetError (Some Examples.later);
       TruncateDataset.CallWithDialect "postgres"]
      (Examples.truncateHeap Examples.failedTruncate) = Ok b' h'
    ∧ truncates h' !! b' = Some d'
    ∧ queryFactory d' = None
    ∧ err d' = Some Examples.boom.
Proof.
  destruct (chains_keep_factory_and_error Examples.env) as (_ & _ & _ & Htr).
  assert (Hd : truncates (Examples.truncateHeap Examples.failedTruncate) !! 1%positive
               = Some Examples.failedTruncate) by (vm_compute; reflexivity).
  eassert (Hrun : invokeAll truncateBuilder Examples.env 1%positive
      [TruncateDataset.CallCascade;
       TruncateDataset.CallSetError (Some Examples.later);
       TruncateDataset.CallWithDialect "postgres"]
      (Examples.truncateHeap Examples.failedTruncate) = Ok _ _)
    by (vm_compute; reflexivity).
  destruct (Htr _ _ _ _ _ _ Hd Hrun) as (d' & Hd' & Hq & He).
  eexists _, _, d'. split; [exact Hrun|]. split; [exact Hd'|].
  split; [exact Hq|]. exact (He Examples.boom eq_refl).
Defined.

(** X3.  For each of the four builders: [SetError(nil)] leaves the heap as
    it is, and so does [SetError] with any error on a builder that carries
    an error; both return the receiver. *)
Theorem SetError_nil_or_late_writes_nothing : every_builder SetError_noop.
Proof.
  unfold every_builder.
  split; [|split; [|split]]; apply SetError_noop_holds;
    auto using insertBuilder_laws, updateBuilder_laws, deleteBuilder_laws,
      truncateBuilder_laws;
    by intros [].
Qed.

(** X3 at [Truncate("users").SetError(nil)] and at
    [Truncate("users").SetError(boom).SetError(later)]. *)
Lemma SetError_nil_or_late_writes_nothing_witness :
  TruncateDataset.SetError 1%positive None
    (Examples.truncateHeap Examples.usersTruncate)
  = Ok 1%positive (Examples.truncateHeap Examples.usersTruncate)
  ∧ TruncateDataset.SetError 1%positive (Some Examples.later)
      (Examples.truncateHeap Examples.failedTruncate)
    = Ok 1%positive (Examples.truncateHeap Examples.failedTruncate).
Proof.
  destruct SetError_nil_or_late_writes_nothing as (_ & _ & _ & Htr).
  split.
  - apply (Htr _ _ Examples.usersTruncate); [vm_compute; reflexivity|].
    left. reflexivity.
  - apply (Htr _ _ Examples.failedTruncate); [vm_compute; reflexivity|].
    right. discriminate.
Defined.

(** X4.  For each of the four builders: a builder derived from [b] by a
    mutator, and a clone of [b], taken while [b] has no error, stay without
    an error when [b.SetError(e)] is called afterwards, and [b] itself then
    reports [e]. *)
Theorem error_recorded_later_is_not_shared (env : Env) :
  every_builder (error_is_snapshotted env).
Proof.
  unfold every_builder.
  split; [|split; [|split]]; apply error_is_snapshotted_holds;
    auto using insertBuilder_laws, updateBuilder_laws, deleteBuilder_laws,
      truncateBuilder_laws.
Qed.

(** X4 at [Truncate("users")] with [Cascade]. *)
Lemma error_recorded_later_is_not_shared_witness :
  ∃ b1 h1 p h2 h3,
    TruncateDataset.invoke (env := Examples.env) 1%positive
      TruncateDataset.CallCascade
      (Examples.truncateHeap Examples.usersTruncate) = Ok b1 h1
    ∧ TruncateDataset.Clone 1%positive h1 = Ok (exp.Subquery (TruncateRef p)) h2
    ∧ TruncateDataset.SetError 1%positive (Some Examples.boom) h2
      = Ok 1%positive h3
    ∧ TruncateDataset.Error 1%positive h3 = Ok (Some Examples.boom) h3
    ∧ TruncateDataset.Error b1 h3 = Ok None h3
    ∧ TruncateDataset.Error p h3 = Ok None h3.
Proof.
  destruct (error_recorded_later_is_not_shared Examples.env)
    as (_ & _ & _ & Htr).
  assert (Hd : truncates (Examples.truncateHeap Examples.usersTruncate) !! 1%positive
               = Some Examples.usersTruncate) by (vm_compute; reflexivity).
  eassert (Hrun : invoke truncateBuilder Examples.env 1%positive
      TruncateDataset.CallCascade
      (Examples.truncateHeap Examples.usersTruncate) = Ok _ _)
    by (vm_compute; reflexivity).
  destruct (Htr _ _ _ TruncateDataset.CallCascade _ _ Examples.boom
              Hd eq_refl eq_refl Hrun)
    as (p & h2 & h3 & Hcl & Hse & Hb & Hb1 & Hp).
  eexists _, _, p, h2, h3. split; [exact Hrun|]. split; [exact Hcl|].
  split; [exact Hse|]. split; [exact Hb|]. split; [exact Hb1|exact Hp].
Defined.

(** X5.  [Executor] of each of the four builders, on a builder reached from
    [b] by any chain of calls: when [b] has no query factory, [Executor]
    panics with a nil dereference and writes nothing; when [b] has the
    factory [f], [Executor] returns what [f] makes of the statement's
    builder, the one [ToSQL] reads its result off, and writes nothing. *)
Theorem Executor_needs_query_factory (env : Env) (exec : Exec) :
  Executor_needs_factory env exec insertBuilder InsertDataset_Executor
  ∧ Executor_needs_factory env exec updateBuilder UpdateDataset_Executor
  ∧ Executor_needs_factory env exec deleteBuilder DeleteDataset_Executor
  ∧ Executor_needs_factory env exec truncateBuilder TruncateDataset_Executor.
Proof.
  split; [|split; [|split]].
  - eapply Executor_needs_factory_holds;
      eauto using insert_changes_own_field, insertBuilder_laws.
    intros h b d Hd. by apply InsertDataset_Executor_run.
  - eapply Executor_needs_factory_holds;
      eauto using update_changes_own_field, updateBuilder_laws.
    intros h b d Hd. by apply UpdateDataset_Executor_run.
  - eapply Executor_needs_factory_holds;
      eauto using delete_changes_own_field, deleteBuilder_laws.
    intros h b d Hd. by apply DeleteDataset_Executor_run.
  - eapply Executor_needs_factory_holds;
      eauto using truncate_changes_own_field, truncateBuilder_laws.
    intros h b d Hd. by apply TruncateDataset_Executor_run.
Qed.

(** X5 at a TRUNCATE of users with the query factory 7, followed by
    [Cascade] and [Prepared(true)]. *)
Lemma Executor_needs_query_factory_witness :
  ∃ b' h' buf,
    invokeAll truncateBuilder Examples.env 1%positive
      [TruncateDataset.CallCascade; TruncateDataset.CallPrepared true]
      (Examples.truncateHeap
         {| dialect := dialect Examples.usersTruncate;
            clauses := clauses Examples.usersTruncate;
            isPrepared := preparedNoPreference;
            queryFactory := Some 7%N; err := None |}) = Ok b' h'
    ∧ TruncateDataset.truncateSQLBuilder (env := Examples.env) b' h' = Ok buf h'
    ∧ TruncateDataset_Executor (env := Examples.env) (exec := mockExec) b' h'
      = Ok (7%N, buf) h'.
Proof.
  destruct (Executor_needs_query_factory Examples.env mockExec)
    as (_ & _ & _ & Htr).
  eassert (Hrun : invokeAll truncateBuilder Examples.env 1%positive
      [TruncateDataset.CallCascade; TruncateDataset.CallPrepared true]
      (Examples.truncateHeap
         {| dialect := dialect Examples.usersTruncate;
            clauses := clauses Examples.usersTruncate;
            isPrepared := preparedNoPreference;
            queryFactory := Some 7%N; err := None |}) = Ok _ _)
    by (vm_compute; reflexivity).
  eassert (Hd : objects truncateBuilder
      (Examples.truncateHeap
         {| dialect := dialect Examples.usersTruncate;
            clauses := clauses Examples.usersTruncate;
            isPrepared := preparedNoPreference;
            queryFactory := Some 7%N; err := None |}) !! 1%positive = Some _)
    by (vm_compute; reflexivity).
  pose proof (Htr _ _ _ _ _ _ Hd Hrun) as Hex.
  simpl in Hex. destruct Hex as (buf & Hb & He).
  eexists _, _, buf. split; [exact Hrun|]. split; [exact Hb|exact He].
Defined.

Lemma Insert_constructs (env : Env) table h :
  constructs_default_builder env insertBuilder h (InsertDataset.Insert table h).
Proof.
  exact (constructs_holds env insertBuilder insertBuilder_laws insertCommon
           (insert_changes_own_field env)
           {| dialect := GetDialect "default"; clauses := exp.NewInsertClauses;
              isPrepared := preparedNoPreference; queryFactory := None;
              err := None |}
           (InsertDataset.CallInto table) h
           eq_refl eq_refl eq_refl eq_refl eq_refl eq_refl).
Qed.

Lemma Insert_no_executor (env : Env) (exec : Exec) table cs h b h1 b' h' :
  InsertDataset.Insert table h = Ok b h1 →
  invokeAll insertBuilder env b cs h1 = Ok b' h' →
  InsertDataset_Executor b' h' = Panic NilDereference h'.
Proof.
  intros Hnew Hrun. pose proof (Insert_constructs env table h) as Hc.
  rewrite Hnew in Hc. destruct Hc as (_ & (d & Hd & _ & Hq & _) & _).
  pose proof (Executor_needs_factory_holds env insertBuilder insertCommon
                (insert_changes_own_field env) exec insertBuilder_laws
                InsertDataset_Executor (InsertDataset_Executor_run env exec)
                _ _ _ _ _ _ Hd Hrun) as Hex.
  by rewrite Hq in Hex.
Qed.

Lemma Update_constructs (env : Env) table h :
  constructs_default_builder env updateBuilder h (UpdateDataset.Update table h).
Proof.
  exact (constructs_holds env updateBuilder updateBuilder_laws updateCommon
           (update_changes_own_field env)
           {| dialect := GetDialect "default"; clauses := exp.NewUpdateClauses;
              isPrepared := preparedNoPreference; queryFactory := None;
              err := None |}
           (UpdateDataset.CallTable table) h
           eq_refl eq_refl eq_refl eq_refl eq_refl eq_refl).
Qed.

Lemma Update_no_executor (env : Env) (exec : Exec) table cs h b h1 b' h' :
  UpdateDataset.Update table h = Ok b h1 →
  invokeAll updateBuilder env b cs h1 = Ok b' h' →
  UpdateDataset_Executor b' h' = Panic NilDereference h'.
Proof.
  intros Hnew Hrun. pose proof (Update_constructs env table h) as Hc.
  rewrite Hnew in Hc. destruct Hc as (_ & (d & Hd & _ & Hq & _) & _).
  pose proof (Executor_needs_factory_holds env updateBuilder updateCommon
                (update_changes_own_field env) exec updateBuilder_laws
                UpdateDataset_Executor (UpdateDataset_Executor_run env exec)
                _ _ _ _ _ _ Hd Hrun) as Hex.
  by rewrite Hq in Hex.
Qed.

Lemma Delete_constructs (env : Env) table h :
  constructs_default_builder env deleteBuilder h (DeleteDataset.Delete table h).
Proof.
  exact (constructs_holds env deleteBuilder deleteBuilder_laws deleteCommon
           (delete_changes_own_field env)
           {| dialect := GetDialect "default"; clauses := exp.NewDeleteClauses;
              isPrepared := preparedNoPreference; queryFactory := None;
              err := None |}
           (DeleteDataset.CallFrom table) h
           eq_refl eq_refl eq_refl eq_refl eq_refl eq_refl).
Qed.

Lemma Delete_no_executor (env : Env) (exec : Exec) table cs h b h1 b' h' :
  DeleteDataset.Delete table h = Ok b h1 →
  invokeAll deleteBuilder env b cs h1 = Ok b' h' →
  DeleteDataset_Executor b' h' = Panic NilDereference h'.
Proof.
  intros Hnew Hrun. pose proof (Delete_constructs env table h) as Hc.
  rewrite Hnew in Hc. destruct Hc as (_ & (d & Hd & _ & Hq & _) & _).
  pose proof (Executor_needs_factory_holds env deleteBuilder deleteCommon
                (delete_changes_own_field env) exec deleteBuilder_laws
                DeleteDataset_Executor (DeleteDataset_Executor_run env exec)
                _ _ _ _ _ _ Hd Hrun) as Hex.
  by rewrite Hq in Hex.
Qed.

Lemma Truncate_constructs (env : Env) table h :
  constructs_default_builder env truncateBuilder h (TruncateDataset.Truncate table h).
Proof.
  exact (constructs_holds env truncateBuilder truncateBuilder_laws truncateCommon
           (truncate_changes_own_field env)
           {| dialect := GetDialect "default"; clauses := exp.NewTruncateClauses;
              isPrepared := preparedNoPreference; queryFactory := None;
              err := None |}
           (TruncateDataset.CallTable table) h
           eq_refl eq_refl eq_refl eq_refl eq_refl eq_refl).
Qed.

Lemma Truncate_no_executor (env : Env) (exec : Exec) table cs h b h1 b' h' :
  TruncateDataset.Truncate table h = Ok b h1 →
  invokeAll truncateBuilder env b cs h1 = Ok b' h' →
  TruncateDataset_Executor b' h' = Panic NilDereference h'.
Proof.
  intros Hnew Hrun. pose proof (Truncate_constructs env table h) as Hc.
  rewrite Hnew in Hc. destruct Hc as (_ & (d & Hd & _ & Hq & _) & _).
  pose proof (Executor_needs_factory_holds env truncateBuilder truncateCommon
                (truncate_changes_own_field env) exec truncateBuilder_laws
                TruncateDataset_Executor (TruncateDataset_Executor_run env exec)
                _ _ _ _ _ _ Hd Hrun) as Hex.
  by rewrite Hq in Hex.
Qed.

(** X6.  The package-level constructors [Insert], [Update], [Delete] and
    [Truncate], on any heap and with any argument: when the call returns,
    the builder is at an address that had no object, is under the default
    dialect, has no query factory and no error; whether the call returns or
    panics, every object of the heap is as it was. *)
Theorem constructors_build_default_builders (env : Env) (h : Heap) :
  (∀ table, constructs_default_builder env insertBuilder h
              (InsertDataset.Insert table h))
  ∧ (∀ table, constructs_default_builder env updateBuilder h
                (UpdateDataset.Update table h))
  ∧ (∀ table, constructs_default_builder env deleteBuilder h
                (DeleteDataset.Delete table h))
  ∧ (∀ table, constructs_default_builder env truncateBuilder h
                (TruncateDataset.Truncate table h)).
Proof.
  split; [intros table; apply Insert_constructs|].
  split; [intros table; apply Update_constructs|].
  split; intros table; [apply Delete_constructs|apply Truncate_constructs].
Qed.

(** X7.  A builder made by a package-level constructor has no executor,
    however it is modified afterwards: for every chain of calls on it that
    returns, [Executor] of the last builder panics with a nil dereference
    and writes nothing. *)
Theorem constructed_builders_have_no_executor (env : Env) (exec : Exec) :
  (∀ table cs h b h1 b' h',
     InsertDataset.Insert table h = Ok b h1 →
     invokeAll insertBuilder env b cs h1 = Ok b' h' →
     InsertDataset_Executor b' h' = Panic NilDereference h')
  ∧ (∀ table cs h b h1 b' h',
     UpdateDataset.Update table h = Ok b h1 →
     invokeAll updateBuilder env b cs h1 = Ok b' h' →
     UpdateDataset_Executor b' h' = Panic NilDereference h')
  ∧ (∀ table cs h b h1 b' h',
     DeleteDataset.Delete table h = Ok b h1 →
     invokeAll deleteBuilder env b cs h1 = Ok b' h' →
     DeleteDataset_Executor b' h' = Panic NilDereference h')
  ∧ (∀ table cs h b h1 b' h',
     TruncateDataset.Truncate table h = Ok b h1 →
     invokeAll truncateBuilder env b cs h1 = Ok b' h' →
     TruncateDataset_Executor b' h' = Panic NilDereference h').
Proof.
  split; [|split; [|split]]; intros table cs h b h1 b' h'.
  - apply Insert_no_executor.
  - apply Update_no_executor.
  - apply Delete_no_executor.
  - apply Truncate_no_executor.
Qed.

(** X6 at [Update("orders")] and [Update(nil)] on a heap that holds
    [Update("users").Limit(7)]. *)
Lemma constructors_build_default_builders_witness :
  (∃ b h' d,
     UpdateDataset.Update (env := Examples.env) (exp.VString "orders")
       Examples.updateHeap = Ok b h'
     ∧ updates h' !! b = Some d
     ∧ dialect d = Mock.defaultDialect
     ∧ err d = None
     ∧ lookupRef h' (UpdateRef 1%positive)
       = Some (UpdateObj Examples.usersUpdate))
  ∧ (∃ e h',
     UpdateDataset.Update (env := Examples.env) exp.VNil Examples.updateHeap
       = Panic e h'
     ∧ lookupRef h' (UpdateRef 1%positive)
       = Some (UpdateObj Examples.usersUpdate)).
Proof.
  destruct (constructors_build_default_builders Examples.env Examples.updateHeap)
    as (_ & Hup & _ & _).
  split.
  - eassert (Hrun : UpdateDataset.Update (env := Examples.env)
        (exp.VString "orders") Examples.updateHeap = Ok _ _)
      by (vm_compute; reflexivity).
    pose proof (Hup (exp.VString "orders")) as Hc. rewrite Hrun in Hc.
    destruct Hc as (_ & (d & Hd & Hdl & _ & He) & Hkeep).
    eexists _, _, d. split; [exact Hrun|]. split; [exact Hd|].
    split; [exact Hdl|]. split; [exact He|].
    apply Hkeep. vm_compute. reflexivity.
  - eassert (Hrun : UpdateDataset.Update (env := Examples.env)
        exp.VNil Examples.updateHeap = Panic _ _)
      by (vm_compute; reflexivity).
    pose proof (Hup exp.VNil) as Hc. rewrite Hrun in Hc.
    eexists _, _. split; [exact Hrun|].
    apply Hc. vm_compute. reflexivity.
Defined.

(** X7 at [Truncate("users").Cascade().Prepared(true)]. *)
Lemma constructed_builders_have_no_executor_witness :
  ∃ b h1 b' h',
    TruncateDataset.Truncate (env := Examples.env) [exp.VString "users"]
      emptyHeap = Ok b h1
    ∧ invokeAll truncateBuilder Examples.env b
        [TruncateDataset.CallCascade; TruncateDataset.CallPrepared true] h1
      = Ok b' h'
    ∧ TruncateDataset_Executor (env := Examples.env) (exec := mockExec) b' h'
      = Panic NilDereference h'.
Proof.
  destruct (constructed_builders_have_no_executor Examples.env mockExec)
    as (_ & _ & _ & Htr).
  eassert (Hnew : TruncateDataset.Truncate (env := Examples.env)
      [exp.VString "users"] emptyHeap = Ok _ _)
    by (vm_compute; reflexivity).
  match type of Hnew with
  | _ = Ok ?b ?h1 =>
      eassert (Hrun : invokeAll truncateBuilder Examples.env b
          [TruncateDataset.CallCascade; TruncateDataset.CallPrepared true] h1
          = Ok _ _)
        by (vm_compute; reflexivity)
  end.
  eexists _, _, _, _. split; [exact Hnew|]. split; [exact Hrun|].
  exact (Htr _ _ _ _ _ _ _ Hnew Hrun).
Defined.

(** X8.  [AppendSQL] of the INSERT, UPDATE and DELETE builders: appended to
    a new builder of the statement's prepared mode, the statement gives the
    builder that [ToSQL] reads its result off; a statement that carries an
    error adds no text and no parameter to the outer builder, under any
    environment, and leaves it with an error: the one it had, or else the
    statement's.  The heap is not written. *)
Theorem AppendSQL_embeds_statement (env : Env) :
  AppendSQL_embeds env insertBuilder (@InsertDataset.AppendSQL)
  ∧ AppendSQL_embeds env updateBuilder (@UpdateDataset.AppendSQL)
  ∧ AppendSQL_embeds env deleteBuilder (@DeleteDataset.AppendSQL).
Proof.
  split; [apply insert_AppendSQL_embeds|].
  split; [apply update_AppendSQL_embeds|apply delete_AppendSQL_embeds].
Qed.

(** X8 at [Update("users").Limit(7)]. *)
Lemma AppendSQL_embeds_statement_witness :
  UpdateDataset.AppendSQL (env := Examples.env) 1%positive
    (sb.NewSQLBuilder false) Examples.updateHeap
  = UpdateDataset.updateSQLBuilder (env := Examples.env) 1%positive
      Examples.updateHeap.
Proof.
  destruct (AppendSQL_embeds_statement Examples.env) as (_ & Hup & _).
  assert (Hd : updates Examples.updateHeap !! 1%positive
               = Some Examples.usersUpdate) by (vm_compute; reflexivity).
  exact (proj1 (Hup _ _ _ Hd)).
Defined.

(** ** The row source of an INSERT *)

Lemma with_selects_id h sds (s : Dataset exp.SelectClauses) :
  selects h !! sds = Some s →
  with_selects h (<[sds := set_dialect s (dialect s)]> (selects h)) = h.
Proof.
  intros Hs. replace (set_dialect s (dialect s)) with s by by destruct s.
  rewrite insert_id by done. by destruct h.
Qed.

(** X9.  When [FromQuery] panics and what it writes, on an allocated
    receiver.  With an argument that is not a SELECT builder it is a copy
    with the row source set, and nothing else.  With a SELECT builder it
    panics exactly when the SELECT's dialect is neither the default one nor
    the receiver's; when the two dialects are the same, it is again a copy
    with the row source set and the SELECT is not written.  With a nil
    SELECT pointer it panics with a nil dereference before writing. *)
Theorem FromQuery_panics_exactly_when_incompatible (env : Env) h id
    (d : Dataset exp.InsertClauses) :
  inserts h !! id = Some d →
  (∀ from, (∀ sds, from ≠ exp.Subquery (SelectRef sds)) →
     InsertDataset.FromQuery id from h
     = copied insertBuilder h d (exp.InsertClauses_SetFrom (clauses d) from))
  ∧ (∀ sds s, selects h !! sds = Some s →
       ((∃ e h', InsertDataset.FromQuery id (exp.Subquery (SelectRef sds)) h
                 = Panic e h')
        ↔ dialect s ≠ GetDialect "default" ∧ dialect s ≠ dialect d)
       ∧ (dialect s = dialect d →
          InsertDataset.FromQuery id (exp.Subquery (SelectRef sds)) h
          = copied insertBuilder h d
              (exp.InsertClauses_SetFrom (clauses d)
                 (exp.Subquery (SelectRef sds)))))
  ∧ (∀ sds, selects h !! sds = None →
       InsertDataset.FromQuery id (exp.Subquery (SelectRef sds)) h
       = Panic NilDereference h).
Proof.
  intros Hd. split; [|split].
  - intros from Hfrom. rewrite (FromQuery_run _ _ _ _ Hd).
    destruct from as [| |[sds| | | |]|]; try done. by destruct (Hfrom sds).
  - intros sds s Hs. rewrite (FromQuery_run _ _ _ _ Hd), Hs. split.
    + case_decide as Hc.
      * split; [intros _|eauto]. destruct Hc as [? ?]. split; congruence.
      * split; [by intros (e & h' & ?)|]. intros [? ?]. destruct Hc.
        split; congruence.
    + intros Heq. rewrite decide_False by (intros [_ ?]; congruence).
      simpl. unfold copied. simpl. rewrite <- Heq.
      by rewrite (with_selects_id _ _ _ Hs).
  - intros sds Hs. by rewrite (FromQuery_run _ _ _ _ Hd), Hs.
Qed.

(** X9 at an INSERT and a SELECT both under postgres, and at a literal as
    the row source. *)
Lemma FromQuery_panics_exactly_when_incompatible_witness :
  (∃ b' h',
     InsertDataset.FromQuery (env := Examples.env) 1%positive
       (exp.Subquery (SelectRef 1%positive))
       (Examples.insertHeap Mock.postgresDialect Mock.postgresDialect)
     = Ok b' h'
     ∧ selects h'
       = selects (Examples.insertHeap Mock.postgresDialect Mock.postgresDialect))
  ∧ (∃ b' h',
     InsertDataset.FromQuery (env := Examples.env) 1%positive
       (exp.Literal "DEFAULT VALUES")
       (Examples.insertHeap Mock.postgresDialect Mock.defaultDialect)
     = Ok b' h'
     ∧ selects h'
       = selects (Examples.insertHeap Mock.postgresDialect Mock.defaultDialect)).
Proof.
  split.
  - assert (Hd : inserts (Examples.insertHeap Mock.postgresDialect
                            Mock.postgresDialect) !! 1%positive
                 = Some (Examples.archiveInsert Mock.postgresDialect))
      by (vm_compute; reflexivity).
    assert (Hs : selects (Examples.insertHeap Mock.postgresDialect
                            Mock.postgresDialect) !! 1%positive
                 = Some (Examples.usersSelect Mock.postgresDialect))
      by (vm_compute; reflexivity).
    destruct (FromQuery_panics_exactly_when_incompatible Examples.env _ _ _ Hd)
      as (_ & Hsel & _).
    destruct (Hsel _ _ Hs) as [_ Heq].
    eexists _, _. split; [exact (Heq eq_refl)|]. reflexivity.
  - assert (Hd : inserts (Examples.insertHeap Mock.postgresDialect
                            Mock.defaultDialect) !! 1%positive
                 = Some (Examples.archiveInsert Mock.postgresDialect))
      by (vm_compute; reflexivity).
    destruct (FromQuery_panics_exactly_when_incompatible Examples.env _ _ _ Hd)
      as (Hother & _ & _).
    eexists _, _. split; [apply Hother; discriminate|]. reflexivity.
Defined.

(** X10.  A SELECT builder under the default dialect that has been the row
    source of an INSERT under another dialect can no longer be the row
    source of an INSERT under a third dialect: the second [FromQuery]
    panics with the incompatibility error and writes nothing, although on
    the heap before the first call it would have returned. *)
Theorem FromQuery_adoption_excludes_other_dialects (env : Env) h id1 id2
    (d1 d2 : Dataset exp.InsertClauses) sds (s : Dataset exp.SelectClauses) :
  inserts h !! id1 = Some d1 →
  inserts h !! id2 = Some d2 →
  selects h !! sds = Some s →
  dialect s = GetDialect "default" →
  dialect d1 ≠ GetDialect "default" →
  dialect d2 ≠ dialect d1 →
  (∃ b2 h2, InsertDataset.FromQuery id2 (exp.Subquery (SelectRef sds)) h
            = Ok b2 h2)
  ∧ ∃ b1 h1,
      InsertDataset.FromQuery id1 (exp.Subquery (SelectRef sds)) h = Ok b1 h1
      ∧ InsertDataset.FromQuery id2 (exp.Subquery (SelectRef sds)) h1
        = Panic (ErrIncompatibleDialects (SQLDialect_Dialect (dialect d2))
                                         (SQLDialect_Dialect (dialect d1))) h1.
Proof.
  intros Hd1 Hd2 Hs Hdef Hn1 Hn2. split.
  - rewrite (FromQuery_run _ _ _ _ Hd2), Hs. simpl.
    rewrite decide_False by (intros [? _]; done). eauto.
  - rewrite (FromQuery_run _ _ _ _ Hd1), Hs. simpl.
    rewrite decide_False by (intros [? _]; done).
    eexists _, _. split; [done|].
    set (h1 := with_inserts _ _).
    assert (H2 : inserts h1 !! id2 = Some d2).
    { unfold h1. simpl. rewrite lookup_insert_ne; [done|]. by eapply newLoc_ne. }
    assert (Hs1 : selects h1 !! sds = Some (set_dialect s (dialect d1))).
    { unfold h1. simpl. by rewrite lookup_insert_eq. }
    rewrite (FromQuery_run _ _ _ _ H2), Hs1. simpl.
    by rewrite decide_True.
Qed.

(** X10 at INSERTs under postgres and under a third dialect, with a
    SELECT under the default dialect. *)
Lemma FromQuery_adoption_excludes_other_dialects_witness :
  ∃ b1 h1,
    InsertDataset.FromQuery (env := Examples.env) 1%positive
      (exp.Subquery (SelectRef 1%positive))
      (with_selects
         (with_inserts emptyHeap
            (<[2%positive := Examples.archiveInsert (DialectAt 2)]>
               {[1%positive := Examples.archiveInsert Mock.postgresDialect]}))
         {[1%positive := Examples.usersSelect Mock.defaultDialect]})
    = Ok b1 h1
    ∧ InsertDataset.FromQuery (env := Examples.env) 2%positive
        (exp.Subquery (SelectRef 1%positive)) h1
      = Panic (ErrIncompatibleDialects "default" "postgres") h1.
Proof.
  destruct (FromQuery_adoption_excludes_other_dialects Examples.env
    (with_selects
       (with_inserts emptyHeap
          (<[2%positive := Examples.archiveInsert (DialectAt 2)]>
             {[1%positive := Examples.archiveInsert Mock.postgresDialect]}))
       {[1%positive := Examples.usersSelect Mock.defaultDialect]})
    1%positive 2%positive
    (Examples.archiveInsert Mock.postgresDialect)
    (Examples.archiveInsert (DialectAt 2))
    1%positive (Examples.usersSelect Mock.defaultDialect))
    as (_ & b1 & h1 & H1 & H2);
    try (vm_compute; reflexivity); try discriminate.
  exists b1, h1. split; [exact H1|exact H2].
Defined.
